(** * Hybrid retrieval, fusion, chunking and access filtering

    A shallow embedding of the retrieval core of the document pipeline
    (vector_store.py, qdrant_manager.py, keyword_db.py, pdf_processor.py,
    chatbot.py, config.py) and the properties of its specification,
    followed by the reading of the PDF files, the indexing of their chunks
    and the request handlers of api_server.py.

    Conventions of the embedding:
    - a Python [dict] with a fixed set of optional keys is a record of
      [option] fields ([None] = key absent);
    - a Python [dict] whose iteration order matters is an association list
      kept in insertion order; one used only for lookups is a [gmap];
    - a Python [float] score is an exact rational ([Q]);
    - a Python [str] is a [string] of bytes (its UTF-8 encoding);
    - code that may raise returns [result]; code that also reads or writes
      the object's state runs in the monad [M];
    - the external collaborators (vector database, full-text index,
      tokenizers, embedding model, language model) are fields of a record of
      oracles, passed explicitly; so are the file system and the PDF reader
      ([Ingest.Files]), what lies behind the writes of the indexing
      ([Indexing.Backend]) and the globals of the server
      ([ApiServer.Services]). *)

From Stdlib Require Import ZArith QArith Qround Lia Permutation Sorted.
From Stdlib Require Import Ascii String DecimalString.
From stdpp Require Import gmap strings list.

Local Open Scope Z_scope.
Local Open Scope Q_scope.
Local Open Scope nat_scope.
Local Open Scope stdpp_scope.

(** ** Python built-ins used by the sources *)

Module Py.

(** Exceptions, as far as the sources tell them apart:
    [except sqlite3.Error] against [except Exception]. *)
Inductive exn : Type :=
| KeyError (key : string)
| SqliteError (msg : string)
| Exception (msg : string).

Inductive result (A : Type) : Type :=
| Ok (a : A)
| Raise (e : exn).
Arguments Ok {A} a.
Arguments Raise {A} e.

(** [str.isspace] on one character (ASCII range). *)
Definition isspace (c : ascii) : bool :=
  let n := nat_of_ascii c in
  ((9 <=? n) && (n <=? 13)) || ((28 <=? n) && (n <=? 32)).

(** [str.split()] with no argument: maximal runs of non-space characters. *)
Fixpoint split_go (cur : option string) (s : string) : list string :=
  match s with
  | EmptyString => option_list (String.rev <$> cur)
  | String a s' =>
      if isspace a
      then option_list (String.rev <$> cur) ++ split_go None s'
      else split_go (Some (String a (default EmptyString cur))) s'
  end.
Definition split (s : string) : list string := split_go None s.

(** [str.lstrip()], [str.rstrip()], [str.strip()]. *)
Fixpoint lstrip (s : string) : string :=
  match s with
  | EmptyString => EmptyString
  | String a s' => if isspace a then lstrip s' else s
  end.
Definition rstrip (s : string) : string := String.rev (lstrip (String.rev s)).
Definition strip (s : string) : string := rstrip (lstrip s).

(** [sep.join(l)]. *)
Fixpoint join (sep : string) (l : list string) : string :=
  match l with
  | [] => EmptyString
  | [x] => x
  | x :: rest => x +:+ sep +:+ join sep rest
  end.

(** [l[i:j]] for [0 <= i <= j]. *)
Definition slice {A : Type} (l : list A) (i j : nat) : list A :=
  firstn (j - i) (skipn i l).

(** [s[:n]] on a string. *)
Definition str_prefix (n : nat) (s : string) : string := String.substring 0 n s.

(** [range(start, stop, step)] for a positive step. The fuel bounds the
    number of elements, which never exceeds [stop - start]. *)
Fixpoint range_go (fuel start stop step : nat) : list nat :=
  match fuel with
  | O => []
  | S fuel' =>
      if start <? stop then start :: range_go fuel' (start + step) stop step
      else []
  end.
Definition range (start stop step : nat) : list nat :=
  range_go (stop - start) start stop step.

(** [str(n)] for an [int]. *)
Definition str_of_int (n : Z) : string := NilZero.string_of_int (Z.to_int n).

(** [str.lower] and [str.isalnum] (ASCII range). *)
Definition lower_ascii (c : ascii) : ascii :=
  let n := nat_of_ascii c in
  if (65 <=? n) && (n <=? 90) then ascii_of_nat (n + 32) else c.
Fixpoint lower (s : string) : string :=
  match s with
  | EmptyString => EmptyString
  | String a s' => String (lower_ascii a) (lower s')
  end.
Definition isalnum_ascii (c : ascii) : bool :=
  let n := nat_of_ascii c in
  ((48 <=? n) && (n <=? 57)) || ((65 <=? n) && (n <=? 90))
  || ((97 <=? n) && (n <=? 122)).
Fixpoint all_chars (p : ascii -> bool) (s : string) : bool :=
  match s with
  | EmptyString => true
  | String a s' => p a && all_chars p s'
  end.
Definition isalnum (s : string) : bool :=
  negb (String.eqb s EmptyString) && all_chars isalnum_ascii s.

(** Truthiness of a [str]: non-empty. *)
Definition truthy (s : string) : bool := negb (String.eqb s EmptyString).

(** [sorted(l, key=key, reverse=True)]: a stable sort, largest key first;
    elements with equal keys keep their relative order. *)
Fixpoint insert_desc {A : Type} (key : A -> Q) (x : A) (l : list A) : list A :=
  match l with
  | [] => [x]
  | y :: l' =>
      if Qle_bool (key y) (key x) then x :: y :: l'
      else y :: insert_desc key x l'
  end.
Definition sorted_desc {A : Type} (key : A -> Q) (l : list A) : list A :=
  fold_right (insert_desc key) [] l.

(** [enumerate(l, start)]. *)
Definition enumerate {A : Type} (l : list A) (start : nat) : list (nat * A) :=
  combine (seq start (length l)) l.

(** A [dict] with [str] keys whose iteration order is observed: the
    entries in insertion order. [d[k] = v] on a present key replaces the
    value and keeps the position of the entry. *)
Definition dict (V : Type) : Type := list (string * V).
Fixpoint dict_get {V : Type} (d : dict V) (k : string) : option V :=
  match d with
  | [] => None
  | (k', v) :: d' => if String.eqb k' k then Some v else dict_get d' k
  end.
Fixpoint dict_set {V : Type} (d : dict V) (k : string) (v : V) : dict V :=
  match d with
  | [] => [(k, v)]
  | (k', v') :: d' =>
      if String.eqb k' k then (k', v) :: d' else (k', v') :: dict_set d' k v
  end.
Definition dict_values {V : Type} (d : dict V) : list V := map snd d.
Definition dict_keys {V : Type} (d : dict V) : list string := map fst d.

(** [x in l] for a list of [str]. *)
Definition contains (l : list string) (x : string) : bool :=
  existsb (String.eqb x) l.

(** Truthiness of a list: non-empty. *)
Definition nonempty {A : Type} (l : list A) : bool :=
  match l with [] => false | _ :: _ => true end.

End Py.

Export Py (result(..), exn(..)).


(** ** config.py *)

Module Config.
Definition EMBEDDING_MODEL : string := "all-MiniLM-L6-v2".
Definition MIN_CHARS_PER_PAGE : nat := 50.
Definition MIN_SENTENCE_LENGTH : nat := 5.
Definition SENTENCES_PER_CHUNK : nat := 5.
Definition SIMILARITY_TOP_K : nat := 8.
Definition HYBRID_SEARCH_RATIO : Q := 7 # 10.
Definition OLLAMA_MODEL : string := "llama2:latest".
Definition CONTEXT_CHUNKS_FOR_RAG : nat := 3.

Definition nl : string := String (ascii_of_nat 10) EmptyString.

(** [RAG_PROMPT_TEMPLATE], cut at its two fields [{context}] and
    [{question}]. *)
Definition RAG_PROMPT_before_context : string :=
  nl +:+ "    **Task:** You are an intelligent assistant. Use the following context from the user's documents to answer their question." +:+ nl
  +:+ nl +:+ "    **Context from Documents:**" +:+ nl
  +:+ "    ---" +:+ nl +:+ "    ".
Definition RAG_PROMPT_before_question : string :=
  nl +:+ "    ---" +:+ nl
  +:+ nl +:+ "    **User's Question:**" +:+ nl +:+ "    ".
Definition RAG_PROMPT_after_question : string :=
  nl +:+ nl +:+ "    **Instructions:**" +:+ nl
  +:+ "    1.  Base your answer strictly on the provided context." +:+ nl
  +:+ "    2.  If the context does not contain the answer, state that you cannot find the information in the documents." +:+ nl
  +:+ "    3.  Do not make up information or use external knowledge." +:+ nl
  +:+ "    4.  Be concise and clear in your response." +:+ nl
  +:+ nl +:+ "    **Answer:**" +:+ nl +:+ "    ".

(** [RAG_PROMPT_TEMPLATE.format(context=c, question=q)]. *)
Definition RAG_PROMPT_TEMPLATE_format (context question : string) : string :=
  RAG_PROMPT_before_context +:+ context +:+ RAG_PROMPT_before_question
  +:+ question +:+ RAG_PROMPT_after_question.
End Config.

(** ** Data model *)

(** An embedding vector ([numpy] array of floats). *)
Definition embedding : Type := list Q.

(** The [metadata] dict of a search hit; only its ['source'] key is read. *)
Record Metadata : Type := mkMetadata {
  md_source : option string
}.

(** The payload stored with a point, [{"text", "pdf_name", "page"}]; the
    chatbot also looks for a ['metadata'] key in it. *)
Record Payload : Type := mkPayload {
  pl_text : option string;
  pl_pdf_name : option string;
  pl_page : option Z;
  pl_metadata : option Metadata
}.

(** A search hit as a [dict]: [{'id', 'payload', 'score'}] as built by
    [QdrantManager.search] and [_fuse_results]; the readers also look for
    top-level ['text'] and ['metadata'] keys. *)
Record SearchResult : Type := mkSearchResult {
  sr_id : option string;
  sr_payload : option Payload;
  sr_score : option Q;
  sr_text : option string;
  sr_metadata : option Metadata
}.

(** A [ScoredPoint] returned by the vector database client. *)
Record ScoredPoint : Type := mkScoredPoint {
  sp_id : string;
  sp_payload : Payload;
  sp_score : Q
}.

(** A row [(id, text, pdf_name, page)] fetched from the keyword table. *)
Record Row : Type := mkRow {
  row_id : string;
  row_text : string;
  row_pdf_name : string;
  row_page : Z
}.

(** An element of a result list: [isinstance(result, dict)] tells a dict
    from a row tuple. *)
Inductive PyVal : Type :=
| PyDict (d : SearchResult)
| PyTuple (r : Row).

(** A page entry [{"pdf_name", "page", "text"}] from text extraction. *)
Record Page : Type := mkPage {
  pg_pdf_name : string;
  pg_page : Z;
  pg_text : string
}.

(** A chunk [{"text", "metadata": {"pdf_name", "page", "chunk_id"}}]. *)
Record ChunkMeta : Type := mkChunkMeta {
  cm_pdf_name : string;
  cm_page : Z;
  cm_chunk_id : string
}.
Record Chunk : Type := mkChunk {
  ch_text : string;
  ch_metadata : ChunkMeta
}.

(** The reply of the language model: a dict that may hold ['response']. *)
Record LLMResponse : Type := mkLLMResponse {
  llm_response : option string
}.

(** ** External collaborators *)

(** Everything outside the repository, as functions of the arguments the
    sources pass. A call that can fail returns [result]. *)
Record World : Type := mkWorld {
  (** [nltk.tokenize.sent_tokenize] *)
  sent_tokenize : string -> list string;
  (** [nltk.download] followed by [nltk.tokenize.word_tokenize] *)
  word_tokenize : string -> result (list string);
  (** [hash(content)] on a [str] *)
  py_hash : string -> Z;
  (** [model.encode(texts, ...)] on a batch *)
  encode_batch : list string -> result (list embedding);
  (** [model.encode(query)] on one text *)
  encode_query : string -> result embedding;
  (** [client.search(query_vector, limit, score_threshold)] *)
  client_search : embedding -> nat -> option Q -> result (list ScoredPoint);
  (** the [SELECT ... MATCH ? LIMIT ?] statement and [fetchall] *)
  fts_select : string -> nat -> result (list Row);
  (** writing the cache file of a chunk *)
  write_cache_file : string -> embedding -> result unit;
  (** [ollama.generate(model, prompt)] *)
  ollama_generate : string -> string -> result LLMResponse
}.

(** Calls to the collaborators, in the order they happen. *)
Inductive event : Type :=
| EvEncodeBatch (texts : list string)
| EvEncodeQuery (query : string)
| EvClientSearch (limit : nat) (threshold : option Q)
| EvFtsSelect (match_query : string) (limit : nat)
| EvWriteCacheFile (chunk_id : string)
| EvOllamaGenerate (prompt : string).

(** ** State and exceptions *)

(** The mutable part of a [VectorStore] object, and the trace of calls. *)
Record State : Type := mkState {
  embedding_cache : gmap string embedding;
  trace : list event
}.

Definition M (A : Type) : Type := State -> result A * State.

Definition ret {A : Type} (a : A) : M A := fun st => (Ok a, st).
Definition raise {A : Type} (e : exn) : M A := fun st => (Raise e, st).
Definition bind {A B : Type} (m : M A) (k : A -> M B) : M B :=
  fun st =>
    match m st with
    | (Ok a, st') => k a st'
    | (Raise e, st') => (Raise e, st')
    end.
(** [try: body except Exception as e: handler(e)]; what the body did to the
    state before raising stays done. *)
Definition try_except {A : Type} (body : M A) (handler : exn -> M A) : M A :=
  fun st =>
    match body st with
    | (Ok a, st') => (Ok a, st')
    | (Raise e, st') => handler e st'
    end.
Definition lift {A : Type} (r : result A) : M A := fun st => (r, st).
Definition emit (ev : event) : M unit :=
  fun st => (Ok tt, mkState (embedding_cache st) (trace st ++ [ev])).
(** A call to a collaborator: recorded, then its outcome. *)
Definition call {A : Type} (ev : event) (r : result A) : M A :=
  bind (emit ev) (fun _ => lift r).
Definition get_cache : M (gmap string embedding) :=
  fun st => (Ok (embedding_cache st), st).
Definition put_cache (c : gmap string embedding) : M unit :=
  fun st => (Ok tt, mkState c (trace st)).

Declare Scope M_scope.
Delimit Scope M_scope with M.
Notation "x <- m ;; k" := (bind m (fun x => k))
  (at level 100, m at next level, right associativity) : M_scope.
Notation "m ;;; k" := (bind m (fun _ => k))
  (at level 100, right associativity) : M_scope.

(** [for x in l: body x], threading an accumulator. *)
Fixpoint for_each {A S : Type} (l : list A) (body : S -> A -> M S) (acc : S) : M S :=
  match l with
  | [] => ret acc
  | x :: l' => bind (body acc x) (for_each l' body)
  end.

(** ** hashlib.md5 (RFC 1321) *)

Module MD5.
Local Open Scope Z_scope.

Definition mask32 : Z := 0xffffffff.
Definition add32 (a b : Z) : Z := Z.land (a + b) mask32.
Definition not32 (a : Z) : Z := Z.lxor a mask32.
Definition rotl32 (x n : Z) : Z :=
  Z.land (Z.lor (Z.shiftl x n) (Z.shiftr x (32 - n))) mask32.

(** [K[i] = floor(2^32 * abs(sin(i + 1)))] *)
Definition K : list Z :=
  [ 0xd76aa478; 0xe8c7b756; 0x242070db; 0xc1bdceee;
    0xf57c0faf; 0x4787c62a; 0xa8304613; 0xfd469501;
    0x698098d8; 0x8b44f7af; 0xffff5bb1; 0x895cd7be;
    0x6b901122; 0xfd987193; 0xa679438e; 0x49b40821;
    0xf61e2562; 0xc040b340; 0x265e5a51; 0xe9b6c7aa;
    0xd62f105d; 0x02441453; 0xd8a1e681; 0xe7d3fbc8;
    0x21e1cde6; 0xc33707d6; 0xf4d50d87; 0x455a14ed;
    0xa9e3e905; 0xfcefa3f8; 0x676f02d9; 0x8d2a4c8a;
    0xfffa3942; 0x8771f681; 0x6d9d6122; 0xfde5380c;
    0xa4beea44; 0x4bdecfa9; 0xf6bb4b60; 0xbebfbc70;
    0x289b7ec6; 0xeaa127fa; 0xd4ef3085; 0x04881d05;
    0xd9d4d039; 0xe6db99e5; 0x1fa27cf8; 0xc4ac5665;
    0xf4292244; 0x432aff97; 0xab9423a7; 0xfc93a039;
    0x655b59c3; 0x8f0ccc92; 0xffeff47d; 0x85845dd1;
    0x6fa87e4f; 0xfe2ce6e0; 0xa3014314; 0x4e0811a1;
    0xf7537e82; 0xbd3af235; 0x2ad7d2bb; 0xeb86d391 ].

(** Per-round left-rotation amounts. *)
Definition shifts : list Z :=
  [ 7; 12; 17; 22; 7; 12; 17; 22; 7; 12; 17; 22; 7; 12; 17; 22;
    5; 9; 14; 20; 5; 9; 14; 20; 5; 9; 14; 20; 5; 9; 14; 20;
    4; 11; 16; 23; 4; 11; 16; 23; 4; 11; 16; 23; 4; 11; 16; 23;
    6; 10; 15; 21; 6; 10; 15; 21; 6; 10; 15; 21; 6; 10; 15; 21 ].

Record regs : Type := mkRegs { rA : Z; rB : Z; rC : Z; rD : Z }.

Definition init : regs :=
  mkRegs 0x67452301 0xefcdab89 0x98badcfe 0x10325476.

(** One of the 64 operations on a block of sixteen words [m]. *)
Definition step (m : list Z) (r : regs) (i : nat) : regs :=
  let '(mkRegs a b c d) := r in
  let iz := Z.of_nat i in
  let '(f, g) :=
    if (i <? 16)%nat then (Z.lor (Z.land b c) (Z.land (not32 b) d), iz)
    else if (i <? 32)%nat then
      (Z.lor (Z.land d b) (Z.land (not32 d) c), (5 * iz + 1) mod 16)
    else if (i <? 48)%nat then (Z.lxor b (Z.lxor c d), (3 * iz + 5) mod 16)
    else (Z.lxor c (Z.lor b (not32 d)), (7 * iz) mod 16) in
  let f' := add32 (add32 (add32 f a) (nth i K 0)) (nth (Z.to_nat g) m 0) in
  mkRegs d (add32 b (rotl32 f' (nth i shifts 0))) b c.

Definition process_block (r : regs) (m : list Z) : regs :=
  let r' := fold_left (step m) (seq 0 64) r in
  mkRegs (add32 (rA r) (rA r')) (add32 (rB r) (rB r'))
         (add32 (rC r) (rC r')) (add32 (rD r) (rD r')).

(** Little-endian bytes of a number, and back. *)
Fixpoint le_bytes (n : nat) (x : Z) : list Z :=
  match n with
  | O => []
  | S n' => Z.land x 0xff :: le_bytes n' (Z.shiftr x 8)
  end.
Fixpoint le_word (bs : list Z) : Z :=
  match bs with
  | [] => 0
  | b :: bs' => b + 256 * le_word bs'
  end.

(** Cut a list into pieces of [n] elements ([n > 0]). *)
Fixpoint pieces {A : Type} (fuel n : nat) (l : list A) : list (list A) :=
  match fuel, l with
  | O, _ | _, [] => []
  | S fuel', _ => firstn n l :: pieces fuel' n (skipn n l)
  end.

Definition pad (msg : list Z) : list Z :=
  let len := Z.of_nat (length msg) in
  msg ++ [0x80] ++ repeat 0 (Z.to_nat ((55 - len) mod 64))
      ++ le_bytes 8 ((8 * len) mod 2 ^ 64).

Definition bytes_of_string (s : string) : list Z :=
  map (fun c => Z.of_nat (nat_of_ascii c)) (list_ascii_of_string s).

Definition digest (msg : list Z) : list Z :=
  let padded := pad msg in
  let blocks :=
    map (fun blk => map le_word (pieces 16 4 blk))
        (pieces (length padded) 64 padded) in
  let r := fold_left process_block blocks init in
  le_bytes 4 (rA r) ++ le_bytes 4 (rB r) ++ le_bytes 4 (rC r)
    ++ le_bytes 4 (rD r).

Definition hex_digit (x : Z) : ascii :=
  if x <? 10 then ascii_of_nat (Z.to_nat (48 + x))
  else ascii_of_nat (Z.to_nat (87 + x)).
Fixpoint hex_of_bytes (bs : list Z) : string :=
  match bs with
  | [] => EmptyString
  | b :: bs' =>
      String (hex_digit (Z.shiftr b 4))
             (String (hex_digit (Z.land b 0xf)) (hex_of_bytes bs'))
  end.

(** [hashlib.md5(s.encode()).hexdigest()] *)
Definition hexdigest (s : string) : string :=
  hex_of_bytes (digest (bytes_of_string s)).
End MD5.

(** ** pdf_processor.py *)

Module PDFProcessor.
Section WithWorld.
Context (W : World).

(** [hashlib.md5(f"{pdf_name}_{page}_{i}".encode()).hexdigest()] *)
Definition chunk_id_of (pdf_name : string) (page : Z) (i : nat) : string :=
  MD5.hexdigest
    (pdf_name +:+ "_" +:+ Py.str_of_int page +:+ "_"
              +:+ Py.str_of_int (Z.of_nat i)).

(** The body shared by the two [for i in range(...)] loops of
    [chunk_text]: one chunk from the slice [items[i:i+size]]. *)
Definition append_chunk (page : Page) (items : list string) (size : nat)
    (chunks : list Chunk) (i : nat) : list Chunk :=
  let chunk_text := Py.join " " (Py.slice items i (i + size)) in
  let chunk_id := chunk_id_of (pg_pdf_name page) (pg_page page) i in
  let metadata := mkChunkMeta (pg_pdf_name page) (pg_page page) chunk_id in
  chunks ++ [mkChunk chunk_text metadata].

Definition valid_sentences (text : string) : list string :=
  List.filter
    (fun s => Config.MIN_SENTENCE_LENGTH <=? length (Py.split s))
    (sent_tokenize W text).

(** One iteration of [for page in pages_text]. *)
Definition chunk_page (chunks : list Chunk) (page : Page) : list Chunk :=
  let valid := valid_sentences (pg_text page) in
  if negb (Py.nonempty valid) then
    let words := Py.split (pg_text page) in
    let chunk_size := Config.MIN_SENTENCE_LENGTH * Config.SENTENCES_PER_CHUNK in
    fold_left (append_chunk page words chunk_size)
              (Py.range 0 (length words) chunk_size) chunks
  else
    fold_left (append_chunk page valid Config.SENTENCES_PER_CHUNK)
              (Py.range 0 (length valid) Config.SENTENCES_PER_CHUNK) chunks.

Definition chunk_text (pages_text : list Page) : list Chunk :=
  fold_left chunk_page pages_text [].
End WithWorld.
End PDFProcessor.

(** ** keyword_db.py *)

Module KeywordDatabase.
Section WithWorld.
Context (W : World).

(** [search]: only [sqlite3.Error] is caught; anything else the
    statement raises goes to the caller. *)
Definition search (keywords : list string) (limit : nat) : M (list Row) :=
  let query := Py.join " OR " keywords in
  try_except
    (call (EvFtsSelect query limit) (fts_select W query limit))
    (fun e => match e with
              | SqliteError _ => ret []
              | _ => raise e
              end).
End WithWorld.
End KeywordDatabase.

(** ** qdrant_manager.py *)

Module QdrantManager.

(** [1.0 / (rank + 60)], the Reciprocal Rank Fusion term with [k = 60]. *)
Definition rrf_term (rank : nat) : Q := 1 / inject_Z (Z.of_nat rank + 60).

(** The key of the final sort, [x["score"]]; every entry has one. *)
Definition score_key (x : SearchResult) : Q := default 0%Q (sr_score x).

Definition fuse_vector (combined : Py.dict SearchResult)
    (item : nat * ScoredPoint) : Py.dict SearchResult :=
  let '(rank, result) := item in
  Py.dict_set combined (sp_id result)
    (mkSearchResult (Some (sp_id result)) (Some (sp_payload result))
                    (Some (rrf_term rank)) None None).

Definition fuse_keyword (combined : Py.dict SearchResult)
    (item : nat * Row) : Py.dict SearchResult :=
  let '(rank, row) := item in
  let chunk_id := row_id row in
  match Py.dict_get combined chunk_id with
  | Some entry =>
      Py.dict_set combined chunk_id
        (mkSearchResult (sr_id entry) (sr_payload entry)
           (Some (score_key entry + rrf_term rank)%Q)
           (sr_text entry) (sr_metadata entry))
  | None =>
      Py.dict_set combined chunk_id
        (mkSearchResult (Some chunk_id)
           (Some (mkPayload (Some (row_text row)) (Some (row_pdf_name row))
                            (Some (row_page row)) None))
           (Some (rrf_term rank)) None None)
  end.

Definition _fuse_results (vector_results : list ScoredPoint)
    (keyword_results : list Row) : list SearchResult :=
  let combined := fold_left fuse_vector (Py.enumerate vector_results 1) [] in
  let combined := fold_left fuse_keyword (Py.enumerate keyword_results 1) combined in
  firstn Config.SIMILARITY_TOP_K
         (Py.sorted_desc score_key (Py.dict_values combined)).

Section WithWorld.
Context (W : World).

Definition vector_search (query_embedding : embedding) (limit : nat)
    : M (list ScoredPoint) :=
  call (EvClientSearch limit None)
       (client_search W query_embedding limit None).

Definition format_result (result : ScoredPoint) : SearchResult :=
  mkSearchResult (Some (sp_id result)) (Some (sp_payload result))
                 (Some (sp_score result)) None None.

(** [search]: whatever goes wrong ends in the empty list. *)
Definition search (query : string) (limit : nat) : M (list SearchResult) :=
  try_except
    (query_embedding <- call (EvEncodeQuery query) (encode_query W query) ;;
     results <- call (EvClientSearch limit (Some (3 # 10)))
                     (client_search W query_embedding limit (Some (3 # 10))) ;;
     ret (fold_left (fun formatted_results result =>
                       formatted_results ++ [format_result result])
                    results []))%M
    (fun _ => ret []).

(** [hybrid_search], the fusion of both indexes; [keyword_db_search] is
    the [search] method of the keyword database passed in. *)
Definition hybrid_search (query_embedding : embedding)
    (keywords : list string)
    (keyword_db_search : list string -> nat -> M (list Row))
    : M (list SearchResult) :=
  let vector_limit :=
    Z.to_nat (Qceiling (inject_Z (Z.of_nat Config.SIMILARITY_TOP_K)
                        * Config.HYBRID_SEARCH_RATIO)) in
  let keyword_limit := Nat.max 1 (Config.SIMILARITY_TOP_K - vector_limit) in
  (vector_results <- vector_search query_embedding vector_limit ;;
   keyword_results <- keyword_db_search keywords keyword_limit ;;
   ret (_fuse_results vector_results keyword_results))%M.
End WithWorld.
End QdrantManager.

(** ** vector_store.py *)

Module VectorStore.

(** *** Access filter *)

(** The document name the filter reads from a result: the payload's
    ['pdf_name'] when both keys are there, else the metadata's ['source']. *)
Definition doc_name_of (result : SearchResult) : option string :=
  match sr_payload result with
  | Some {| pl_pdf_name := Some name |} => Some name
  | _ =>
      match sr_metadata result with
      | Some {| md_source := Some name |} => Some name
      | _ => None
      end
  end.

(** [doc_name and doc_name in accessible_docs] *)
Definition permitted (accessible_docs : list string)
    (doc_name : option string) : bool :=
  match doc_name with
  | Some name => Py.truthy name && Py.contains accessible_docs name
  | None => false
  end.

Definition _filter_by_accessible_docs (results : list SearchResult)
    (accessible_docs : list string) : list SearchResult :=
  if negb (Py.nonempty accessible_docs) then results
  else
    fold_left
      (fun filtered_results result =>
         if permitted accessible_docs (doc_name_of result)
         then filtered_results ++ [result]
         else filtered_results)
      results [].

(** *** Combination of the two result lists *)

(** [result.get('text', '') or result.get('payload', {}).get('text', '')] *)
Definition content_of (result : SearchResult) : string :=
  let text := default EmptyString (sr_text result) in
  if Py.truthy text then text
  else match sr_payload result with
       | Some payload => default EmptyString (pl_text payload)
       | None => EmptyString
       end.

(** [result['score'] = result.get('score', d)] *)
Definition with_default_score (d : Q) (result : SearchResult) : SearchResult :=
  mkSearchResult (sr_id result) (sr_payload result)
                 (Some (default d (sr_score result)))
                 (sr_text result) (sr_metadata result).

(** One pass of [for result in ...: if isinstance(result, dict): ...]. *)
Definition add_scored (d : Q) (combined : list SearchResult)
    (result : PyVal) : list SearchResult :=
  match result with
  | PyDict r => combined ++ [with_default_score d r]
  | PyTuple _ => combined
  end.

(** [x.get('score', 0)] *)
Definition score_key (x : SearchResult) : Q := default 0%Q (sr_score x).

Section WithWorld.
Context (W : World).

(** The duplicate removal loop; the state is [(seen, unique_results)]. *)
Definition dedup_step (acc : gset Z * list SearchResult)
    (result : SearchResult) : gset Z * list SearchResult :=
  let '(seen, unique_results) := acc in
  let content := content_of result in
  let key := py_hash W content in
  if bool_decide (key ∉ seen)
  then ({[key]} ∪ seen, unique_results ++ [result])
  else (seen, unique_results).

(** [_combine_results]. With results of the shape above nothing in the
    [try] block raises, so its [except] branch is never entered. *)
Definition _combine_results (semantic_results keyword_results : list PyVal)
    : list SearchResult :=
  let combined := fold_left (add_scored (8 # 10)) semantic_results [] in
  let combined := fold_left (add_scored (6 # 10)) keyword_results combined in
  let unique_results := snd (fold_left dedup_step combined (∅, [])) in
  Py.sorted_desc score_key unique_results.

(** *** Keyword extraction *)

(** [Counter(keywords)]: counts in first-seen order. *)
Definition counter_add (counts : Py.dict nat) (word : string) : Py.dict nat :=
  Py.dict_set counts word (S (default 0 (Py.dict_get counts word))).
Definition Counter (keywords : list string) : Py.dict nat :=
  fold_left counter_add keywords [].
(** [most_common(n)]: largest counts first, ties in first-seen order. *)
Definition most_common (n : nat) (counts : Py.dict nat) : list (string * nat) :=
  firstn n (Py.sorted_desc (fun kv => inject_Z (Z.of_nat (snd kv))) counts).

Definition _extract_keywords_from_query (query : string) : list string :=
  match word_tokenize W (Py.lower query) with
  | Ok words =>
      let keywords :=
        List.filter (fun word => Py.isalnum word && (2 <? String.length word))
                    words in
      let keyword_counts := Counter keywords in
      map fst (most_common 3 keyword_counts)
  | Raise _ => Py.split (Py.lower query)
  end.

(** *** Hybrid search *)

(** The methods [hybrid_search] calls on [self], each of which may
    raise as far as [hybrid_search] can tell. *)
Record Steps : Type := mkSteps {
  qdrant_search : string -> nat -> M (list SearchResult);
  extract_keywords : string -> M (list string);
  keyword_db_search : list string -> nat -> M (list Row);
  combine_results : list PyVal -> list PyVal -> M (list SearchResult);
  filter_by_accessible_docs :
    list SearchResult -> list string -> M (list SearchResult)
}.

(** The [try] block of [hybrid_search]. *)
Definition hybrid_search_try (self : Steps) (query : string)
    (accessible_docs : option (list string)) : M (list SearchResult) :=
  let semantic_limit := 10 in
  let keyword_limit := 5 in
  (semantic_results <- qdrant_search self query semantic_limit ;;
   combined_results <-
     (if length semantic_results <? 5 then
        keywords <- extract_keywords self query ;;
        keyword_results <- keyword_db_search self keywords keyword_limit ;;
        combine_results self (map PyDict semantic_results)
                        (map PyTuple keyword_results)
      else ret semantic_results) ;;
   combined_results <-
     match accessible_docs with
     | Some docs => filter_by_accessible_docs self combined_results docs
     | None => ret combined_results
     end ;;
   ret (firstn 8 combined_results))%M.

Definition hybrid_search_with (self : Steps) (query : string)
    (accessible_docs : option (list string)) : M (list SearchResult) :=
  try_except (hybrid_search_try self query accessible_docs)
             (fun _ => ret []).

(** The methods as this repository defines them. *)
Definition steps : Steps :=
  mkSteps (QdrantManager.search W)
          (fun query => ret (_extract_keywords_from_query query))
          (KeywordDatabase.search W)
          (fun semantic keyword => ret (_combine_results semantic keyword))
          (fun results docs => ret (_filter_by_accessible_docs results docs)).

Definition hybrid_search (query : string)
    (accessible_docs : option (list string)) : M (list SearchResult) :=
  hybrid_search_with steps query accessible_docs.

(** *** Embeddings and their cache *)

(** [_save_embedding]: the cache entry is set only when the file was
    written; a failure is logged and swallowed. *)
Definition _save_embedding (chunk_id : string) (e : embedding) : M unit :=
  try_except
    (call (EvWriteCacheFile chunk_id) (write_cache_file W chunk_id e) ;;;
     cache <- get_cache ;;
     put_cache (<[chunk_id := e]> cache))%M
    (fun _ => ret tt).

(** The locals of [_generate_embeddings]. *)
Record Locals : Type := mkLocals {
  embeddings_map : gmap string embedding;
  texts_to_embed : list string;
  chunks_to_embed_map : gmap string string
}.

(** First loop: look every chunk up in the cache. *)
Definition lookup_chunk (cache : gmap string embedding) (loc : Locals)
    (chunk : Chunk) : Locals :=
  let chunk_id := cm_chunk_id (ch_metadata chunk) in
  match cache !! chunk_id with
  | Some e =>
      mkLocals (<[chunk_id := e]> (embeddings_map loc))
               (texts_to_embed loc) (chunks_to_embed_map loc)
  | None =>
      mkLocals (embeddings_map loc)
               (texts_to_embed loc ++ [ch_text chunk])
               (<[ch_text chunk := chunk_id]> (chunks_to_embed_map loc))
  end.

(** Second loop: [for text, embedding in zip(texts_to_embed, new_embeddings)]. *)
Definition store_new (to_embed_map : gmap string string)
    (emap : gmap string embedding) (item : string * embedding)
    : M (gmap string embedding) :=
  let '(text, e) := item in
  match to_embed_map !! text with
  | Some chunk_id =>
      (_save_embedding chunk_id e ;;;
       ret (<[chunk_id := e]> emap))%M
  | None => raise (KeyError text)
  end.

(** The final comprehension, [embeddings_map[chunk_id]] per chunk. *)
Fixpoint collect (emap : gmap string embedding) (chunks : list Chunk)
    : result (list embedding) :=
  match chunks with
  | [] => Ok []
  | chunk :: rest =>
      let chunk_id := cm_chunk_id (ch_metadata chunk) in
      match emap !! chunk_id with
      | None => Raise (KeyError chunk_id)
      | Some e =>
          match collect emap rest with
          | Ok es => Ok (e :: es)
          | Raise err => Raise err
          end
      end
  end.

Definition _generate_embeddings (chunks : list Chunk) : M (list embedding) :=
  (cache <- get_cache ;;
   let loc := fold_left (lookup_chunk cache) chunks (mkLocals ∅ [] ∅) in
   emap <-
     (if Py.nonempty (texts_to_embed loc) then
        new_embeddings <- call (EvEncodeBatch (texts_to_embed loc))
                               (encode_batch W (texts_to_embed loc)) ;;
        for_each (combine (texts_to_embed loc) new_embeddings)
                 (store_new (chunks_to_embed_map loc)) (embeddings_map loc)
      else ret (embeddings_map loc)) ;;
   lift (collect emap chunks))%M.

(** *** Context for the chatbot *)

Definition get_context_for_rag (query : string) : M (list Payload) :=
  if negb (Py.truthy query) || negb (Py.truthy (Py.strip query)) then ret []
  else
    try_except
      (query_embedding <- call (EvEncodeQuery query) (encode_query W query) ;;
       search_results <- QdrantManager.vector_search W query_embedding
                           Config.CONTEXT_CHUNKS_FOR_RAG ;;
       ret (map sp_payload search_results))%M
      (fun _ => ret []).
End WithWorld.
End VectorStore.

(** ** chatbot.py *)

Module Chatbot.

(** The document name the chatbot's filter reads from a chunk: the
    metadata's ['source'] when both keys are there, else ['pdf_name']. *)
Definition doc_name_of (chunk : Payload) : option string :=
  match pl_metadata chunk with
  | Some {| md_source := Some name |} => Some name
  | _ => pl_pdf_name chunk
  end.

Definition _filter_chunks_by_access (chunks : list Payload)
    (accessible_docs : list string) : list Payload :=
  if negb (Py.nonempty accessible_docs) then chunks
  else
    fold_left
      (fun filtered_chunks chunk =>
         if VectorStore.permitted accessible_docs (doc_name_of chunk)
         then filtered_chunks ++ [chunk]
         else filtered_chunks)
      chunks [].

Definition dquote : string := String (ascii_of_nat 34) EmptyString.

(** [context[:800] + "..." if len(context) > 800 else context] *)
Definition context_summary (context : string) : string :=
  if 800 <? String.length context
  then Py.str_prefix 800 context +:+ "..."
  else context.

Definition _generate_fallback_response (query context : string) : string :=
  "Based on the available documents, here's what I found regarding your question: "
    +:+ dquote +:+ query +:+ dquote +:+ Config.nl
    +:+ Config.nl
    +:+ context_summary context +:+ Config.nl
    +:+ Config.nl
    +:+ "This information is extracted directly from your documents. For more detailed AI-powered responses, please ensure Ollama is properly configured.".

(** [[chunk['text'] for chunk in retrieved_chunks]]; a chunk without the
    key raises [KeyError]. *)
Fixpoint chunk_texts (chunks : list Payload) : result (list string) :=
  match chunks with
  | [] => Ok []
  | chunk :: rest =>
      match pl_text chunk with
      | None => Raise (KeyError "text")
      | Some t =>
          match chunk_texts rest with
          | Ok ts => Ok (t :: ts)
          | Raise e => Raise e
          end
      end
  end.

Definition context_separator : string :=
  Config.nl +:+ Config.nl +:+ "---" +:+ Config.nl +:+ Config.nl.

Section WithWorld.
Context (W : World).

(** Steps 1 and 2 of [generate_response]: the chunks that reach the
    prompt, or the message of an early return. *)
Definition retrieve (query : string) (accessible_docs : option (list string))
    : M (string + list Payload) :=
  (retrieved_chunks <- VectorStore.get_context_for_rag W query ;;
   if negb (Py.nonempty retrieved_chunks) then
     ret (inl "I could not find any relevant information in your documents to answer this question.")
   else
     match accessible_docs with
     | Some docs =>
         let retrieved_chunks := _filter_chunks_by_access retrieved_chunks docs in
         if negb (Py.nonempty retrieved_chunks) then
           ret (inl "I could not find any relevant information in your accessible documents to answer this question.")
         else ret (inr retrieved_chunks)
     | None => ret (inr retrieved_chunks)
     end)%M.

(** The [try] block around the language model. *)
Definition ask_model (model_name prompt : string) : M string :=
  (response <- call (EvOllamaGenerate prompt)
                    (ollama_generate W model_name prompt) ;;
   ret (Py.strip (default "Sorry, I encountered an error."
                          (llm_response response))))%M.

Definition generate_response (query : string)
    (accessible_docs : option (list string)) : M (string * list Payload) :=
  if negb (Py.truthy query) then ret ("Please ask a question.", [])
  else
    (r <- retrieve query accessible_docs ;;
     match r with
     | inl message => ret (message, [])
     | inr retrieved_chunks =>
         texts <- lift (chunk_texts retrieved_chunks) ;;
         let context_str := Py.join context_separator texts in
         let prompt := Config.RAG_PROMPT_TEMPLATE_format context_str query in
         try_except
           (response_text <- ask_model Config.OLLAMA_MODEL prompt ;;
            ret (response_text, retrieved_chunks))
           (fun _ =>
              ret (_generate_fallback_response query context_str,
                   retrieved_chunks))
     end)%M.
End WithWorld.
End Chatbot.

(** ** Concrete inputs used by the examples below *)

Module Fixtures.
(** A hash without collisions: the bytes of the text as one number. *)
Fixpoint bytes_as_number (s : string) : Z :=
  match s with
  | EmptyString => 0
  | String a s' => (Z.of_nat (nat_of_ascii a) + 1) + 257 * bytes_as_number s'
  end%Z.

(** A world whose collaborators answer with fixed data. *)
Definition quiet_world : World :=
  mkWorld (fun s => [s])
          (fun s => Ok (Py.split s))
          bytes_as_number
          (fun texts => Ok (map (fun t => [inject_Z (Z.of_nat (String.length t))]) texts))
          (fun _ => Ok [1%Q])
          (fun _ _ _ => Ok [])
          (fun _ _ => Ok [])
          (fun _ _ => Ok tt)
          (fun _ _ => Ok (mkLLMResponse (Some " fine ")))%string.

Definition empty_state : State := mkState ∅ [].

Definition payload_of (text pdf_name : string) : Payload :=
  mkPayload (Some text) (Some pdf_name) (Some 1%Z) None.
Definition hit (id text pdf_name : string) (score : Q) : SearchResult :=
  mkSearchResult (Some id) (Some (payload_of text pdf_name)) (Some score)
                 None None.

(** A sentence tokenizer for the examples: a sentence ends at a full stop. *)
Fixpoint sentences_go (cur s : string) : list string :=
  match s with
  | EmptyString =>
      let last := Py.strip (String.rev cur) in
      if Py.truthy last then [last] else []
  | String a s' =>
      if Ascii.eqb a "."
      then Py.strip (String.rev (String a cur)) :: sentences_go EmptyString s'
      else sentences_go (String a cur) s'
  end.

Definition period_world : World :=
  mkWorld (sentences_go EmptyString)
          (word_tokenize quiet_world) (py_hash quiet_world)
          (encode_batch quiet_world) (encode_query quiet_world)
          (client_search quiet_world) (fts_select quiet_world)
          (write_cache_file quiet_world) (ollama_generate quiet_world).

(** A page of seven sentences, six of them long enough to be kept. *)
Definition seven_sentences : Page :=
  mkPage "report.pdf" 3
         "The first sentence has six words. The second sentence has six words. Too short. The third sentence has six words. The fourth sentence has six words. The fifth sentence has six words. The sixth sentence has six words.".

(** Three vector hits and three keyword rows; chunks [a] and [c] are in both. *)
Definition point (id text : string) (score : Q) : ScoredPoint :=
  mkScoredPoint id (payload_of text "report.pdf") score.
Definition three_points : list ScoredPoint :=
  [point "a" "alpha" (9 # 10); point "b" "beta" (8 # 10); point "c" "gamma" (7 # 10)].
Definition three_rows : list Row :=
  [mkRow "c" "gamma" "report.pdf" 1; mkRow "d" "delta" "report.pdf" 1;
   mkRow "a" "alpha" "report.pdf" 1].

(** A world in which the vector index has five hits for every query and the
    keyword index one more chunk. *)
Definition five_points : list ScoredPoint :=
  [point "a" "alpha" (9 # 10); point "b" "beta" (8 # 10);
   point "c" "gamma" (7 # 10); point "d" "delta" (6 # 10);
   point "e" "epsilon" (5 # 10)].
Definition busy_world : World :=
  mkWorld (sent_tokenize quiet_world) (word_tokenize quiet_world)
          (py_hash quiet_world) (encode_batch quiet_world)
          (encode_query quiet_world)
          (fun _ limit _ => Ok (firstn limit five_points))
          (fun _ _ => Ok [mkRow "k" "kappa" "report.pdf" 2])
          (write_cache_file quiet_world) (ollama_generate quiet_world).

(** A world in which the vector index has one hit and the keyword index
    one more chunk. *)
Definition sparse_world : World :=
  mkWorld (sent_tokenize quiet_world) (word_tokenize quiet_world)
          (py_hash quiet_world) (encode_batch quiet_world)
          (encode_query quiet_world)
          (fun _ limit _ => Ok (firstn limit [point "a" "alpha" (9 # 10)]))
          (fun _ _ => Ok [mkRow "k" "kappa" "report.pdf" 2])
          (write_cache_file quiet_world) (ollama_generate quiet_world).

(** A world with two chunks in the vector index and no language model. *)
Definition offline_world : World :=
  mkWorld (sent_tokenize quiet_world) (word_tokenize quiet_world)
          (py_hash quiet_world) (encode_batch quiet_world)
          (encode_query quiet_world)
          (fun _ limit _ =>
             Ok (firstn limit [point "a" "alpha" (9 # 10); point "b" "beta" (8 # 10)]))
          (fts_select quiet_world) (write_cache_file quiet_world)
          (fun _ _ => Raise (Exception "connection refused")).

(** Two pages of one document carrying the same text (more than
    [MIN_CHARS_PER_PAGE] characters, so that text extraction keeps them). *)
Definition same_text_pages : list Page :=
  [mkPage "report.pdf" 1 "This page of the report is intentionally left blank by the authors.";
   mkPage "report.pdf" 2 "This page of the report is intentionally left blank by the authors."].

(** A world with one hit in the vector index and a keyword index whose
    connection is closed: the call fails outside what [search] catches. *)
Definition closed_index_world : World :=
  mkWorld (sent_tokenize quiet_world) (word_tokenize quiet_world)
          (py_hash quiet_world) (encode_batch quiet_world)
          (encode_query quiet_world)
          (fun _ limit _ => Ok (firstn limit [point "a" "alpha" (9 # 10)]))
          (fun _ _ => Raise (Exception "Cannot operate on a closed database."))
          (write_cache_file quiet_world) (ollama_generate quiet_world).

Definition secret_hit : SearchResult := hit "c1" "salaries" "secret.pdf" (9 # 10).
Definition public_hit : SearchResult := hit "c2" "opening hours" "public.pdf" (7 # 10).
End Fixtures.

(** ** The properties, as the specification words them *)

Module Claims.
(** The access filter, for a list of results and a permitted list: every
    result kept is from a permitted document, and the output is a
    subsequence of the input. *)
Definition access_filter_sound (results : list SearchResult)
    (accessible_docs : list string) : Prop :=
  let out := VectorStore._filter_by_accessible_docs results accessible_docs in
  (forall r, In r out ->
     exists name, VectorStore.doc_name_of r = Some name /\ In name accessible_docs)
  /\ sublist out results.

(** Hybrid search as the specification words it: both backends are called
    (the vector index with the query, the keyword index with the extracted
    keywords) and the result is the top K of the Reciprocal Rank Fusion of
    their two answers. *)
Definition hybrid_search_fuses_by_rrf (W : World) (query : string)
    (st : State) : Prop :=
  let '(out, st') := VectorStore.hybrid_search W query None st in
  let keywords := VectorStore._extract_keywords_from_query W query in
  exists query_embedding vector_results keyword_results,
    encode_query W query = Ok query_embedding
    /\ client_search W query_embedding 10 (Some (3 # 10)) = Ok vector_results
    /\ fts_select W (Py.join " OR " keywords) 5 = Ok keyword_results
    /\ In (EvClientSearch 10 (Some (3 # 10))) (trace st')
    /\ In (EvFtsSelect (Py.join " OR " keywords) 5) (trace st')
    /\ out = Ok (QdrantManager._fuse_results vector_results keyword_results).
End Claims.

(** ** Closed forms of the loops, and the runs of [hybrid_search] *)

Module Closed.
(** In a list sorted by descending key, [a] may stand before [b]: its key
    is at least as large. *)
Definition desc {A : Type} (key : A -> Q) (a b : A) : Prop :=
  (key b <= key a)%Q.


(** The dicts of a result list, each with its score filled in. *)
Definition scored (d : Q) (l : list PyVal) : list SearchResult :=
  flat_map (fun v => match v with
                     | PyDict r => [VectorStore.with_default_score d r]
                     | PyTuple _ => []
                     end) l.

(** The rank of a chunk in a ranked list of chunk identifiers: the 1-based
    position of its first occurrence. *)
Fixpoint rank_from (start : nat) (ids : list string) (c : string) : option nat :=
  match ids with
  | [] => None
  | k :: ids' =>
      if String.eqb k c then Some start else rank_from (S start) ids' c
  end.
Definition rank_of (ids : list string) (c : string) : option nat :=
  rank_from 1 ids c.

(** What one ranked list adds to the fused score of chunk [c]:
    [1/(rank+60)] if [c] is in the list, nothing otherwise. *)
Definition contribution (ids : list string) (c : string) : Q :=
  match rank_of ids c with
  | Some rank => 1 / (inject_Z (Z.of_nat rank) + 60)
  | None => 0
  end.

(** The Reciprocal Rank Fusion score of chunk [c] over the two lists. *)
Definition rrf_score (vector_results : list ScoredPoint)
    (keyword_results : list Row) (c : string) : Q :=
  contribution (map sp_id vector_results) c
  + contribution (map row_id keyword_results) c.

(** Every entry of the dict [combined] of [_fuse_results] carries its key
    as ['id'] and has a score. *)
Definition entry_ok (kv : string * SearchResult) : Prop :=
  sr_id (snd kv) = Some (fst kv) /\ is_Some (sr_score (snd kv)).

(** [e] is the dict [r] after [r['score'] = r.get('score', d)]: its score is
    that of [r], or [d] where [r] has none; nothing else differs. *)
Definition filled_from (d : Q) (r e : SearchResult) : Prop :=
  sr_score e = Some (match sr_score r with Some s => s | None => d end)
  /\ sr_id e = sr_id r /\ sr_payload e = sr_payload r
  /\ sr_text e = sr_text r /\ sr_metadata e = sr_metadata r.

(** The list [combined] of [_combine_results] before duplicates go. *)
Definition combined_list (semantic_results keyword_results : list PyVal)
    : list SearchResult :=
  scored (8 # 10) semantic_results ++ scored (6 # 10) keyword_results.

(** The state after more calls to the collaborators. *)
Definition after (st : State) (events : list event) : State :=
  mkState (embedding_cache st) (trace st ++ events).

(** *** The steps of [hybrid_search], as relations on runs *)

(** [combined_is self query st comb st']: from state [st] the steps up to
    the combination all return; they leave [combined_results = comb] and the
    state [st']. *)
Inductive combined_is (self : VectorStore.Steps) (query : string) (st : State)
    : list SearchResult -> State -> Prop :=
| combined_semantic_only sem st1 :
    VectorStore.qdrant_search self query 10 st = (Ok sem, st1) ->
    5 <= length sem ->
    combined_is self query st sem st1
| combined_with_keywords sem st1 kws st2 rows st3 comb st4 :
    VectorStore.qdrant_search self query 10 st = (Ok sem, st1) ->
    length sem < 5 ->
    VectorStore.extract_keywords self query st1 = (Ok kws, st2) ->
    VectorStore.keyword_db_search self kws 5 st2 = (Ok rows, st3) ->
    VectorStore.combine_results self (map PyDict sem) (map PyTuple rows) st3
    = (Ok comb, st4) ->
    combined_is self query st comb st4.

(** [filtered_is ...  flt st']: all steps return, the access filter
    included when a permitted list is given. *)
Inductive filtered_is (self : VectorStore.Steps) (query : string)
    (accessible_docs : option (list string)) (st : State)
    : list SearchResult -> State -> Prop :=
| filtered_no_list comb st1 :
    accessible_docs = None ->
    combined_is self query st comb st1 ->
    filtered_is self query accessible_docs st comb st1
| filtered_by_list docs comb st1 flt st2 :
    accessible_docs = Some docs ->
    combined_is self query st comb st1 ->
    VectorStore.filter_by_accessible_docs self comb docs st1 = (Ok flt, st2) ->
    filtered_is self query accessible_docs st flt st2.

(** [some_step_raises ... e st']: one of the steps raises [e], the steps
    before it having returned. *)
Inductive some_step_raises (self : VectorStore.Steps) (query : string)
    (accessible_docs : option (list string)) (st : State)
    : exn -> State -> Prop :=
| raises_semantic_search e st1 :
    VectorStore.qdrant_search self query 10 st = (Raise e, st1) ->
    some_step_raises self query accessible_docs st e st1
| raises_keyword_extraction sem st1 e st2 :
    VectorStore.qdrant_search self query 10 st = (Ok sem, st1) ->
    length sem < 5 ->
    VectorStore.extract_keywords self query st1 = (Raise e, st2) ->
    some_step_raises self query accessible_docs st e st2
| raises_keyword_search sem st1 kws st2 e st3 :
    VectorStore.qdrant_search self query 10 st = (Ok sem, st1) ->
    length sem < 5 ->
    VectorStore.extract_keywords self query st1 = (Ok kws, st2) ->
    VectorStore.keyword_db_search self kws 5 st2 = (Raise e, st3) ->
    some_step_raises self query accessible_docs st e st3
| raises_combination sem st1 kws st2 rows st3 e st4 :
    VectorStore.qdrant_search self query 10 st = (Ok sem, st1) ->
    length sem < 5 ->
    VectorStore.extract_keywords self query st1 = (Ok kws, st2) ->
    VectorStore.keyword_db_search self kws 5 st2 = (Ok rows, st3) ->
    VectorStore.combine_results self (map PyDict sem) (map PyTuple rows) st3
    = (Raise e, st4) ->
    some_step_raises self query accessible_docs st e st4
| raises_filter docs comb st1 e st2 :
    accessible_docs = Some docs ->
    combined_is self query st comb st1 ->
    VectorStore.filter_by_accessible_docs self comb docs st1 = (Raise e, st2) ->
    some_step_raises self query accessible_docs st e st2.

Section WithWorld.
Context (W : World).

(** What [QdrantManager.search] returns, and the calls it makes. *)
Definition semantic_hits (query : string) (limit : nat) : list SearchResult :=
  match encode_query W query with
  | Ok query_embedding =>
      match client_search W query_embedding limit (Some (3 # 10)) with
      | Ok results => map QdrantManager.format_result results
      | Raise _ => []
      end
  | Raise _ => []
  end.
Definition semantic_events (query : string) (limit : nat) : list event :=
  match encode_query W query with
  | Ok _ => [EvEncodeQuery query; EvClientSearch limit (Some (3 # 10))]
  | Raise _ => [EvEncodeQuery query]
  end.

(** What [KeywordDatabase.search] returns. *)
Definition keyword_rows (keywords : list string) (limit : nat) : result (list Row) :=
  match fts_select W (Py.join " OR " keywords) limit with
  | Ok rows => Ok rows
  | Raise (SqliteError _) => Ok []
  | Raise e => Raise e
  end.

(** The optional access filter of [hybrid_search]. *)
Definition access (accessible_docs : option (list string))
    (results : list SearchResult) : list SearchResult :=
  match accessible_docs with
  | Some docs => VectorStore._filter_by_accessible_docs results docs
  | None => results
  end.

(** The chunks of a batch that are not in the cache, in order. *)
Definition uncached (cache : gmap string embedding) (chunks : list Chunk)
    : list Chunk :=
  List.filter (fun c => match cache !! cm_chunk_id (ch_metadata c) with
                        | Some _ => false
                        | None => true
                        end) chunks.

(** [chunks_to_embed_map] after the first loop of [_generate_embeddings]:
    every text points at the identifier of the last chunk that carries it. *)
Definition text_index (new_chunks : list Chunk) (m : gmap string string)
    : gmap string string :=
  fold_left (fun m c => <[ch_text c := cm_chunk_id (ch_metadata c)]> m)
            new_chunks m.

(** The state after [_save_embedding chunk_id e]. *)
Definition saved (chunk_id : string) (e : embedding) (st : State) : State :=
  match write_cache_file W chunk_id e with
  | Ok _ => mkState (<[chunk_id := e]> (embedding_cache st))
                    (trace st ++ [EvWriteCacheFile chunk_id])
  | Raise _ => after st [EvWriteCacheFile chunk_id]
  end.

(** What the duplicate removal keeps of [l], given the keys seen so far. *)
Fixpoint dedup_from (seen : gset Z) (l : list SearchResult) : list SearchResult :=
  match l with
  | [] => []
  | r :: l' =>
      let key := py_hash W (VectorStore.content_of r) in
      if bool_decide (key ∉ seen)
      then r :: dedup_from ({[key]} ∪ seen) l'
      else dedup_from seen l'
  end.

(** The chunks of one page, in closed form. *)
Definition page_items (page : Page) : list string * nat :=
  let valid := PDFProcessor.valid_sentences W (pg_text page) in
  if negb (Py.nonempty valid)
  then (Py.split (pg_text page),
        Config.MIN_SENTENCE_LENGTH * Config.SENTENCES_PER_CHUNK)
  else (valid, Config.SENTENCES_PER_CHUNK).

(** The chunk offsets of a page: the values of [i] in its [range] loop. *)
Definition page_offsets (page : Page) : list nat :=
  let '(items, size) := page_items page in
  Py.range 0 (length items) size.

Definition make_chunk (page : Page) (items : list string) (size i : nat) : Chunk :=
  mkChunk (Py.join " " (Py.slice items i (i + size)))
          (mkChunkMeta (pg_pdf_name page) (pg_page page)
             (PDFProcessor.chunk_id_of (pg_pdf_name page) (pg_page page) i)).

Definition page_chunks (page : Page) : list Chunk :=
  let '(items, size) := page_items page in
  map (make_chunk page items size) (Py.range 0 (length items) size).

End WithWorld.
End Closed.

(** ** pdf_processor.py: reading the files *)

Module Ingest.

(** [os.path.basename] on a POSIX path: what follows the last slash. *)
Definition has_slash (s : string) : bool :=
  negb (Py.all_chars (fun c => negb (Ascii.eqb c "/")) s).
Fixpoint basename (path : string) : string :=
  match path with
  | EmptyString => EmptyString
  | String a rest =>
      if has_slash rest then basename rest
      else if Ascii.eqb a "/" then rest else path
  end.

(** The PDF directory and the PDF reader as [process_pdfs] and
    [extract_text_from_pdf] see them: whether the directory exists, the
    paths the two [glob] calls list, and for a path the [extract_text()] of
    every page ([None] or a string), or the exception the reader or one of
    the pages raises. *)
Record Files : Type := mkFiles {
  directory_exists : bool;
  glob_pdf : list string;
  glob_PDF : list string;
  read_pages : string -> result (list (option string))
}.

Section WithFiles.
Context (F : Files).

(** One pass of [for page_num, page in enumerate(reader.pages, start=1)]. *)
Definition keep_page (pdf_path : string) (pages_text : list Page)
    (item : nat * option string) : list Page :=
  let '(page_num, text) := item in
  match text with
  | Some text =>
      if Py.truthy text
         && (Config.MIN_CHARS_PER_PAGE <=? String.length (Py.strip text))
      then pages_text ++ [mkPage (basename pdf_path) (Z.of_nat page_num)
                                 (Py.strip text)]
      else pages_text
  | None => pages_text
  end.

(** [extract_text_from_pdf]: any exception ends in the empty list, the
    pages read before it included. *)
Definition extract_text_from_pdf (pdf_path : string) : list Page :=
  match read_pages F pdf_path with
  | Ok pages => fold_left (keep_page pdf_path) (Py.enumerate pages 1) []
  | Raise _ => []
  end.

Definition process_pdfs (W : World) : list Chunk :=
  if negb (directory_exists F) then []
  else
    let pdf_files := glob_pdf F ++ glob_PDF F in
    if negb (Py.nonempty pdf_files) then []
    else
      fold_left
        (fun all_chunks pdf_file =>
           let pages_text := extract_text_from_pdf pdf_file in
           if negb (Py.nonempty pages_text) then all_chunks
           else all_chunks ++ PDFProcessor.chunk_text W pages_text)
        pdf_files [].
End WithFiles.
End Ingest.

(** ** Indexing: [create_index] and what it writes *)

Module Indexing.

(** A [PointStruct] as [upsert_vectors] builds it. *)
Record PointStruct : Type := mkPointStruct {
  ps_id : string;
  ps_vector : embedding;
  ps_payload : Payload
}.

(** A row of the table [_init_db] creates:
    [(id TEXT UNIQUE, text, pdf_name, page, keywords)]. *)
Record KeywordRow : Type := mkKeywordRow {
  kr_id : string;
  kr_text : string;
  kr_pdf_name : string;
  kr_page : Z;
  kr_keywords : string
}.

(** A cache file once parsed: the keys ['embedding'] and ['model'] that
    [_load_embedding_cache] reads (['timestamp'] is never read). *)
Record CacheFile : Type := mkCacheFile {
  cf_embedding : option embedding;
  cf_model : option string
}.

(** What lies behind the clients: the outcome of [client.upsert] on a list
    of points, an error of the database engine on the [INSERT] of a row
    (other than the violation of [UNIQUE], which the table decides), and the
    files [cache_dir.glob("*.json")] lists, each with its stem and the
    outcome of [json.load]. *)
Record Backend : Type := mkBackend {
  client_upsert : list PointStruct -> result unit;
  insert_error : KeywordRow -> option string;
  cache_files : list (string * result CacheFile)
}.

(** The state [create_index] works on: that of the vector store, the
    batches of points the vector index accepted, and the keyword table. *)
Record Index : Type := mkIndex {
  ix_state : State;
  ix_upserted : list (list PointStruct);
  ix_table : list KeywordRow
}.

(** The JSON object [_save_embedding] dumps (without its time stamp). *)
Definition saved_file (e : embedding) : CacheFile :=
  mkCacheFile (Some e) (Some Config.EMBEDDING_MODEL).

Definition point_of (item : Chunk * embedding) : PointStruct :=
  let '(chunk, e) := item in
  mkPointStruct (cm_chunk_id (ch_metadata chunk)) e
    (mkPayload (Some (ch_text chunk)) (Some (cm_pdf_name (ch_metadata chunk)))
               (Some (cm_page (ch_metadata chunk))) None).

Definition row_of (chunk : Chunk) (keywords : string) : KeywordRow :=
  mkKeywordRow (cm_chunk_id (ch_metadata chunk)) (ch_text chunk)
               (cm_pdf_name (ch_metadata chunk)) (cm_page (ch_metadata chunk))
               keywords.

Section WithBackend.
Context (W : World) (B : Backend).

(** [QdrantManager.upsert_vectors] *)
Definition upsert_vectors (chunks : list Chunk) (embeddings : list embedding)
    (upserted : list (list PointStruct))
    : result unit * list (list PointStruct) :=
  let points := map point_of (combine chunks embeddings) in
  match client_upsert B points with
  | Ok _ => (Ok tt, upserted ++ [points])
  | Raise e => (Raise e, upserted)
  end.

(** [KeywordDatabase._extract_keywords] *)
Definition _extract_keywords (text : string) : result string :=
  match word_tokenize W text with
  | Ok tokens =>
      let words :=
        map Py.lower
            (List.filter (fun w => Py.isalnum w && (3 <? String.length w))
                         tokens) in
      Ok (Py.join " "
            (map fst (VectorStore.most_common 5 (VectorStore.Counter words))))
  | Raise e => Raise e
  end.

(** [cur.execute("INSERT ...")] on the table of [_init_db]. *)
Definition execute_insert (table : list KeywordRow) (row : KeywordRow)
    : result (list KeywordRow) :=
  match insert_error B row with
  | Some msg => Raise (SqliteError msg)
  | None =>
      if Py.contains (map kr_id table) (kr_id row)
      then Raise (SqliteError "UNIQUE constraint failed: keyword_index.id")
      else Ok (table ++ [row])
  end.

(** [KeywordDatabase.insert_chunks]: an [sqlite3.Error] on a row is logged
    and the loop goes on; the tokenizer is called outside the [try]. *)
Fixpoint insert_chunks (chunks : list Chunk) (table : list KeywordRow)
    : result unit * list KeywordRow :=
  match chunks with
  | [] => (Ok tt, table)
  | chunk :: rest =>
      match _extract_keywords (ch_text chunk) with
      | Ok keywords =>
          match execute_insert table (row_of chunk keywords) with
          | Ok table' => insert_chunks rest table'
          | Raise (SqliteError _) => insert_chunks rest table
          | Raise e => (Raise e, table)
          end
      | Raise e => (Raise e, table)
      end
  end.

(** [VectorStore.create_index]; its [except] clause logs and re-raises. *)
Definition create_index (chunks : list Chunk) (ix : Index)
    : result unit * Index :=
  if negb (Py.nonempty chunks) then (Ok tt, ix)
  else
    match VectorStore._generate_embeddings W chunks (ix_state ix) with
    | (Ok embeddings, st) =>
        match upsert_vectors chunks embeddings (ix_upserted ix) with
        | (Ok _, upserted) =>
            let '(r, table) := insert_chunks chunks (ix_table ix) in
            (r, mkIndex st upserted table)
        | (Raise e, upserted) => (Raise e, mkIndex st upserted (ix_table ix))
        end
    | (Raise e, st) => (Raise e, mkIndex st (ix_upserted ix) (ix_table ix))
    end.

(** One pass of the loop of [_load_embedding_cache]: a file that cannot be
    read or parsed, or has no ['embedding'], is logged and skipped. *)
Definition load_file (cache : gmap string embedding)
    (file : string * result CacheFile) : gmap string embedding :=
  let '(stem, data) := file in
  match data with
  | Ok data =>
      match cf_model data with
      | Some model =>
          if String.eqb model Config.EMBEDDING_MODEL then
            match cf_embedding data with
            | Some e => <[stem := e]> cache
            | None => cache
            end
          else cache
      | None => cache
      end
  | Raise _ => cache
  end.

Definition _load_embedding_cache (cache : gmap string embedding)
    : gmap string embedding :=
  if decide (cache = ∅) then fold_left load_file (cache_files B) cache
  else cache.

End WithBackend.
End Indexing.

(** ** api_server.py *)

Module ApiServer.

(** The request data, as far as the handlers read it: a key that is
    missing or [null] is [None]. *)
Record Request : Type := mkRequest {
  rq_query : option string;
  rq_userId : option string;
  rq_accessLevel : option string;
  rq_files : option (list string)
}.

(** The dicts the handlers return. *)
Inductive Response : Type :=
| ErrorResponse (error : string)
| SearchResponse (results : list SearchResult)
| ChatResponse (response : string) (sources : list Payload)
| ProcessResponse (success : bool) (message : string)
                  (chunks_count : option nat).

(** The globals [vector_store] and [chatbot] ([None] when the backend did
    not start) and the names [data_dir.glob('*.pdf')] lists. *)
Record Services : Type := mkServices {
  vector_store_up : bool;
  chatbot_up : bool;
  data_dir_pdfs : result (list string)
}.

(** [str(e)] *)
Definition str_of_exn (e : exn) : string :=
  match e with
  | KeyError key => "'" +:+ key +:+ "'"
  | SqliteError msg => msg
  | Exception msg => msg
  end.

Section WithServices.
Context (S : Services) (W : World).

Definition get_accessible_documents (userId accessLevel : option string)
    : option (list string) :=
  match accessLevel with
  | Some level =>
      if negb (Py.truthy level) || String.eqb level "all" then None
      else
        match data_dir_pdfs S with
        | Ok accessible_docs => Some accessible_docs
        | Raise _ => None
        end
  | None => None
  end.

Definition handle_search_request (data : Request) (st : State)
    : Response * State :=
  let query := default EmptyString (rq_query data) in
  if negb (Py.truthy query) then (ErrorResponse "No query provided", st)
  else if negb (vector_store_up S)
  then (ErrorResponse "Search service not available", st)
  else
    let accessible_docs :=
      get_accessible_documents (rq_userId data) (rq_accessLevel data) in
    match VectorStore.hybrid_search W query accessible_docs st with
    | (Ok results, st') => (SearchResponse results, st')
    | (Raise e, st') => (ErrorResponse (str_of_exn e), st')
    end.

Definition handle_chatbot_request (data : Request) (st : State)
    : Response * State :=
  let query := default EmptyString (rq_query data) in
  if negb (Py.truthy query) then (ErrorResponse "No query provided", st)
  else if negb (chatbot_up S)
  then (ErrorResponse "Chatbot service not available", st)
  else
    let accessible_docs :=
      get_accessible_documents (rq_userId data) (rq_accessLevel data) in
    match Chatbot.generate_response W query accessible_docs st with
    | (Ok (response, sources), st') => (ChatResponse response sources, st')
    | (Raise e, st') => (ErrorResponse (str_of_exn e), st')
    end.

Definition handle_process_request (F : Ingest.Files) (B : Indexing.Backend)
    (data : Request) (ix : Indexing.Index) : Response * Indexing.Index :=
  let files := default [] (rq_files data) in
  if negb (Py.nonempty files) then (ErrorResponse "No files provided", ix)
  else
    let chunks := Ingest.process_pdfs F W in
    let count := Py.str_of_int (Z.of_nat (length chunks)) in
    if Py.nonempty chunks && vector_store_up S then
      match Indexing.create_index W B chunks ix with
      | (Ok _, ix') =>
          (ProcessResponse true
             ("Successfully processed " +:+ count +:+ " document chunks")
             (Some (length chunks)), ix')
      | (Raise e, ix') => (ErrorResponse (str_of_exn e), ix')
      end
    else if Py.nonempty chunks then
      (ProcessResponse true
         ("Successfully processed " +:+ count
          +:+ " document chunks (vector store not available)")
         (Some (length chunks)), ix)
    else (ProcessResponse false "No documents found to process" None, ix).

End WithServices.
End ApiServer.

(** ** Closed forms used by the further properties *)

Module Views.


(** A request with an access level that is given, not empty and not
    ['all'], while the data directory lists [names]. *)
Definition restricted_to (S : ApiServer.Services) (data : ApiServer.Request)
    (names : list string) : Prop :=
  exists level,
    ApiServer.rq_accessLevel data = Some level
    /\ level <> EmptyString /\ level <> "all"
    /\ ApiServer.data_dir_pdfs S = Ok names.


(** The dict [combined] of [_fuse_results] after both loops, and the sorted
    list of its values before the cut to [SIMILARITY_TOP_K]. *)
Definition fused_dict (vector_results : list ScoredPoint)
    (keyword_results : list Row) : Py.dict SearchResult :=
  fold_left QdrantManager.fuse_keyword (Py.enumerate keyword_results 1)
    (fold_left QdrantManager.fuse_vector (Py.enumerate vector_results 1) []).
Definition fused_all (vector_results : list ScoredPoint)
    (keyword_results : list Row) : list SearchResult :=
  Py.sorted_desc QdrantManager.score_key
                 (Py.dict_values (fused_dict vector_results keyword_results)).

(** The payload [_fuse_results] builds from a row of the keyword index. *)
Definition row_payload (row : Row) : Payload :=
  mkPayload (Some (row_text row)) (Some (row_pdf_name row))
            (Some (row_page row)) None.

(** Where an entry of the fused list comes from: a hit of the vector index,
    with that hit's payload, or a row of the keyword index whose chunk the
    vector index did not return, with the payload built from the row. *)
Definition from_indexes (vector_results : list ScoredPoint)
    (keyword_results : list Row) (e : SearchResult) : Prop :=
  (exists point, In point vector_results
                 /\ sr_id e = Some (sp_id point)
                 /\ sr_payload e = Some (sp_payload point))
  \/ (exists row, In row keyword_results
                  /\ ~ In (row_id row) (map sp_id vector_results)
                  /\ sr_id e = Some (row_id row)
                  /\ sr_payload e = Some (row_payload row)).

Section WithWorld.
Context (W : World).

(** What [VectorStore.hybrid_search] returns, whatever the state. *)
Definition hybrid_hits (query : string) (accessible_docs : option (list string))
    : list SearchResult :=
  let sem := Closed.semantic_hits W query 10 in
  if length sem <? 5 then
    match Closed.keyword_rows W
            (VectorStore._extract_keywords_from_query W query) 5 with
    | Ok rows =>
        firstn 8 (Closed.access accessible_docs
                    (VectorStore._combine_results W (map PyDict sem)
                                                  (map PyTuple rows)))
    | Raise _ => []
    end
  else firstn 8 (Closed.access accessible_docs sem).

(** What [VectorStore.get_context_for_rag] returns, and the calls it makes. *)
Definition rag_chunks (query : string) : list Payload :=
  if negb (Py.truthy query) || negb (Py.truthy (Py.strip query)) then []
  else match encode_query W query with
       | Ok query_embedding =>
           match client_search W query_embedding
                   Config.CONTEXT_CHUNKS_FOR_RAG None with
           | Ok results => map sp_payload results
           | Raise _ => []
           end
       | Raise _ => []
       end.
Definition rag_events (query : string) : list event :=
  if negb (Py.truthy query) || negb (Py.truthy (Py.strip query)) then []
  else match encode_query W query with
       | Ok _ => [EvEncodeQuery query;
                  EvClientSearch Config.CONTEXT_CHUNKS_FOR_RAG None]
       | Raise _ => [EvEncodeQuery query]
       end.

(** What [Chatbot.retrieve] returns. *)
Definition retrieved (query : string) (accessible_docs : option (list string))
    : string + list Payload :=
  let retrieved_chunks := rag_chunks query in
  if negb (Py.nonempty retrieved_chunks) then
    inl "I could not find any relevant information in your documents to answer this question."
  else
    match accessible_docs with
    | Some docs =>
        let retrieved_chunks :=
          Chatbot._filter_chunks_by_access retrieved_chunks docs in
        if negb (Py.nonempty retrieved_chunks) then
          inl "I could not find any relevant information in your accessible documents to answer this question."
        else inr retrieved_chunks
    | None => inr retrieved_chunks
    end.

(** The prompt [generate_response] builds from the chunks it keeps. *)
Definition prompt_of (query : string) (texts : list string) : string :=
  Config.RAG_PROMPT_TEMPLATE_format (Py.join Chatbot.context_separator texts)
                                    query.

(** What [Chatbot.generate_response] returns, and the calls it makes. *)
Definition response_of (query : string) (accessible_docs : option (list string))
    : result (string * list Payload) :=
  if negb (Py.truthy query) then Ok ("Please ask a question.", [])
  else
    match retrieved query accessible_docs with
    | inl message => Ok (message, [])
    | inr retrieved_chunks =>
        match Chatbot.chunk_texts retrieved_chunks with
        | Ok texts =>
            match ollama_generate W Config.OLLAMA_MODEL (prompt_of query texts) with
            | Ok response =>
                Ok (Py.strip (default "Sorry, I encountered an error."
                                      (llm_response response)),
                    retrieved_chunks)
            | Raise _ =>
                Ok (Chatbot._generate_fallback_response query
                      (Py.join Chatbot.context_separator texts),
                    retrieved_chunks)
            end
        | Raise e => Raise e
        end
    end.
Definition response_events (query : string)
    (accessible_docs : option (list string)) : list event :=
  if negb (Py.truthy query) then []
  else
    rag_events query
    ++ match retrieved query accessible_docs with
       | inl _ => []
       | inr retrieved_chunks =>
           match Chatbot.chunk_texts retrieved_chunks with
           | Ok texts => [EvOllamaGenerate (prompt_of query texts)]
           | Raise _ => []
           end
       end.

End WithWorld.
End Views.

(** ** Further sample data *)

Module Samples.
Definition doc_point (id text pdf_name : string) (score : Q) : ScoredPoint :=
  mkScoredPoint id (Fixtures.payload_of text pdf_name) score.

(** Six chunks of two documents, ranked by score. *)
Definition two_document_points : list ScoredPoint :=
  [doc_point "s1" "salaries of the board" "secret.pdf" (95 # 100);
   doc_point "p1" "opening hours" "public.pdf" (9 # 10);
   doc_point "s2" "salaries of the staff" "secret.pdf" (8 # 10);
   doc_point "p2" "holiday opening hours" "public.pdf" (7 # 10);
   doc_point "s3" "bonus scheme" "secret.pdf" (6 # 10);
   doc_point "p3" "contact address" "public.pdf" (5 # 10)].



(** A backend in which every write succeeds; its cache directory holds a
    file of the configured model, one of another model and one that cannot
    be parsed. *)
Definition plain_backend : Indexing.Backend :=
  Indexing.mkBackend
    (fun _ => Ok tt) (fun _ => None)
    [("62ae8d4dc68a37a9276f674c9f5631f7", Ok (Indexing.saved_file [171%Q]));
     ("0123456789abcdef0123456789abcdef",
      Ok (Indexing.mkCacheFile (Some [1%Q]) (Some "all-mpnet-base-v2")));
     ("ffffffffffffffffffffffffffffffff",
      Raise (Exception "Expecting value: line 1 column 1 (char 0)"))].

Definition empty_index : Indexing.Index :=
  Indexing.mkIndex Fixtures.empty_state [] [].

(** Two files of one page each, with the same text. *)
Definition twin_files : Ingest.Files :=
  Ingest.mkFiles true ["data/a.pdf"; "data/b.pdf"] []
    (fun _ => Ok [Some "This page of the report is intentionally left blank by the authors."]).

(** The services up, the data directory holding one public file. *)
Definition public_services : ApiServer.Services :=
  ApiServer.mkServices true true (Ok ["public.pdf"]).

(** A world whose vector index holds these six chunks. *)
Definition two_document_world : World :=
  mkWorld (sent_tokenize Fixtures.quiet_world)
          (word_tokenize Fixtures.quiet_world)
          (py_hash Fixtures.quiet_world) (encode_batch Fixtures.quiet_world)
          (encode_query Fixtures.quiet_world)
          (fun _ limit _ => Ok (firstn limit two_document_points))
          (fts_select Fixtures.quiet_world)
          (write_cache_file Fixtures.quiet_world)
          (ollama_generate Fixtures.quiet_world).
End Samples.

(** * Properties *)

(** ** The embedding on small inputs *)

Module Examples.

Example split_on_whitespace :
  Py.split "  hello  world foo " = ["hello"; "world"; "foo"].
Proof. reflexivity. Qed.

Example strip_both_ends : Py.strip "  a b  " = "a b".
Proof. reflexivity. Qed.

Example join_with_separator : Py.join ", " ["a"; "b"; "c"] = "a, b, c".
Proof. reflexivity. Qed.

Example range_by_five :
  Py.range 0 11 5 = [0; 5; 10] /\ Py.range 0 10 5 = [0; 5] /\ Py.range 0 0 5 = [].
Proof. repeat split; reflexivity. Qed.

Example slice_past_the_end : Py.slice [1; 2; 3; 4; 5; 6; 7] 5 10 = [6; 7].
Proof. reflexivity. Qed.

(** [sorted(..., reverse=True)] keeps equal keys in their original order. *)
Example sorted_desc_is_stable :
  Py.sorted_desc (fun x : Q * nat => fst x)
    [((1 # 2)%Q, 1); ((3 # 4)%Q, 2); ((1 # 2)%Q, 3); ((2 # 4)%Q, 4); (1%Q, 5)]
  = [(1%Q, 5); ((3 # 4)%Q, 2); ((1 # 2)%Q, 1); ((1 # 2)%Q, 3); ((2 # 4)%Q, 4)].
Proof. reflexivity. Qed.

(** Assigning to a present key keeps the position of the entry. *)
Example dict_keeps_insertion_order :
  Py.dict_values (Py.dict_set (Py.dict_set (Py.dict_set [] "a" 1) "b" 2) "a" 3)
  = [3; 2].
Proof. reflexivity. Qed.

(** The test suite of RFC 1321. *)
Example md5_test_suite :
  MD5.hexdigest EmptyString = "d41d8cd98f00b204e9800998ecf8427e"
  /\ MD5.hexdigest "a" = "0cc175b9c0f1b6a831c399e269772661"
  /\ MD5.hexdigest "abc" = "900150983cd24fb0d6963f7d28e17f72"
  /\ MD5.hexdigest "message digest" = "f96b697d7cb7938d525a2f31aaf161d0"
  /\ MD5.hexdigest "abcdefghijklmnopqrstuvwxyz"
     = "c3fcd3d76192e4007dfb496cca67e13b".
Proof. repeat split; by vm_compute. Qed.

Example chunk_text_two_chunks :
  map (fun c => (ch_text c, cm_chunk_id (ch_metadata c)))
      (PDFProcessor.chunk_text Fixtures.period_world [Fixtures.seven_sentences])
  = [("The first sentence has six words. The second sentence has six words. The third sentence has six words. The fourth sentence has six words. The fifth sentence has six words.",
      "62ae8d4dc68a37a9276f674c9f5631f7");
     ("The sixth sentence has six words.", "27b0e8d3b96171ca10d48d6e33f89c7c")].
Proof. by vm_compute. Qed.

Example extract_three_keywords :
  VectorStore._extract_keywords_from_query Fixtures.quiet_world
    "The pricing plans for pricing of plans and pricing in a the the the the"
  = ["the"; "pricing"; "plans"].
Proof. by vm_compute. Qed.

(** [_combine_results]: defaults 0.8 and 0.6, the keyword copy of [alpha]
    dropped as a duplicate, the row tuple dropped, highest score first. *)
Example combine_results_example :
  map (fun r => (VectorStore.content_of r, sr_score r))
      (VectorStore._combine_results Fixtures.quiet_world
         [PyDict (Fixtures.hit "a" "alpha" "report.pdf" (5 # 10));
          PyDict (mkSearchResult (Some "b")
                    (Some (Fixtures.payload_of "beta" "report.pdf"))
                    None None None)]
         [PyDict (mkSearchResult None None None (Some "alpha") None);
          PyDict (mkSearchResult None None None (Some "gamma") None);
          PyTuple (mkRow "k" "kappa" "report.pdf" 2)])
  = [("beta", Some (8 # 10)); ("gamma", Some (6 # 10)); ("alpha", Some (5 # 10))].
Proof. by vm_compute. Qed.

End Examples.

(** ** Lists and loops *)

Module PyFacts.

Lemma fold_left_keep {A : Type} (p : A -> bool) (l acc : list A) :
  fold_left (fun kept x => if p x then kept ++ [x] else kept) l acc
  = acc ++ List.filter p l.
Proof.
  revert acc. induction l as [|x l IH]; intros acc; simpl.
  - by rewrite app_nil_r.
  - rewrite IH. destruct (p x); [by rewrite <- app_assoc | done].
Qed.

Lemma fold_left_snoc {A B : Type} (f : A -> B) (l : list A) (acc : list B) :
  fold_left (fun out x => out ++ [f x]) l acc = acc ++ map f l.
Proof.
  revert acc. induction l as [|x l IH]; intros acc; simpl.
  - by rewrite app_nil_r.
  - by rewrite IH, <- app_assoc.
Qed.

Lemma filter_sublist {A : Type} (p : A -> bool) (l : list A) :
  sublist (List.filter p l) l.
Proof.
  induction l as [|x l IH]; simpl; [constructor|].
  destruct (p x); by constructor.
Qed.

Lemma contains_In (l : list string) (x : string) :
  Py.contains l x = true <-> In x l.
Proof.
  unfold Py.contains. rewrite existsb_exists. split.
  - intros (y & Hy & Heq). apply String.eqb_eq in Heq. by subst.
  - intros H. exists x. split; [done | apply String.eqb_refl].
Qed.

Lemma truthy_nonempty (s : string) : Py.truthy s = true <-> s <> EmptyString.
Proof.
  unfold Py.truthy. rewrite negb_true_iff. split.
  - intros H ->. by rewrite String.eqb_refl in H.
  - intros H. by apply String.eqb_neq.
Qed.

Lemma nonempty_true {A : Type} (l : list A) : Py.nonempty l = true <-> l <> [].
Proof. destruct l; simpl; split; congruence. Qed.

(** [zip] of two lists of the same length. *)
Lemma zip_firsts {A B : Type} (l1 : list A) (l2 : list B) :
  length l2 = length l1 -> map fst (combine l1 l2) = l1.
Proof.
  revert l2. induction l1 as [|x l1 IH]; intros [|y l2] Hlen; simpl in *;
    try done. by rewrite IH by lia.
Qed.

Lemma zip_covers {A B : Type} (l1 : list A) (l2 : list B) (x : A) :
  length l2 = length l1 -> In x l1 -> exists y, In (x, y) (combine l1 l2).
Proof.
  revert l2. induction l1 as [|a l1 IH]; intros [|y l2] Hlen Hx; simpl in *;
    try done.
  destruct Hx as [->|Hx]; [exists y; by left|].
  destruct (IH l2) as [y' Hy']; [lia | done |]. exists y'. by right.
Qed.








End PyFacts.

(** ** Access filter *)

Module AccessFilter.
Import PyFacts.

Lemma permitted_iff (docs : list string) (d : option string) :
  VectorStore.permitted docs d = true
  <-> exists name, d = Some name /\ name <> EmptyString /\ In name docs.
Proof.
  unfold VectorStore.permitted. destruct d as [name|].
  - rewrite andb_true_iff, truthy_nonempty, contains_In. split.
    + intros [? ?]. by exists name.
    + intros (n & [= <-] & ? & ?). done.
  - split; [done | by intros (? & ? & _)].
Qed.

Lemma vector_store_filter_eq (results : list SearchResult) (docs : list string) :
  docs <> [] ->
  VectorStore._filter_by_accessible_docs results docs
  = List.filter (fun r => VectorStore.permitted docs (VectorStore.doc_name_of r))
                results.
Proof.
  intros Hne. unfold VectorStore._filter_by_accessible_docs.
  destruct docs; [done|]. simpl Py.nonempty. simpl negb. cbv iota.
  by rewrite fold_left_keep.
Qed.

Lemma chatbot_filter_eq (chunks : list Payload) (docs : list string) :
  docs <> [] ->
  Chatbot._filter_chunks_by_access chunks docs
  = List.filter (fun c => VectorStore.permitted docs (Chatbot.doc_name_of c))
                chunks.
Proof.
  intros Hne. unfold Chatbot._filter_chunks_by_access.
  destruct docs; [done|]. simpl Py.nonempty. simpl negb. cbv iota.
  by rewrite fold_left_keep.
Qed.

(** C9. With the empty list as the permitted list, both filters return
    their input unchanged: every result passes, whatever its document. *)
Theorem empty_permitted_list_keeps_everything :
  forall (results : list SearchResult) (chunks : list Payload),
    VectorStore._filter_by_accessible_docs results [] = results
    /\ Chatbot._filter_chunks_by_access chunks [] = chunks.
Proof. intros results chunks. split; reflexivity. Qed.

(** C3, as stated, fails for the empty permitted list: a result from
    [secret.pdf] is kept although no document is permitted. *)
Lemma access_filter_empty_list_counterexample :
  ~ Claims.access_filter_sound [Fixtures.secret_hit] [].
Proof.
  intros [Hin _]. destruct (Hin Fixtures.secret_hit) as (name & _ & []).
  by left.
Qed.

(** C3, amended. For a non-empty permitted list, both filters keep
    exactly the results whose document name is present, non-empty and in
    the list; the output is a subsequence of the input. *)
Theorem access_filter_nonempty_list :
  forall (results : list SearchResult) (chunks : list Payload)
         (accessible_docs : list string),
    accessible_docs <> [] ->
    let out := VectorStore._filter_by_accessible_docs results accessible_docs in
    let out' := Chatbot._filter_chunks_by_access chunks accessible_docs in
    sublist out results
    /\ (forall r, In r out <->
          In r results /\
          exists name, VectorStore.doc_name_of r = Some name
                       /\ name <> EmptyString /\ In name accessible_docs)
    /\ sublist out' chunks
    /\ (forall c, In c out' <->
          In c chunks /\
          exists name, Chatbot.doc_name_of c = Some name
                       /\ name <> EmptyString /\ In name accessible_docs).
Proof.
  intros results chunks docs Hne out out'. subst out out'.
  rewrite vector_store_filter_eq, chatbot_filter_eq by done.
  split; [apply filter_sublist|]. split.
  { intros r. rewrite filter_In, permitted_iff. reflexivity. }
  split; [apply filter_sublist|].
  intros c. rewrite filter_In, permitted_iff. reflexivity.
Qed.

Lemma access_filter_nonempty_list_witness :
  let docs := ["public.pdf"] in
  let results := [Fixtures.secret_hit; Fixtures.public_hit] in
  VectorStore._filter_by_accessible_docs results docs = [Fixtures.public_hit]
  /\ sublist (VectorStore._filter_by_accessible_docs results docs) results.
Proof.
  split; [reflexivity|].
  apply (access_filter_nonempty_list
           [Fixtures.secret_hit; Fixtures.public_hit] [] ["public.pdf"]).
  discriminate.
Defined.

End AccessFilter.

(** ** Chunking *)

Module Chunking.
Import PyFacts Closed.



Section WithWorld.
Context (W : World).

Lemma chunk_page_eq (chunks : list Chunk) (page : Page) :
  PDFProcessor.chunk_page W chunks page = chunks ++ page_chunks W page.
Proof.
  unfold PDFProcessor.chunk_page, page_chunks, page_items.
  destruct (negb _);
    unfold PDFProcessor.append_chunk; apply (fold_left_snoc (make_chunk _ _ _)).
Qed.

Lemma chunk_text_from (pages : list Page) (chunks : list Chunk) :
  fold_left (PDFProcessor.chunk_page W) pages chunks
  = chunks ++ flat_map (page_chunks W) pages.
Proof.
  revert chunks. induction pages as [|page pages IH]; intros chunks; simpl.
  - by rewrite app_nil_r.
  - by rewrite IH, chunk_page_eq, <- app_assoc.
Qed.

Lemma chunk_text_eq (pages : list Page) :
  PDFProcessor.chunk_text W pages = flat_map (page_chunks W) pages.
Proof. apply chunk_text_from. Qed.






End WithWorld.


End Chunking.

(** ** Sorting by descending score *)

Module Sorting.
Import Closed.

Section Desc.
Context {A : Type} (key : A -> Q).
Local Abbreviation desc := (desc key).

Lemma insert_desc_perm (x : A) (l : list A) :
  Permutation (Py.insert_desc key x l) (x :: l).
Proof.
  induction l as [|y l IH]; simpl; [done|].
  destruct (Qle_bool (key y) (key x)); [done|].
  rewrite IH. apply perm_swap.
Qed.

Lemma sorted_desc_perm (l : list A) : Permutation (Py.sorted_desc key l) l.
Proof.
  induction l as [|x l IH]; simpl; [done|].
  rewrite insert_desc_perm. by apply perm_skip.
Qed.

Lemma insert_desc_sorted (x : A) (l : list A) :
  StronglySorted desc l -> StronglySorted desc (Py.insert_desc key x l).
Proof.
  induction 1 as [|y l Hsorted IH Hall]; simpl.
  - repeat constructor.
  - destruct (Qle_bool (key y) (key x)) eqn:Hle.
    + apply Qle_bool_iff in Hle. constructor; [by constructor|].
      constructor; [done|].
      eapply Forall_impl; [exact Hall|]. intros z Hz. unfold desc in *.
      by apply Qle_trans with (key y).
    + assert (key x <= key y)%Q as Hxy.
      { apply Qlt_le_weak, Qnot_le_lt. intros H%Qle_bool_iff. congruence. }
      constructor; [done|].
      apply Forall_forall. intros z Hz.
      apply list_elem_of_In in Hz.
      apply (Permutation_in _ (insert_desc_perm x l)) in Hz as [<-|Hz]; [done|].
      rewrite Forall_forall in Hall. by apply Hall, list_elem_of_In.
Qed.

Lemma sorted_desc_sorted (l : list A) : StronglySorted desc (Py.sorted_desc key l).
Proof.
  induction l as [|x l IH]; simpl; [constructor | by apply insert_desc_sorted].
Qed.

Lemma sorted_desc_In (l : list A) (x : A) : In x (Py.sorted_desc key l) <-> In x l.
Proof.
  split; apply Permutation_in; [|symmetry]; apply sorted_desc_perm.
Qed.

Lemma sorted_desc_length (l : list A) : length (Py.sorted_desc key l) = length l.
Proof. apply Permutation_length, sorted_desc_perm. Qed.

End Desc.
End Sorting.

(** ** Combination of semantic and keyword results *)

Module Combine.
Import PyFacts Closed.

Lemma add_scored_fold (d : Q) (l : list PyVal) (acc : list SearchResult) :
  fold_left (VectorStore.add_scored d) l acc = acc ++ scored d l.
Proof.
  revert acc. induction l as [|v l IH]; intros acc; simpl.
  - by rewrite app_nil_r.
  - rewrite IH. destruct v; simpl; [by rewrite <- app_assoc | done].
Qed.

Lemma content_of_with_default_score (d : Q) (r : SearchResult) :
  VectorStore.content_of (VectorStore.with_default_score d r)
  = VectorStore.content_of r.
Proof. reflexivity. Qed.

Lemma scored_In (d : Q) (l : list PyVal) (e : SearchResult) :
  In e (scored d l)
  <-> exists r, In (PyDict r) l /\ e = VectorStore.with_default_score d r.
Proof.
  unfold scored. rewrite in_flat_map. split.
  - intros ([r|row] & Hin & He); simpl in He; [|done].
    destruct He as [<-|[]]. by exists r.
  - intros (r & Hin & ->). exists (PyDict r). split; [done | by left].
Qed.

Section WithWorld.
Context (W : World).

Local Abbreviation hash_of := (fun r => py_hash W (VectorStore.content_of r)).

Lemma dedup_fold (l : list SearchResult) (seen : gset Z) (acc : list SearchResult) :
  snd (fold_left (VectorStore.dedup_step W) l (seen, acc))
  = acc ++ dedup_from W seen l.
Proof.
  revert seen acc. induction l as [|r l IH]; intros seen acc; simpl.
  - by rewrite app_nil_r.
  - destruct (bool_decide _); rewrite IH; [by rewrite <- app_assoc | done].
Qed.

Lemma combine_results_eq (semantic keyword : list PyVal) :
  VectorStore._combine_results W semantic keyword
  = Py.sorted_desc VectorStore.score_key
      (dedup_from W ∅ (combined_list semantic keyword)).
Proof.
  unfold VectorStore._combine_results. rewrite !add_scored_fold, dedup_fold.
  reflexivity.
Qed.

(** Every element kept is the first of the list with its hash that was not
    seen before. *)
Lemma dedup_from_first (l : list SearchResult) (seen : gset Z) (e : SearchResult) :
  In e (dedup_from W seen l) ->
  (hash_of e ∉ seen)
  /\ exists l1 l2, l = l1 ++ e :: l2
                   /\ forall x, In x l1 -> hash_of x <> hash_of e.
Proof.
  revert seen. induction l as [|r l IH]; intros seen; simpl; [done|].
  destruct (bool_decide_reflect (hash_of r ∉ seen)) as [Hnew|Hold].
  - intros [<-|Hin].
    + split; [done|]. exists [], l. split; [done | by intros ? []].
    + destruct (IH _ Hin) as (Hnotin & l1 & l2 & Hl & Hfirst).
      apply not_elem_of_union in Hnotin as [Hne%not_elem_of_singleton Hnotin].
      split; [done|]. exists (r :: l1), l2. split; [by rewrite Hl|].
      intros x [<-|Hx]; [done | by apply Hfirst].
  - intros Hin. destruct (IH _ Hin) as (Hnotin & l1 & l2 & Hl & Hfirst).
    split; [done|]. exists (r :: l1), l2. split; [by rewrite Hl|].
    intros x [<-|Hx]; [|by apply Hfirst].
    intros Heq. apply Hold. by rewrite Heq.
Qed.

Lemma dedup_from_hashes (l : list SearchResult) (seen : gset Z) :
  NoDup (map hash_of (dedup_from W seen l)).
Proof.
  revert seen. induction l as [|r l IH]; intros seen; simpl; [constructor|].
  destruct (bool_decide_reflect (hash_of r ∉ seen)) as [Hnew|Hold]; [|done].
  simpl. apply NoDup_cons. split; [|done].
  rewrite list_elem_of_In, in_map_iff. intros (x & Hx & Hin).
  apply dedup_from_first in Hin as [Hnotin _]. rewrite Hx in Hnotin.
  apply Hnotin, elem_of_union. left. by apply elem_of_singleton.
Qed.

Lemma dedup_from_sublist (l : list SearchResult) (seen : gset Z) :
  sublist (dedup_from W seen l) l.
Proof.
  revert seen. induction l as [|r l IH]; intros seen; simpl; [constructor|].
  destruct (bool_decide _); by constructor.
Qed.

(** Nothing is lost but duplicates: every hash of the list is seen already
    or kept. *)
Lemma dedup_from_covers (l : list SearchResult) (seen : gset Z) (r : SearchResult) :
  In r l ->
  hash_of r ∈ seen
  \/ exists e, In e (dedup_from W seen l) /\ hash_of e = hash_of r.
Proof.
  revert seen. induction l as [|x l IH]; intros seen; simpl; [done|].
  destruct (bool_decide_reflect (hash_of x ∉ seen)) as [Hnew|Hold].
  - intros [->|Hin].
    + right. exists r. split; [by left | done].
    + destruct (IH ({[hash_of x]} ∪ seen) Hin) as [Hseen|(e & He & Heq)].
      * apply elem_of_union in Hseen as [Hx%elem_of_singleton|Hseen]; [|by left].
        right. exists x. split; [by left | done].
      * right. exists e. split; [by right | done].
  - intros [->|Hin]; [left; by apply dec_stable | by apply IH].
Qed.

Lemma NoDup_map_compose {A B C : Type} (f : A -> B) (g : B -> C) (l : list A) :
  NoDup (map (fun x => g (f x)) l) -> NoDup (map f l).
Proof.
  induction l as [|x l IH]; simpl; [constructor|].
  intros [Hx Hl]%NoDup_cons. apply NoDup_cons. split; [|by apply IH].
  rewrite list_elem_of_In, in_map_iff. intros (y & Hy & Hin).
  apply Hx, list_elem_of_In, in_map_iff. exists y. by rewrite Hy.
Qed.

Lemma filled_from_default (d : Q) (r : SearchResult) :
  filled_from d r (VectorStore.with_default_score d r).
Proof. unfold filled_from. by destruct r as [? ? [?|] ? ?]. Qed.

(** C10. The list [_combine_results] returns is sorted by non-increasing
    score; no two of its elements have the same text content; each element
    is the first of the combined list (semantic results, then keyword
    results) with its content, so a semantic result shuts out a keyword
    result with the same text; each element is a dict of one of the two
    inputs, with the score 0.8 (semantic) or 0.6 (keyword) filled in where
    it had none. *)
Theorem combine_results_sorted_without_duplicates :
  forall (semantic_results keyword_results : list PyVal),
    let out := VectorStore._combine_results W semantic_results keyword_results in
    let combined := combined_list semantic_results keyword_results in
    StronglySorted (desc VectorStore.score_key) out
    /\ NoDup (map VectorStore.content_of out)
    /\ (forall e, In e out ->
          exists l1 l2,
            combined = l1 ++ e :: l2
            /\ forall x, In x l1 ->
                 VectorStore.content_of x <> VectorStore.content_of e)
    /\ (forall e, In e out ->
          (exists r, In (PyDict r) semantic_results /\ filled_from (8 # 10) r e)
          \/ (exists r, In (PyDict r) keyword_results /\ filled_from (6 # 10) r e))
    /\ (forall e s, In e out -> In (PyDict s) semantic_results ->
          VectorStore.content_of s = VectorStore.content_of e ->
          exists r, In (PyDict r) semantic_results /\ filled_from (8 # 10) r e).
Proof.
  intros semantic keyword out combined. subst out.
  rewrite combine_results_eq. fold combined.
  set (kept := dedup_from W ∅ combined).
  assert (forall e, In e (Py.sorted_desc VectorStore.score_key kept) ->
            exists l1 l2,
              combined = l1 ++ e :: l2
              /\ forall x, In x l1 ->
                   VectorStore.content_of x <> VectorStore.content_of e)
    as Hfirst.
  { intros e He%Sorting.sorted_desc_In.
    apply dedup_from_first in He as (_ & l1 & l2 & Hl & Hne).
    exists l1, l2. split; [done|]. intros x Hx Heq. apply (Hne x Hx).
    by rewrite Heq. }
  split; [apply Sorting.sorted_desc_sorted|]. split.
  { rewrite Sorting.sorted_desc_perm.
    apply (NoDup_map_compose _ (py_hash W)), dedup_from_hashes. }
  split; [exact Hfirst|]. split.
  - intros e He%Sorting.sorted_desc_In.
    apply list_elem_of_In in He.
    apply (fun H => elem_of_sublist _ _ _ H (dedup_from_sublist _ _)) in He.
    apply list_elem_of_In in He.
    apply in_app_or in He as [He|He]; apply scored_In in He as (r & Hr & ->);
      [left | right]; exists r; split; try done; apply filled_from_default.
  - intros e s He Hs Hcontent.
    destruct (Hfirst e He) as (l1 & l2 & Hl & Hne).
    assert (In (VectorStore.with_default_score (8 # 10) s)
               (scored (8 # 10) semantic)) as Hs'.
    { apply scored_In. by exists s. }
    assert (In e (scored (8 # 10) semantic)) as Hein.
    { unfold combined, combined_list in Hl.
      apply app_eq_app in Hl as [l [[HA HB]|[Hl1 HB]]].
      - destruct l as [|e' l].
        + rewrite app_nil_r in HA. rewrite HA in Hs'.
          by apply Hne in Hs'.
        + injection HB as -> _. rewrite HA. apply in_or_app. right. by left.
      - exfalso. apply (Hne (VectorStore.with_default_score (8 # 10) s)); [|done].
        rewrite Hl1. apply in_or_app. by left. }
    apply scored_In in Hein as (r & Hr & ->).
    exists r. split; [done | apply filled_from_default].
Qed.

End WithWorld.

Lemma combine_results_sorted_without_duplicates_witness :
  let semantic := [PyDict (Fixtures.hit "a" "alpha" "report.pdf" (5 # 10));
                   PyDict (mkSearchResult (Some "b")
                             (Some (Fixtures.payload_of "beta" "report.pdf"))
                             None None None)] in
  let keyword := [PyDict (mkSearchResult None None None (Some "alpha") None);
                  PyTuple (mkRow "k" "kappa" "report.pdf" 2)] in
  NoDup (map VectorStore.content_of
           (VectorStore._combine_results Fixtures.quiet_world semantic keyword))
  /\ map VectorStore.content_of
       (VectorStore._combine_results Fixtures.quiet_world semantic keyword)
     = ["beta"; "alpha"].
Proof.
  intros semantic keyword. split; [|by vm_compute].
  apply (combine_results_sorted_without_duplicates Fixtures.quiet_world
           semantic keyword).
Defined.

End Combine.

(** ** Reciprocal Rank Fusion *)

Module Fusion.
Import PyFacts Closed.

(** *** Insertion-ordered dicts *)

Lemma dict_get_set {V : Type} (d : Py.dict V) (k c : string) (v : V) :
  Py.dict_get (Py.dict_set d k v) c
  = if String.eqb k c then Some v else Py.dict_get d c.
Proof.
  induction d as [|[k' v'] d IH]; simpl; [done|].
  destruct (String.eqb_spec k' k) as [->|Hne]; simpl.
  - by destruct (String.eqb k c).
  - rewrite IH. destruct (String.eqb_spec k' c) as [->|]; [|done].
    by destruct (String.eqb_spec k c).
Qed.

Lemma dict_get_keys {V : Type} (d : Py.dict V) (c : string) :
  In c (Py.dict_keys d) <-> exists v, Py.dict_get d c = Some v.
Proof.
  induction d as [|[k v] d IH]; simpl.
  - split; [done | by intros [? ?]].
  - destruct (String.eqb_spec k c) as [->|Hne].
    + split; [by exists v | by left].
    + rewrite <- IH. split; [by intros [?|?] | by right].
Qed.

Lemma dict_keys_set {V : Type} (d : Py.dict V) (k : string) (v : V) :
  Py.dict_keys (Py.dict_set d k v)
  = if Py.contains (Py.dict_keys d) k then Py.dict_keys d
    else Py.dict_keys d ++ [k].
Proof.
  induction d as [|[k' v'] d IH]; simpl; [done|].
  rewrite (String.eqb_sym k k').
  destruct (String.eqb k' k); simpl; [done|].
  rewrite IH. by destruct (Py.contains _ _).
Qed.

Lemma dict_set_NoDup {V : Type} (d : Py.dict V) (k : string) (v : V) :
  NoDup (Py.dict_keys d) -> NoDup (Py.dict_keys (Py.dict_set d k v)).
Proof.
  intros Hd. rewrite dict_keys_set.
  destruct (Py.contains _ _) eqn:Hc; [done|].
  apply NoDup_app. split; [done|]. split; [|apply NoDup_singleton].
  intros x Hx [->|[]]%list_elem_of_In. apply list_elem_of_In, contains_In in Hx.
  congruence.
Qed.

Lemma dict_get_In {V : Type} (d : Py.dict V) (k : string) (v : V) :
  NoDup (Py.dict_keys d) -> (In (k, v) d <-> Py.dict_get d k = Some v).
Proof.
  induction d as [|[k' v'] d IH]; simpl; [done|].
  intros [Hk' Hd]%NoDup_cons. specialize (IH Hd).
  destruct (String.eqb_spec k' k) as [->|Hne].
  - split; [|intros [= ->]; by left].
    intros [[= ->]|Hin]; [done|]. exfalso. apply Hk', list_elem_of_In.
    apply in_map_iff. by exists (k, v).
  - rewrite <- IH. split; [intros [[= ? ?]|?]; done | by right].
Qed.

Lemma dict_set_Forall {V : Type} (P : string * V -> Prop) (d : Py.dict V)
    (k : string) (v : V) :
  Forall P d -> P (k, v) -> Forall P (Py.dict_set d k v).
Proof.
  intros Hd Hkv. induction Hd as [|[k' v'] d Hx Hd IH]; simpl.
  - by constructor.
  - destruct (String.eqb_spec k' k) as [->|]; by constructor.
Qed.

(** *** The two loops of [_fuse_results] *)

Local Abbreviation score_at d c :=
  (option_map QdrantManager.score_key (Py.dict_get d c)).

Lemma rank_from_None (start : nat) (ids : list string) (c : string) :
  ~ In c ids -> rank_from start ids c = None.
Proof.
  revert start. induction ids as [|k ids IH]; intros start Hc; simpl; [done|].
  destruct (String.eqb_spec k c) as [->|]; [exfalso; apply Hc; by left|].
  apply IH. intros ?. apply Hc. by right.
Qed.

Lemma rank_from_Some (start : nat) (ids : list string) (c : string) :
  In c ids -> exists rank, rank_from start ids c = Some rank /\ start <= rank.
Proof.
  revert start. induction ids as [|k ids IH]; intros start Hc; simpl; [done|].
  destruct (String.eqb_spec k c) as [->|Hne]; [by exists start|].
  destruct Hc as [?|Hc]; [done|].
  destruct (IH (S start) Hc) as (rank & -> & ?). exists rank. split; [done | lia].
Qed.

Lemma fuse_vector_score (d : Py.dict SearchResult) (rank : nat)
    (r : ScoredPoint) (c : string) :
  score_at (QdrantManager.fuse_vector d (rank, r)) c
  = if String.eqb (sp_id r) c then Some (QdrantManager.rrf_term rank)
    else score_at d c.
Proof.
  unfold QdrantManager.fuse_vector. rewrite dict_get_set.
  by destruct (String.eqb _ _).
Qed.

Lemma fuse_keyword_score (d : Py.dict SearchResult) (rank : nat)
    (row : Row) (c : string) :
  score_at (QdrantManager.fuse_keyword d (rank, row)) c
  = if String.eqb (row_id row) c
    then Some (match score_at d c with
               | Some s => (s + QdrantManager.rrf_term rank)%Q
               | None => QdrantManager.rrf_term rank
               end)
    else score_at d c.
Proof.
  unfold QdrantManager.fuse_keyword.
  destruct (Py.dict_get d (row_id row)) as [entry|] eqn:Hget;
    rewrite dict_get_set;
    (destruct (String.eqb_spec (row_id row) c) as [<-|]; [|done]);
    by rewrite Hget.
Qed.

Lemma fuse_vector_ok (d : Py.dict SearchResult) (item : nat * ScoredPoint) :
  NoDup (Py.dict_keys d) /\ Forall entry_ok d ->
  NoDup (Py.dict_keys (QdrantManager.fuse_vector d item))
  /\ Forall entry_ok (QdrantManager.fuse_vector d item).
Proof.
  intros [Hnd Hok]. destruct item as [rank r]. unfold QdrantManager.fuse_vector.
  split; [by apply dict_set_NoDup|].
  apply dict_set_Forall; [done|]. split; simpl; [done | by eexists].
Qed.

Lemma fuse_keyword_ok (d : Py.dict SearchResult) (item : nat * Row) :
  NoDup (Py.dict_keys d) /\ Forall entry_ok d ->
  NoDup (Py.dict_keys (QdrantManager.fuse_keyword d item))
  /\ Forall entry_ok (QdrantManager.fuse_keyword d item).
Proof.
  intros [Hnd Hok]. destruct item as [rank row]. unfold QdrantManager.fuse_keyword.
  destruct (Py.dict_get d (row_id row)) as [entry|] eqn:Hget.
  - split; [by apply dict_set_NoDup|].
    apply dict_set_Forall; [done|]. split; simpl; [|by eexists].
    apply dict_get_In in Hget; [|done].
    rewrite Forall_forall in Hok. by apply list_elem_of_In, Hok in Hget as [? _].
  - split; [by apply dict_set_NoDup|].
    apply dict_set_Forall; [done|]. split; simpl; [done | by eexists].
Qed.

Lemma fold_ok {A : Type} (f : Py.dict SearchResult -> A -> Py.dict SearchResult)
    (items : list A) (d : Py.dict SearchResult) :
  (forall d x, NoDup (Py.dict_keys d) /\ Forall entry_ok d ->
               NoDup (Py.dict_keys (f d x)) /\ Forall entry_ok (f d x)) ->
  NoDup (Py.dict_keys d) /\ Forall entry_ok d ->
  NoDup (Py.dict_keys (fold_left f items d))
  /\ Forall entry_ok (fold_left f items d).
Proof.
  intros Hstep. revert d. induction items as [|x items IH]; intros d Hd; simpl;
    [done | by apply IH, Hstep].
Qed.

Lemma fuse_vector_fold (vs : list ScoredPoint) (start : nat)
    (d : Py.dict SearchResult) (c : string) :
  NoDup (map sp_id vs) ->
  score_at (fold_left QdrantManager.fuse_vector
                      (combine (seq start (length vs)) vs) d) c
  = match rank_from start (map sp_id vs) c with
    | Some rank => Some (QdrantManager.rrf_term rank)
    | None => score_at d c
    end.
Proof.
  revert start d. induction vs as [|r vs IH]; intros start d Hnd; [done|].
  cbn [length seq combine fold_left map rank_from].
  apply NoDup_cons in Hnd as [Hr Hnd]. rewrite IH by done.
  rewrite fuse_vector_score.
  destruct (String.eqb_spec (sp_id r) c) as [<-|Hne]; [|done].
  rewrite rank_from_None; [done|]. by rewrite <- list_elem_of_In.
Qed.

Lemma fuse_keyword_fold (ks : list Row) (start : nat)
    (d : Py.dict SearchResult) (c : string) :
  NoDup (map row_id ks) ->
  score_at (fold_left QdrantManager.fuse_keyword
                      (combine (seq start (length ks)) ks) d) c
  = match rank_from start (map row_id ks) c with
    | Some rank => Some (match score_at d c with
                         | Some s => (s + QdrantManager.rrf_term rank)%Q
                         | None => QdrantManager.rrf_term rank
                         end)
    | None => score_at d c
    end.
Proof.
  revert start d. induction ks as [|row ks IH]; intros start d Hnd; [done|].
  cbn [length seq combine fold_left map rank_from].
  apply NoDup_cons in Hnd as [Hr Hnd]. rewrite IH by done.
  rewrite fuse_keyword_score.
  destruct (String.eqb_spec (row_id row) c) as [<-|Hne]; [|done].
  rewrite rank_from_None; [done|]. by rewrite <- list_elem_of_In.
Qed.

Lemma rrf_term_spec (rank : nat) :
  (QdrantManager.rrf_term rank == 1 / (inject_Z (Z.of_nat rank) + 60))%Q.
Proof. unfold QdrantManager.rrf_term. by rewrite inject_Z_plus. Qed.

Lemma values_ids (d : Py.dict SearchResult) :
  Forall entry_ok d -> map sr_id (Py.dict_values d) = map Some (Py.dict_keys d).
Proof.
  induction 1 as [|[k e] d [Hid _] _ IH]; simpl in *; [done|]. by rewrite Hid, IH.
Qed.

Lemma NoDup_map_Some {A : Type} (l : list A) : NoDup l -> NoDup (map Some l).
Proof.
  induction 1 as [|x l Hx Hl IH]; simpl; constructor; [|done].
  rewrite list_elem_of_In, in_map_iff. intros (y & [= ->] & Hy).
  by apply Hx, list_elem_of_In.
Qed.

(** C2. For two ranked lists in which every chunk identifier occurs at most
    once, [_fuse_results] returns the first [SIMILARITY_TOP_K] entries of a
    list that holds every chunk of either list exactly once, sorted by
    descending score, where the score of a chunk is the sum of [1/(rank+60)]
    over the lists it appears in (ranks counted from 1). *)
Theorem fuse_results_is_reciprocal_rank_fusion :
  forall (vector_results : list ScoredPoint) (keyword_results : list Row),
    NoDup (map sp_id vector_results) ->
    NoDup (map row_id keyword_results) ->
    exists fused : list SearchResult,
      QdrantManager._fuse_results vector_results keyword_results
      = firstn Config.SIMILARITY_TOP_K fused
      /\ StronglySorted (desc QdrantManager.score_key) fused
      /\ NoDup (map sr_id fused)
      /\ (forall c, In (Some c) (map sr_id fused)
                    <-> In c (map sp_id vector_results)
                        \/ In c (map row_id keyword_results))
      /\ (forall e, In e fused ->
            exists c s, sr_id e = Some c /\ sr_score e = Some s
                        /\ (s == rrf_score vector_results keyword_results c)%Q).
Proof.
  intros vs ks Hvs Hks.
  set (d1 := fold_left QdrantManager.fuse_vector (Py.enumerate vs 1) []).
  set (d2 := fold_left QdrantManager.fuse_keyword (Py.enumerate ks 1) d1).
  assert (NoDup (Py.dict_keys d2) /\ Forall entry_ok d2) as [Hnd Hok].
  { apply fold_ok; [apply fuse_keyword_ok|].
    apply fold_ok; [apply fuse_vector_ok|]. split; constructor. }
  assert (forall c, score_at d2 c
            = match rank_of (map row_id ks) c with
              | Some rk =>
                  Some (match rank_of (map sp_id vs) c with
                        | Some rv => (QdrantManager.rrf_term rv
                                      + QdrantManager.rrf_term rk)%Q
                        | None => QdrantManager.rrf_term rk
                        end)
              | None => option_map QdrantManager.rrf_term
                                   (rank_of (map sp_id vs) c)
              end) as Hscore.
  { intros c. unfold d2, d1, Py.enumerate, rank_of.
    rewrite fuse_keyword_fold, fuse_vector_fold by done.
    by destruct (rank_from 1 (map sp_id vs) c), (rank_from 1 (map row_id ks) c). }
  exists (Py.sorted_desc QdrantManager.score_key (Py.dict_values d2)).
  split; [done|]. split; [apply Sorting.sorted_desc_sorted|]. split.
  { rewrite Sorting.sorted_desc_perm, values_ids by done. by apply NoDup_map_Some. }
  split.
  - intros c. rewrite (Permutation_in' eq_refl
                         (Permutation_map sr_id (Sorting.sorted_desc_perm _ _))).
    rewrite values_ids by done. rewrite in_map_iff.
    assert (In c (Py.dict_keys d2) <-> is_Some (score_at d2 c)) as Hkeys.
    { rewrite dict_get_keys. destruct (Py.dict_get d2 c); simpl.
      - split; [by eexists | by eexists]. 
      - split; [by intros [? ?] | by intros [? ?]]. }
    split.
    + intros (c' & [= ->] & Hc). apply Hkeys in Hc. rewrite Hscore in Hc.
      destruct (in_dec string_dec c (map row_id ks)) as [|Hk]; [by right|]. left.
      unfold rank_of in Hc. rewrite (rank_from_None _ _ _ Hk) in Hc.
      destruct (in_dec string_dec c (map sp_id vs)) as [|Hv]; [done|].
      rewrite (rank_from_None _ _ _ Hv) in Hc. by destruct Hc.
    + intros Hc. exists c. split; [done|]. apply Hkeys. rewrite Hscore.
      unfold rank_of. destruct Hc as [Hc|Hc].
      * destruct (rank_from_Some 1 _ _ Hc) as (rv & -> & _).
        by destruct (rank_from 1 (map row_id ks) c).
      * by destruct (rank_from_Some 1 _ _ Hc) as (rk & -> & _).
  - intros e He%Sorting.sorted_desc_In.
    apply in_map_iff in He as ([c e'] & <- & Hin). simpl.
    pose proof Hok as Hok'. rewrite Forall_forall in Hok'.
    destruct (Hok' (c, e')) as [Hid [s Hs]]; [by apply list_elem_of_In|].
    simpl in Hid, Hs. exists c, s. split; [done|]. split; [done|].
    apply dict_get_In in Hin; [|done].
    specialize (Hscore c). rewrite Hin in Hscore. simpl in Hscore.
    unfold QdrantManager.score_key in Hscore. rewrite Hs in Hscore. simpl in Hscore.
    unfold rrf_score, contribution.
    destruct (rank_of (map row_id ks) c) as [rk|],
             (rank_of (map sp_id vs) c) as [rv|];
      simpl in Hscore; try done; injection Hscore as ->;
      rewrite <- ?rrf_term_spec.
    + reflexivity.
    + by rewrite Qplus_0_l.
    + by rewrite Qplus_0_r.
Qed.

Lemma fuse_results_is_reciprocal_rank_fusion_witness :
  map (fun e => (sr_id e, sr_score e))
      (QdrantManager._fuse_results Fixtures.three_points Fixtures.three_rows)
  = [(Some "a", Some (124 # 3843)); (Some "c", Some (124 # 3843));
     (Some "b", Some (1 # 62)); (Some "d", Some (1 # 62))]
  /\ exists fused,
      QdrantManager._fuse_results Fixtures.three_points Fixtures.three_rows
      = firstn Config.SIMILARITY_TOP_K fused
      /\ StronglySorted (desc QdrantManager.score_key) fused
      /\ NoDup (map sr_id fused)
      /\ (forall c, In (Some c) (map sr_id fused)
                    <-> In c (map sp_id Fixtures.three_points)
                        \/ In c (map row_id Fixtures.three_rows))
      /\ (forall e, In e fused ->
            exists c s, sr_id e = Some c /\ sr_score e = Some s
                        /\ (s == rrf_score Fixtures.three_points
                                            Fixtures.three_rows c)%Q).
Proof.
  split; [reflexivity|].
  apply (fuse_results_is_reciprocal_rank_fusion
           Fixtures.three_points Fixtures.three_rows);
    apply (bool_decide_unpack _); vm_compute; exact I.
Defined.

End Fusion.

(** ** Hybrid search *)

Module HybridSearch.
Import PyFacts Closed.

(** Unfolding of the monad on a run. *)
Ltac run_monad :=
  unfold bind, ret, raise, lift, call, emit, try_except, get_cache, put_cache
    in *; simpl in *.

Lemma bind_run {A B : Type} (m : M A) (k : A -> M B) (st : State) :
  bind m k st
  = match m st with
    | (Ok a, st') => k a st'
    | (Raise e, st') => (Raise e, st')
    end.
Proof. reflexivity. Qed.

(** The steps between the semantic search and the filter: they leave the
    combined list, or one of them raises. *)
Lemma combination_cases (self : VectorStore.Steps) (query : string)
    (st : State) (sem : list SearchResult) (st1 : State) :
  VectorStore.qdrant_search self query 10 st = (Ok sem, st1) ->
  let steps :=
    (if length sem <? 5
     then keywords <- VectorStore.extract_keywords self query ;;
          keyword_results <- VectorStore.keyword_db_search self keywords 5 ;;
          VectorStore.combine_results self (map PyDict sem)
                                      (map PyTuple keyword_results)
     else ret sem)%M in
  (exists comb st2,
      combined_is self query st comb st2 /\ steps st1 = (Ok comb, st2))
  \/ (exists e st2,
         (forall docs, some_step_raises self query docs st e st2)
         /\ steps st1 = (Raise e, st2)).
Proof.
  intros Hsem steps. subst steps. destruct (length sem <? 5) eqn:Hlen.
  - apply Nat.ltb_lt in Hlen. rewrite bind_run.
    destruct (VectorStore.extract_keywords self query st1)
      as [[kws|e] st2] eqn:Hkws;
      [|right; exists e, st2; split;
        [intros; by eapply raises_keyword_extraction | done]].
    rewrite bind_run.
    destruct (VectorStore.keyword_db_search self kws 5 st2)
      as [[rows|e] st3] eqn:Hrows;
      [|right; exists e, st3; split;
        [intros; by eapply raises_keyword_search | done]].
    destruct (VectorStore.combine_results self (map PyDict sem)
                (map PyTuple rows) st3) as [[comb|e] st4] eqn:Hc;
      [|right; exists e, st4; split;
        [intros; by eapply raises_combination | done]].
    left. exists comb, st4. split; [by eapply combined_with_keywords | done].
  - apply Nat.ltb_ge in Hlen. left. exists sem, st1.
    split; [by apply combined_semantic_only | done].
Qed.

(** The [try] block either runs every step to its end, or stops at the
    first step that raises. *)
Lemma hybrid_search_try_cases (self : VectorStore.Steps) (query : string)
    (accessible_docs : option (list string)) (st : State) :
  (exists flt st',
      filtered_is self query accessible_docs st flt st'
      /\ VectorStore.hybrid_search_try self query accessible_docs st
         = (Ok (firstn 8 flt), st'))
  \/ (exists e st',
         some_step_raises self query accessible_docs st e st'
         /\ VectorStore.hybrid_search_try self query accessible_docs st
            = (Raise e, st')).
Proof.
  unfold VectorStore.hybrid_search_try. rewrite bind_run.
  destruct (VectorStore.qdrant_search self query 10 st) as [[sem|e] st1] eqn:Hsem;
    [|right; exists e, st1; split; [by constructor | done]].
  rewrite bind_run.
  destruct (combination_cases self query st sem st1 Hsem)
    as [(comb & st2 & Hcomb & ->)|(e & st2 & Hraise & ->)];
    [|right; by exists e, st2].
  rewrite bind_run. destruct accessible_docs as [docs|].
  - destruct (VectorStore.filter_by_accessible_docs self comb docs st2)
      as [[flt|e] st3] eqn:Hflt.
    + left. exists flt, st3. split; [by eapply filtered_by_list | done].
    + right. exists e, st3. split; [by eapply raises_filter | done].
  - left. exists comb, st2. split; [by apply filtered_no_list | done].
Qed.

(** The runs the two relations describe are runs of the [try] block. *)
Lemma combined_is_run (self : VectorStore.Steps) (query : string)
    (st : State) (comb : list SearchResult) (st2 : State)
    (rest : list SearchResult -> M (list SearchResult)) :
  combined_is self query st comb st2 ->
  (semantic_results <- VectorStore.qdrant_search self query 10 ;;
   combined_results <-
     (if length semantic_results <? 5 then
        keywords <- VectorStore.extract_keywords self query ;;
        keyword_results <- VectorStore.keyword_db_search self keywords 5 ;;
        VectorStore.combine_results self (map PyDict semantic_results)
                                    (map PyTuple keyword_results)
      else ret semantic_results) ;;
   rest combined_results)%M st
  = rest comb st2.
Proof.
  intros [sem st1 Hsem Hlen|sem st1 kws st2' rows st3 comb' st4 Hsem Hlen Hkws Hrows Hcomb].
  - rewrite bind_run, Hsem, bind_run.
    apply Nat.ltb_ge in Hlen. by rewrite Hlen.
  - rewrite bind_run, Hsem, bind_run.
    apply Nat.ltb_lt in Hlen. rewrite Hlen.
    by rewrite bind_run, Hkws, bind_run, Hrows, Hcomb.
Qed.

Lemma filtered_is_run (self : VectorStore.Steps) (query : string)
    (accessible_docs : option (list string)) (st : State)
    (flt : list SearchResult) (st' : State) :
  filtered_is self query accessible_docs st flt st' ->
  VectorStore.hybrid_search_try self query accessible_docs st
  = (Ok (firstn 8 flt), st').
Proof.
  unfold VectorStore.hybrid_search_try.
  intros [comb st1 -> Hcomb|docs comb st1 flt' st2 -> Hcomb Hflt];
    rewrite (combined_is_run _ _ _ _ _ _ Hcomb); [done|].
  by rewrite bind_run, Hflt.
Qed.

Lemma some_step_raises_run (self : VectorStore.Steps) (query : string)
    (accessible_docs : option (list string)) (st : State) (e : exn)
    (st' : State) :
  some_step_raises self query accessible_docs st e st' ->
  VectorStore.hybrid_search_try self query accessible_docs st = (Raise e, st').
Proof.
  unfold VectorStore.hybrid_search_try.
  intros [e' st1 Hsem
         |sem st1 e' st2 Hsem Hlen Hkws
         |sem st1 kws st2 e' st3 Hsem Hlen Hkws Hrows
         |sem st1 kws st2 rows st3 e' st4 Hsem Hlen Hkws Hrows Hcomb
         |docs comb st1 e' st2 -> Hcomb Hflt].
  - by rewrite bind_run, Hsem.
  - rewrite bind_run, Hsem, bind_run. apply Nat.ltb_lt in Hlen. rewrite Hlen.
    by rewrite bind_run, Hkws.
  - rewrite bind_run, Hsem, bind_run. apply Nat.ltb_lt in Hlen. rewrite Hlen.
    by rewrite bind_run, Hkws, bind_run, Hrows.
  - rewrite bind_run, Hsem, bind_run. apply Nat.ltb_lt in Hlen. rewrite Hlen.
    by rewrite bind_run, Hkws, bind_run, Hrows, Hcomb.
  - rewrite (combined_is_run _ _ _ _ _ _ Hcomb). by rewrite bind_run, Hflt.
Qed.

(** C8. [hybrid_search] never raises and never returns more than 8
    results: when a step (semantic search, keyword extraction, keyword
    search, combination, filter) raises, it returns the empty list;
    otherwise it returns the first 8 elements of the combined, filtered
    list. *)
Theorem hybrid_search_never_raises_at_most_8 :
  forall (self : VectorStore.Steps) (query : string)
         (accessible_docs : option (list string)) (st : State),
    exists results st',
      VectorStore.hybrid_search_with self query accessible_docs st
      = (Ok results, st')
      /\ length results <= 8
      /\ (forall e st1,
            some_step_raises self query accessible_docs st e st1 ->
            results = [] /\ st' = st1)
      /\ (forall flt st1,
            filtered_is self query accessible_docs st flt st1 ->
            results = firstn 8 flt /\ st' = st1)
      /\ ((exists e, some_step_raises self query accessible_docs st e st')
          \/ (exists flt, filtered_is self query accessible_docs st flt st')).
Proof.
  intros self query docs st. unfold VectorStore.hybrid_search_with, try_except.
  destruct (hybrid_search_try_cases self query docs st)
    as [(flt & st' & Hflt & Hrun)|(e & st' & Hraise & Hrun)]; rewrite Hrun.
  - exists (firstn 8 flt), st'. split; [done|].
    split; [apply firstn_le_length|]. split; [|split].
    + intros e st1 He%some_step_raises_run. congruence.
    + intros flt' st1 Hflt'%filtered_is_run. rewrite Hrun in Hflt'.
      by injection Hflt' as <- <-.
    + right. by exists flt.
  - exists [], st'. split; [done|]. split; [simpl; lia|]. split; [|split].
    + intros e' st1 He%some_step_raises_run. rewrite Hrun in He.
      by injection He as _ <-.
    + intros flt st1 Hflt%filtered_is_run. congruence.
    + left. by exists e.
Qed.

Lemma hybrid_search_never_raises_at_most_8_witness :
  exists st',
    VectorStore.hybrid_search Fixtures.closed_index_world "pricing plans" None
      Fixtures.empty_state = (Ok [], st').
Proof.
  destruct (hybrid_search_never_raises_at_most_8
              (VectorStore.steps Fixtures.closed_index_world) "pricing plans"
              None Fixtures.empty_state)
    as (results & st' & Hrun & _ & Hraises & _).
  exists st'. unfold VectorStore.hybrid_search. rewrite Hrun.
  destruct (Hraises (Exception "Cannot operate on a closed database.")
              (mkState ∅ [EvEncodeQuery "pricing plans";
                          EvClientSearch 10 (Some (3 # 10));
                          EvFtsSelect "pricing OR plans" 5]))
    as [-> _]; [|done].
  eapply raises_keyword_search; [by vm_compute | vm_compute; lia | |];
    by vm_compute.
Defined.

(** An error of the database engine itself never reaches [hybrid_search]:
    [KeywordDatabase.search] answers it with no rows, and the semantic hits
    are returned. *)
Example sqlite_error_counts_as_no_rows :
  let locked :=
    mkWorld (sent_tokenize Fixtures.quiet_world)
            (word_tokenize Fixtures.quiet_world)
            (py_hash Fixtures.quiet_world) (encode_batch Fixtures.quiet_world)
            (encode_query Fixtures.quiet_world)
            (client_search Fixtures.sparse_world)
            (fun _ _ => Raise (SqliteError "database is locked"))
            (write_cache_file Fixtures.quiet_world)
            (ollama_generate Fixtures.quiet_world) in
  fst (VectorStore.hybrid_search locked "pricing plans" None Fixtures.empty_state)
  = Ok [QdrantManager.format_result (Fixtures.point "a" "alpha" (9 # 10))].
Proof. by vm_compute. Qed.

(** The same for the methods as this repository defines them. *)
Corollary hybrid_search_total (W : World) (query : string)
    (accessible_docs : option (list string)) (st : State) :
  exists results st',
    VectorStore.hybrid_search W query accessible_docs st = (Ok results, st')
    /\ length results <= 8.
Proof.
  unfold VectorStore.hybrid_search, VectorStore.hybrid_search_with, try_except.
  destruct (hybrid_search_try_cases (VectorStore.steps W) query
              accessible_docs st)
    as [(flt & st' & _ & ->)|(e & st' & _ & ->)].
  - exists (firstn 8 flt), st'. split; [done | apply firstn_le_length].
  - exists [], st'. split; [done | simpl; lia].
Qed.

(** *** The steps as this repository defines them *)

Section WithWorld.
Context (W : World).

Lemma qdrant_search_run (query : string) (limit : nat) (st : State) :
  QdrantManager.search W query limit st
  = (Ok (semantic_hits W query limit),
     after st (semantic_events W query limit)).
Proof.
  unfold QdrantManager.search, semantic_hits, semantic_events, after.
  run_monad. destruct (encode_query W query) as [emb|e]; simpl; [|done].
  destruct (client_search W emb limit (Some (3 # 10))) as [results|e]; simpl;
    rewrite <- app_assoc; [|done].
  by rewrite (fold_left_snoc QdrantManager.format_result).
Qed.

Lemma keyword_search_run (keywords : list string) (limit : nat) (st : State) :
  KeywordDatabase.search W keywords limit st
  = (keyword_rows W keywords limit,
     after st [EvFtsSelect (Py.join " OR " keywords) limit]).
Proof.
  unfold KeywordDatabase.search, keyword_rows, after. run_monad.
  destruct (fts_select W _ limit) as [rows|[]]; done.
Qed.

(** [QdrantManager.hybrid_search], which no caller uses, is the one place
    where both indexes are always asked (6 vector hits, 2 keyword rows) and
    their answers fused by rank. *)
Lemma qdrant_hybrid_search_run (query_embedding : embedding)
    (keywords : list string) (st : State) :
  QdrantManager.hybrid_search W query_embedding keywords
    (KeywordDatabase.search W) st
  = match client_search W query_embedding 6 None with
    | Ok vector_results =>
        (match keyword_rows W keywords 2 with
         | Ok keyword_results =>
             Ok (QdrantManager._fuse_results vector_results keyword_results)
         | Raise e => Raise e
         end,
         after st [EvClientSearch 6 None;
                   EvFtsSelect (Py.join " OR " keywords) 2])
    | Raise e => (Raise e, after st [EvClientSearch 6 None])
    end.
Proof.
  unfold QdrantManager.hybrid_search, QdrantManager.vector_search.
  change (Z.to_nat (Qceiling (inject_Z (Z.of_nat Config.SIMILARITY_TOP_K)
                              * Config.HYBRID_SEARCH_RATIO))) with 6.
  change (Nat.max 1 (Config.SIMILARITY_TOP_K - 6)) with 2.
  rewrite bind_run. unfold call, emit, lift. rewrite bind_run. cbv beta iota.
  destruct (client_search W query_embedding 6 None) as [vs|e]; [|done].
  rewrite bind_run, keyword_search_run. unfold after. cbn [trace embedding_cache].
  rewrite <- app_assoc. by destruct (keyword_rows W keywords 2).
Qed.

(** The semantic search never touches the keyword index. *)
Lemma semantic_events_no_fts (query : string) (limit : nat)
    (match_query : string) (limit' : nat) :
  ~ In (EvFtsSelect match_query limit') (semantic_events W query limit).
Proof.
  unfold semantic_events. destruct (encode_query W query); simpl; intuition congruence.
Qed.

(** C1, amended. [hybrid_search] always runs the semantic search (limit 10).
    With five hits or more it does not call the keyword index and returns
    the first 8 of the semantic hits, passed through the access filter when
    a permitted list is given. With fewer than five it calls the keyword
    index (limit 5) with the keywords of the query and returns the first 8
    of the filtered [_combine_results] of both answers, or the empty list
    when the keyword search raises. *)
Theorem hybrid_search_semantic_first :
  forall (query : string) (accessible_docs : option (list string)) (st : State),
    let sem := semantic_hits W query 10 in
    let st1 := after st (semantic_events W query 10) in
    let keywords := VectorStore._extract_keywords_from_query W query in
    let st2 := after st1 [EvFtsSelect (Py.join " OR " keywords) 5] in
    (5 <= length sem ->
       VectorStore.hybrid_search W query accessible_docs st
       = (Ok (firstn 8 (access accessible_docs sem)), st1)
       /\ forall match_query limit,
            In (EvFtsSelect match_query limit) (trace st1) ->
            In (EvFtsSelect match_query limit) (trace st))
    /\ (length sem < 5 ->
          VectorStore.hybrid_search W query accessible_docs st
          = (match keyword_rows W keywords 5 with
             | Ok rows =>
                 Ok (firstn 8 (access accessible_docs
                                 (VectorStore._combine_results W
                                    (map PyDict sem) (map PyTuple rows))))
             | Raise _ => Ok []
             end, st2)).
Proof.
  intros query docs st sem st1 keywords st2.
  unfold VectorStore.hybrid_search, VectorStore.hybrid_search_with,
    VectorStore.hybrid_search_try, try_except.
  rewrite bind_run.
  change (VectorStore.qdrant_search (VectorStore.steps W) query 10 st)
    with (QdrantManager.search W query 10 st).
  rewrite qdrant_search_run. fold sem st1. split.
  - intros Hlen. split.
    + apply Nat.ltb_ge in Hlen. rewrite bind_run, Hlen.
      by destruct docs.
    + intros match_query limit [Hin|Hin]%in_app_or; [done|].
      by apply semantic_events_no_fts in Hin.
  - intros Hlen. apply Nat.ltb_lt in Hlen. rewrite bind_run, Hlen.
    rewrite !bind_run.
    change (VectorStore.extract_keywords (VectorStore.steps W) query st1)
      with (Ok keywords, st1).
    cbv beta iota. rewrite bind_run.
    change (VectorStore.keyword_db_search (VectorStore.steps W) keywords 5 st1)
      with (KeywordDatabase.search W keywords 5 st1).
    rewrite keyword_search_run. fold st2.
    destruct (keyword_rows W keywords 5) as [rows|e]; [|done].
    by destruct docs.
Qed.

End WithWorld.

Lemma hybrid_search_semantic_first_witness :
  VectorStore.hybrid_search Fixtures.busy_world "pricing plans" None
    Fixtures.empty_state
  = (Ok (map QdrantManager.format_result Fixtures.five_points),
     mkState ∅ [EvEncodeQuery "pricing plans"; EvClientSearch 10 (Some (3 # 10))])
  /\ VectorStore.hybrid_search Fixtures.sparse_world "pricing plans" None
       Fixtures.empty_state
     = (Ok [QdrantManager.format_result (Fixtures.point "a" "alpha" (9 # 10))],
        mkState ∅ [EvEncodeQuery "pricing plans";
                   EvClientSearch 10 (Some (3 # 10));
                   EvFtsSelect "pricing OR plans" 5]).
Proof.
  split.
  - apply (hybrid_search_semantic_first Fixtures.busy_world "pricing plans" None
             Fixtures.empty_state).
    vm_compute. lia.
  - apply (hybrid_search_semantic_first Fixtures.sparse_world "pricing plans"
             None Fixtures.empty_state).
    vm_compute. lia.
Defined.

Example busy_world_run :
  VectorStore.hybrid_search Fixtures.busy_world "pricing plans" None
    Fixtures.empty_state
  = (Ok (map QdrantManager.format_result Fixtures.five_points),
     mkState ∅ [EvEncodeQuery "pricing plans"; EvClientSearch 10 (Some (3 # 10))]).
Proof. by vm_compute. Qed.

(** C1, as stated, fails: with five semantic hits the keyword index is
    never asked, and the result is the semantic list with its similarity
    scores, not a rank fusion. *)
Lemma hybrid_search_rrf_counterexample :
  ~ Claims.hybrid_search_fuses_by_rrf Fixtures.busy_world "pricing plans"
      Fixtures.empty_state.
Proof.
  unfold Claims.hybrid_search_fuses_by_rrf. rewrite busy_world_run.
  intros (emb & vs & ks & _ & _ & _ & _ & Hfts & _).
  simpl in Hfts. intuition discriminate.
Qed.

(** Nor is the result the fusion of the two answers, in either branch. *)
Example busy_world_result_is_not_the_fusion :
  fst (VectorStore.hybrid_search Fixtures.busy_world "pricing plans" None
         Fixtures.empty_state)
  <> Ok (QdrantManager._fuse_results Fixtures.five_points
           [mkRow "k" "kappa" "report.pdf" 2]).
Proof. rewrite busy_world_run. by vm_compute. Qed.

Example sparse_world_result_is_not_the_fusion :
  fst (VectorStore.hybrid_search Fixtures.sparse_world "pricing plans" None
         Fixtures.empty_state)
  <> Ok (QdrantManager._fuse_results [Fixtures.point "a" "alpha" (9 # 10)]
           [mkRow "k" "kappa" "report.pdf" 2]).
Proof. by vm_compute. Qed.

(** The rows of the keyword index are tuples, and [_combine_results] keeps
    dicts only: no keyword row ever reaches the combined list. *)
Lemma keyword_rows_do_not_surface (W : World) (semantic : list PyVal)
    (rows : list Row) :
  VectorStore._combine_results W semantic (map PyTuple rows)
  = VectorStore._combine_results W semantic [].
Proof.
  unfold VectorStore._combine_results. do 3 f_equal.
  induction rows as [|row rows IH]; [done | exact IH].
Qed.

End HybridSearch.

(** ** Chatbot *)

Module ChatbotFacts.
Import PyFacts Closed HybridSearch.



Section WithWorld.
Context (W : World).


End WithWorld.


End ChatbotFacts.

(** ** Embeddings and their cache *)

Module Embeddings.
Import PyFacts Closed HybridSearch.

Section WithWorld.
Context (W : World).

Local Abbreviation id_of chunk := (cm_chunk_id (ch_metadata chunk)).

Lemma save_embedding_run (chunk_id : string) (e : embedding) (st : State) :
  VectorStore._save_embedding W chunk_id e st = (Ok tt, saved W chunk_id e st).
Proof.
  unfold VectorStore._save_embedding, saved, after. run_monad.
  by destruct (write_cache_file W chunk_id e).
Qed.

Lemma store_new_run (to_embed_map : gmap string string)
    (emap : gmap string embedding) (text chunk_id : string) (e : embedding)
    (st : State) :
  to_embed_map !! text = Some chunk_id ->
  VectorStore.store_new W to_embed_map emap (text, e) st
  = (Ok (<[chunk_id := e]> emap), saved W chunk_id e st).
Proof.
  intros Hid. unfold VectorStore.store_new. rewrite Hid, bind_run.
  by rewrite save_embedding_run.
Qed.

(** Storing the new embeddings of one text touches one key only. *)
Lemma store_same_text (to_embed_map : gmap string string) (text chunk_id : string)
    (items : list (string * embedding)) (emap : gmap string embedding)
    (st : State) :
  to_embed_map !! text = Some chunk_id ->
  Forall (fun item => fst item = text) items ->
  exists emap' st',
    for_each items (VectorStore.store_new W to_embed_map) emap st
    = (Ok emap', st')
    /\ forall k, k <> chunk_id -> emap' !! k = emap !! k.
Proof.
  intros Hid Hitems. revert emap st.
  induction Hitems as [|[t e] items Ht _ IH]; intros emap st; cbn [for_each].
  - by exists emap, st.
  - simpl in Ht. subst t. rewrite bind_run, (store_new_run _ _ _ chunk_id) by done.
    destruct (IH (<[chunk_id := e]> emap) (saved W chunk_id e st))
      as (emap' & st' & -> & Hother).
    exists emap', st'. split; [done|]. intros k Hk.
    rewrite Hother by done. by rewrite lookup_insert_ne.
Qed.

Lemma lookup_chunk_miss (cache : gmap string embedding)
    (loc : VectorStore.Locals) (chunk : Chunk) :
  cache !! id_of chunk = None ->
  VectorStore.lookup_chunk cache loc chunk
  = VectorStore.mkLocals
      (VectorStore.embeddings_map loc)
      (VectorStore.texts_to_embed loc ++ [ch_text chunk])
      (<[ch_text chunk := id_of chunk]> (VectorStore.chunks_to_embed_map loc)).
Proof. intros H. unfold VectorStore.lookup_chunk. by rewrite H. Qed.

Lemma lookup_chunk_hit (cache : gmap string embedding)
    (loc : VectorStore.Locals) (chunk : Chunk) (e : embedding) :
  cache !! id_of chunk = Some e ->
  VectorStore.lookup_chunk cache loc chunk
  = VectorStore.mkLocals
      (<[id_of chunk := e]> (VectorStore.embeddings_map loc))
      (VectorStore.texts_to_embed loc)
      (VectorStore.chunks_to_embed_map loc).
Proof. intros H. unfold VectorStore.lookup_chunk. by rewrite H. Qed.

(** Two chunks with the same text and different identifiers, neither in
    the cache: [_generate_embeddings] raises, whatever the collaborators
    answer. *)
Lemma generate_embeddings_same_text_raises (c1 c2 : Chunk) (st : State) :
  ch_text c1 = ch_text c2 ->
  id_of c1 <> id_of c2 ->
  embedding_cache st !! id_of c1 = None ->
  embedding_cache st !! id_of c2 = None ->
  exists e st',
    VectorStore._generate_embeddings W [c1; c2] st = (Raise e, st')
    /\ (is_Some (match encode_batch W [ch_text c1; ch_text c2] with
                 | Ok es => Some es
                 | Raise _ => None
                 end) ->
        e = KeyError (id_of c1)).
Proof.
  intros Htext Hid Hc1 Hc2. unfold VectorStore._generate_embeddings.
  rewrite bind_run. unfold get_cache at 1. cbv beta iota.
  cbn [fold_left].
  rewrite (lookup_chunk_miss _ _ c1), (lookup_chunk_miss _ _ c2) by done.
  cbn [VectorStore.embeddings_map VectorStore.texts_to_embed
       VectorStore.chunks_to_embed_map app Py.nonempty].
  rewrite !bind_run. unfold call, emit, lift. rewrite bind_run. cbv beta iota.
  rewrite <- Htext.
  destruct (encode_batch W [ch_text c1; ch_text c1]) as [es|e] eqn:Henc.
  - edestruct (store_same_text
                 (<[ch_text c1 := id_of c2]> (<[ch_text c1 := id_of c1]> ∅))
                 (ch_text c1) (id_of c2)
                 (combine [ch_text c1; ch_text c1] es) ∅)
      as (emap' & st' & -> & Hother).
    + apply lookup_insert_eq.
    + destruct es as [|e1 [|e2 es]]; repeat constructor.
    + exists (KeyError (id_of c1)), st'. split; [|done].
      cbn [VectorStore.collect]. rewrite Hother by done.
      by rewrite lookup_empty.
  - exists e. eexists. split; [done|]. by intros [? ?].
Qed.

(** *** A run over chunks that are all in the cache *)

Lemma lookup_all_hits (cache : gmap string embedding) (chunks : list Chunk)
    (loc : VectorStore.Locals) :
  Forall (fun c => is_Some (cache !! id_of c)) chunks ->
  VectorStore.embeddings_map loc ⊆ cache ->
  let loc' := fold_left (VectorStore.lookup_chunk cache) chunks loc in
  VectorStore.texts_to_embed loc' = VectorStore.texts_to_embed loc
  /\ VectorStore.embeddings_map loc' ⊆ cache
  /\ VectorStore.embeddings_map loc ⊆ VectorStore.embeddings_map loc'
  /\ Forall (fun c => is_Some (VectorStore.embeddings_map loc' !! id_of c)) chunks.
Proof.
  intros Hall. revert loc.
  induction Hall as [|c chunks [e He] _ IH]; intros loc Hsub; cbn [fold_left].
  - done.
  - rewrite (lookup_chunk_hit _ _ _ e) by done.
    destruct (IH (VectorStore.mkLocals
                    (<[id_of c := e]> (VectorStore.embeddings_map loc))
                    (VectorStore.texts_to_embed loc)
                    (VectorStore.chunks_to_embed_map loc)))
      as (Htexts & Hsub' & Hmono & Hin).
    { by apply insert_subseteq_l. }
    cbn [VectorStore.embeddings_map VectorStore.texts_to_embed] in *.
    split; [done|]. split; [done|]. split.
    + etrans; [|exact Hmono]. destruct (VectorStore.embeddings_map loc !! id_of c) as [e'|] eqn:Hl.
      * rewrite insert_id; [done|].
        pose proof (lookup_weaken _ _ _ _ Hl Hsub). congruence.
      * by apply insert_subseteq.
    + constructor; [|done]. exists e.
      eapply lookup_weaken; [|exact Hmono]. apply lookup_insert_eq.
Qed.

Lemma collect_ok (emap : gmap string embedding) (chunks : list Chunk) :
  Forall (fun c => is_Some (emap !! id_of c)) chunks ->
  exists es, VectorStore.collect emap chunks = Ok es
             /\ Forall2 (fun c e => emap !! id_of c = Some e) chunks es.
Proof.
  induction 1 as [|c chunks [e He] _ (es & Hes & Hall)]; simpl.
  - by exists [].
  - rewrite He, Hes. exists (e :: es). split; [done | by constructor].
Qed.

(** When every chunk is in the cache, [_generate_embeddings] returns the
    cached vectors, calls no collaborator and leaves the state as it was. *)
Lemma generate_embeddings_all_cached (chunks : list Chunk) (st : State) :
  Forall (fun c => is_Some (embedding_cache st !! id_of c)) chunks ->
  exists es,
    VectorStore._generate_embeddings W chunks st = (Ok es, st)
    /\ Forall2 (fun c e => embedding_cache st !! id_of c = Some e) chunks es.
Proof.
  intros Hall. unfold VectorStore._generate_embeddings.
  rewrite bind_run. unfold get_cache at 1. cbv beta iota.
  destruct (lookup_all_hits (embedding_cache st) chunks
              (VectorStore.mkLocals ∅ [] ∅) Hall)
    as (Htexts & Hsub & _ & Hin); [apply map_empty_subseteq|].
  cbn [VectorStore.texts_to_embed] in Htexts.
  rewrite bind_run, Htexts. cbn [Py.nonempty]. unfold ret at 1.
  destruct (collect_ok _ _ Hin) as (es & Hes & Hes2).
  exists es. unfold lift. rewrite Hes. split; [done|].
  eapply Forall2_impl; [exact Hes2|]. intros c e Hc. cbv beta in *.
  exact (lookup_weaken _ _ _ _ Hc Hsub).
Qed.

(** *** A run over chunks whose texts tell them apart *)

Lemma loop1_closed (cache : gmap string embedding) (chunks : list Chunk)
    (loc : VectorStore.Locals) :
  VectorStore.embeddings_map loc ⊆ cache ->
  let loc' := fold_left (VectorStore.lookup_chunk cache) chunks loc in
  VectorStore.texts_to_embed loc'
  = VectorStore.texts_to_embed loc ++ map ch_text (uncached cache chunks)
  /\ VectorStore.chunks_to_embed_map loc'
     = text_index (uncached cache chunks) (VectorStore.chunks_to_embed_map loc)
  /\ VectorStore.embeddings_map loc' ⊆ cache
  /\ VectorStore.embeddings_map loc ⊆ VectorStore.embeddings_map loc'
  /\ Forall (fun c => is_Some (cache !! id_of c) ->
                      is_Some (VectorStore.embeddings_map loc' !! id_of c))
            chunks.
Proof.
  revert loc. induction chunks as [|c chunks IH]; intros loc Hsub;
    cbn [fold_left].
  - unfold uncached. simpl. by rewrite app_nil_r.
  - unfold uncached, text_index in *. cbn [List.filter].
    destruct (cache !! id_of c) as [e|] eqn:Hc.
    + rewrite (lookup_chunk_hit _ _ _ e) by done.
      destruct (IH (VectorStore.mkLocals
                      (<[id_of c := e]> (VectorStore.embeddings_map loc))
                      (VectorStore.texts_to_embed loc)
                      (VectorStore.chunks_to_embed_map loc)))
        as (Htexts & Htmap & Hsub' & Hmono & Hin).
      { by apply insert_subseteq_l. }
      cbn [VectorStore.embeddings_map VectorStore.texts_to_embed
           VectorStore.chunks_to_embed_map] in *.
      split; [done|]. split; [done|]. split; [done|]. split.
      * etrans; [|exact Hmono].
        destruct (VectorStore.embeddings_map loc !! id_of c) as [e'|] eqn:Hl.
        -- rewrite insert_id; [done|].
           pose proof (lookup_weaken _ _ _ _ Hl Hsub). congruence.
        -- by apply insert_subseteq.
      * constructor; [|done]. intros _. exists e.
        eapply lookup_weaken; [|exact Hmono]. apply lookup_insert_eq.
    + rewrite lookup_chunk_miss by done.
      destruct (IH (VectorStore.mkLocals
                      (VectorStore.embeddings_map loc)
                      (VectorStore.texts_to_embed loc ++ [ch_text c])
                      (<[ch_text c := id_of c]>
                         (VectorStore.chunks_to_embed_map loc))))
        as (Htexts & Htmap & Hsub' & Hmono & Hin); [done|].
      cbn [VectorStore.embeddings_map VectorStore.texts_to_embed
           VectorStore.chunks_to_embed_map] in *.
      split; [by rewrite Htexts, <- app_assoc|]. split; [done|].
      split; [done|]. split; [done|].
      constructor; [|done]. intros [? ?]. congruence.
Qed.

(** Where texts determine identifiers, the index sends the text of every
    chunk to its identifier. *)
Lemma text_index_lookup (new_chunks : list Chunk) (m : gmap string string)
    (c : Chunk) :
  (forall c1 c2, In c1 new_chunks -> In c2 new_chunks ->
                 ch_text c1 = ch_text c2 -> id_of c1 = id_of c2) ->
  In c new_chunks ->
  text_index new_chunks m !! ch_text c = Some (id_of c).
Proof.
  unfold text_index. revert c.
  induction new_chunks as [|a l IH] using rev_ind; intros c Hdet Hc; [done|].
  rewrite fold_left_app. cbn [fold_left].
  destruct (string_dec (ch_text a) (ch_text c)) as [Heq|Hne].
  - rewrite Heq, lookup_insert_eq. f_equal.
    apply Hdet; [apply in_or_app; right; by left | done | done].
  - rewrite lookup_insert_ne by done. apply IH.
    + intros c1 c2 H1 H2. apply Hdet; apply in_or_app; by left.
    + apply in_app_or in Hc as [Hc|[->|[]]]; done.
Qed.

(** Every identifier in the index is that of one of the chunks. *)
Lemma text_index_values (new_chunks : list Chunk) (text chunk_id : string) :
  text_index new_chunks ∅ !! text = Some chunk_id ->
  exists c, In c new_chunks /\ id_of c = chunk_id.
Proof.
  unfold text_index.
  induction new_chunks as [|a l IH] using rev_ind; [done|].
  rewrite fold_left_app. cbn [fold_left].
  destruct (string_dec (ch_text a) text) as [<-|Hne].
  - rewrite lookup_insert_eq. intros [= <-]. exists a.
    split; [apply in_or_app; right; by left | done].
  - rewrite lookup_insert_ne by done. intros (c & Hc & <-)%IH.
    exists c. split; [apply in_or_app; by left | done].
Qed.

(** The second loop, for items whose texts are all in the index. *)
Lemma loop2_run (tmap : gmap string string) (items : list (string * embedding))
    (emap : gmap string embedding) (st : State) :
  Forall (fun item => is_Some (tmap !! fst item)) items ->
  exists emap' st',
    for_each items (VectorStore.store_new W tmap) emap st = (Ok emap', st')
    /\ (forall k, is_Some (emap !! k) -> is_Some (emap' !! k))
    /\ Forall (fun item => forall chunk_id,
                  tmap !! fst item = Some chunk_id -> is_Some (emap' !! chunk_id))
              items
    /\ (forall k, (forall item, In item items -> tmap !! fst item <> Some k) ->
                  emap' !! k = emap !! k)
    /\ trace st'
       = trace st
         ++ map (fun item => EvWriteCacheFile
                               (default EmptyString (tmap !! fst item))) items.
Proof.
  intros Hitems. revert emap st.
  induction Hitems as [|[t e] items [chunk_id Hid] _ IH]; intros emap st;
    cbn [for_each].
  - exists emap, st. repeat split; try done. by rewrite app_nil_r.
  - simpl in Hid. rewrite bind_run, (store_new_run _ _ _ chunk_id) by done.
    destruct (IH (<[chunk_id := e]> emap) (saved W chunk_id e st))
      as (emap' & st' & -> & Hkeep & Hnew & Hother & Htrace).
    exists emap', st'. split; [done|]. split; [|split; [|split]].
    + intros k Hk. apply Hkeep.
      destruct (decide (chunk_id = k)) as [->|Hne];
        [by rewrite lookup_insert_eq | by rewrite lookup_insert_ne].
    + constructor; [|done]. simpl. intros chunk_id' Hid'.
      assert (chunk_id' = chunk_id) as -> by congruence.
      apply Hkeep. by rewrite lookup_insert_eq.
    + intros k Hk. rewrite Hother.
      * apply lookup_insert_ne. intros ->. apply (Hk (t, e)); [by left | done].
      * intros item Hitem. apply Hk. by right.
    + rewrite Htrace. cbn [map fst]. rewrite Hid. cbn [default].
      unfold saved, after.
      destruct (write_cache_file W chunk_id e); cbn [trace];
        by rewrite <- app_assoc.
Qed.

Lemma uncached_In (cache : gmap string embedding) (chunks : list Chunk)
    (c : Chunk) :
  In c (uncached cache chunks) <-> In c chunks /\ cache !! id_of c = None.
Proof.
  unfold uncached. rewrite filter_In.
  destruct (cache !! id_of c); intuition congruence.
Qed.

Lemma collect_cached (cache emap : gmap string embedding) (chunks : list Chunk) :
  Forall (fun c => is_Some (emap !! id_of c)) chunks ->
  (forall c e0, In c chunks -> cache !! id_of c = Some e0 ->
                emap !! id_of c = Some e0) ->
  exists es,
    VectorStore.collect emap chunks = Ok es
    /\ length es = length chunks
    /\ Forall2 (fun c e => forall e0, cache !! id_of c = Some e0 -> e = e0)
               chunks es.
Proof.
  intros Hall Hcached. destruct (collect_ok _ _ Hall) as (es & Hes & Hes2).
  exists es. split; [done|]. split; [symmetry; by eapply Forall2_length|].
  clear Hes Hall. induction Hes2 as [|c e cs es Hc _ IH]; constructor.
  - intros e0 He0. rewrite (Hcached c e0) in Hc; [congruence | by left | done].
  - apply IH. intros c' e0 Hc'. apply Hcached. by right.
Qed.

(** Where the texts of the chunks to embed determine their identifiers and
    the model answers with one vector per text, [_generate_embeddings]
    returns one embedding per chunk in input order, the cached vector for
    every chunk in the cache, and calls the model once, on the texts of the
    chunks that are not in the cache. *)
Lemma generate_embeddings_distinct_texts (chunks : list Chunk) (st : State)
    (embs : list embedding) :
  let cache := embedding_cache st in
  let new_chunks := uncached cache chunks in
  let texts := map ch_text new_chunks in
  (forall c1 c2, In c1 new_chunks -> In c2 new_chunks ->
                 ch_text c1 = ch_text c2 -> id_of c1 = id_of c2) ->
  encode_batch W texts = Ok embs ->
  length embs = length texts ->
  exists es st',
    VectorStore._generate_embeddings W chunks st = (Ok es, st')
    /\ length es = length chunks
    /\ Forall2 (fun c e => forall e0, cache !! id_of c = Some e0 -> e = e0)
               chunks es
    /\ trace st'
       = trace st
         ++ (if Py.nonempty texts
             then EvEncodeBatch texts
                  :: map (fun c => EvWriteCacheFile (id_of c)) new_chunks
             else []).
Proof.
  intros cache new_chunks texts Hdet Henc Hlen.
  unfold VectorStore._generate_embeddings.
  rewrite bind_run. unfold get_cache at 1. cbv beta iota. fold cache.
  destruct (loop1_closed cache chunks (VectorStore.mkLocals ∅ [] ∅))
    as (Htexts & Htmap & Hsub & _ & Hin); [apply map_empty_subseteq|].
  cbn [VectorStore.texts_to_embed VectorStore.chunks_to_embed_map app] in *.
  fold new_chunks in Htexts, Htmap. fold texts in Htexts.
  set (loc := fold_left (VectorStore.lookup_chunk cache) chunks
                        (VectorStore.mkLocals ∅ [] ∅)) in *.
  rewrite bind_run, Htexts, Htmap.
  destruct (Py.nonempty texts) eqn:Hne.
  - rewrite bind_run. unfold call, emit, lift. rewrite bind_run. cbv beta iota.
    rewrite Henc.
    destruct (loop2_run (text_index new_chunks ∅) (combine texts embs)
                (VectorStore.embeddings_map loc)
                (mkState (embedding_cache st)
                         (trace st ++ [EvEncodeBatch texts])))
      as (emap' & st' & -> & Hkeep & Hnew & Hother & Htrace).
    { apply Forall_forall. intros [t e] Hitem%list_elem_of_In. simpl.
      apply in_combine_l in Hitem. apply in_map_iff in Hitem as (c & <- & Hc).
      rewrite text_index_lookup by done. by eexists. }
    unfold lift.
    destruct (collect_cached cache emap' chunks) as (es & -> & Hlen' & Hes).
    + apply Forall_forall. intros c Hc%list_elem_of_In.
      destruct (cache !! id_of c) as [e0|] eqn:Hcache.
      * apply Hkeep. rewrite Forall_forall in Hin.
        apply Hin; [by apply list_elem_of_In | by eexists].
      * assert (In c new_chunks) as Hnewc by (by apply uncached_In).
        destruct (zip_covers texts embs (ch_text c) Hlen) as [e He].
        { apply in_map_iff. by exists c. }
        rewrite Forall_forall in Hnew.
        apply (Hnew (ch_text c, e)); [by apply list_elem_of_In|].
        by apply text_index_lookup.
    + intros c e0 Hc He0. rewrite Hother.
      * rewrite Forall_forall in Hin.
        destruct (Hin c) as [e He]; [by apply list_elem_of_In | by eexists |].
        rewrite He. f_equal. pose proof (lookup_weaken _ _ _ _ He Hsub).
        congruence.
      * intros [t e] _ Hk. simpl in Hk.
        apply text_index_values in Hk as (c' & Hc' & Hid).
        apply uncached_In in Hc' as [_ Hc']. rewrite Hid in Hc'. congruence.
    + exists es, st'. split; [done|]. split; [done|]. split; [done|].
      rewrite Htrace. cbn [trace]. rewrite <- app_assoc. f_equal. simpl. f_equal.
      rewrite <- (map_map fst (fun t => EvWriteCacheFile
                     (default EmptyString (text_index new_chunks ∅ !! t)))).
      rewrite zip_firsts by done. unfold texts. rewrite map_map.
      apply map_ext_in. intros c Hc. by rewrite text_index_lookup.
  - unfold ret at 1.
    unfold lift.
    destruct (collect_cached cache (VectorStore.embeddings_map loc) chunks)
      as (es & -> & Hlen' & Hes).
    + apply Forall_forall. intros c Hc%list_elem_of_In.
      rewrite Forall_forall in Hin. apply Hin; [by apply list_elem_of_In|].
      destruct (cache !! id_of c) as [e0|] eqn:Hcache; [by eexists|].
      assert (In c new_chunks) as Hnewc by (by apply uncached_In).
      unfold texts in Hne. by destruct new_chunks.
    + intros c e0 Hc He0. rewrite Forall_forall in Hin.
      destruct (Hin c) as [e He]; [by apply list_elem_of_In | by eexists |].
      rewrite He. f_equal. pose proof (lookup_weaken _ _ _ _ He Hsub).
      congruence.
    + exists es, st. split; [done|]. split; [done|]. split; [done|].
      by rewrite app_nil_r.
Qed.

End WithWorld.

Example generate_embeddings_two_new_chunks :
  let chunks :=
    PDFProcessor.chunk_text Fixtures.period_world [Fixtures.seven_sentences] in
  exists es st',
    VectorStore._generate_embeddings Fixtures.period_world chunks
      Fixtures.empty_state = (Ok es, st')
    /\ length es = 2
    /\ trace st'
       = [EvEncodeBatch (map ch_text chunks);
          EvWriteCacheFile "62ae8d4dc68a37a9276f674c9f5631f7";
          EvWriteCacheFile "27b0e8d3b96171ca10d48d6e33f89c7c"].
Proof.
  intros chunks.
  destruct (generate_embeddings_distinct_texts Fixtures.period_world chunks
              Fixtures.empty_state [[171%Q]; [33%Q]])
    as (es & st' & Hrun & Hlen & _ & Htrace).
  - intros c1 c2 [<-|[<-|[]]] [<-|[<-|[]]]; by vm_compute.
  - by vm_compute.
  - by vm_compute.
  - exists es, st'. split; [done|]. split; [done|]. exact Htrace.
Qed.

(** C5 fails on the code: two pages with the same text give two chunks with
    the same text and different identifiers; with an empty cache the model
    is called on both texts, both embeddings are filed under the second
    identifier, and the lookup of the first one raises [KeyError], so no
    list of embeddings is returned. *)
Theorem generate_embeddings_same_text_key_error :
  let chunks :=
    PDFProcessor.chunk_text Fixtures.period_world Fixtures.same_text_pages in
  map ch_text chunks
  = ["This page of the report is intentionally left blank by the authors.";
     "This page of the report is intentionally left blank by the authors."]
  /\ map (fun c => cm_chunk_id (ch_metadata c)) chunks
     = ["dd5cff75e073275f7163a677ea4deab3"; "5a274ae317e628659dc614dab58ab586"]
  /\ fst (VectorStore._generate_embeddings Fixtures.period_world chunks
            Fixtures.empty_state)
     = Raise (KeyError "dd5cff75e073275f7163a677ea4deab3")
  /\ trace (snd (VectorStore._generate_embeddings Fixtures.period_world chunks
                   Fixtures.empty_state))
     = [EvEncodeBatch ["This page of the report is intentionally left blank by the authors.";
                       "This page of the report is intentionally left blank by the authors."];
        EvWriteCacheFile "5a274ae317e628659dc614dab58ab586";
        EvWriteCacheFile "5a274ae317e628659dc614dab58ab586"].
Proof. by vm_compute. Qed.

End Embeddings.

(** ** Chunk identifiers *)

Module ChunkIds.
Import PyFacts Closed Chunking.

Local Abbreviation id_of chunk := (cm_chunk_id (ch_metadata chunk)).

(** The identifier of the chunk at offset [i] of a page, as the
    specification gives it: the MD5 hex digest of ["{pdf_name}_{page}_{i}"]. *)
Local Abbreviation md5_id page i :=
  (MD5.hexdigest (pg_pdf_name page +:+ "_" +:+ Py.str_of_int (pg_page page)
                              +:+ "_" +:+ Py.str_of_int (Z.of_nat i))).

Lemma page_chunk_ids (W : World) (page : Page) :
  map (fun c => id_of c) (page_chunks W page)
  = map (fun i => md5_id page i) (page_offsets W page).
Proof.
  unfold page_chunks, page_offsets. destruct (page_items W page) as [items size].
  by rewrite map_map.
Qed.

Lemma chunk_text_ids (W : World) (pages : list Page) :
  map (fun c => id_of c) (PDFProcessor.chunk_text W pages)
  = flat_map (fun page => map (fun i => md5_id page i) (page_offsets W page))
             pages.
Proof.
  rewrite chunk_text_eq. induction pages as [|page pages IH]; simpl; [done|].
  by rewrite map_app, IH, page_chunk_ids.
Qed.

(** [chunk_text] reads nothing of the world but the sentence tokenizer. *)
Lemma chunk_text_same_tokenizer (W W' : World) (pages : list Page) :
  sent_tokenize W' = sent_tokenize W ->
  PDFProcessor.chunk_text W' pages = PDFProcessor.chunk_text W pages.
Proof.
  intros Htok. rewrite !chunk_text_eq. f_equal.
  unfold page_chunks, page_items, PDFProcessor.valid_sentences.
  by rewrite Htok.
Qed.

(** C4. The identifier of every chunk [chunk_text] produces is the MD5 hex
    digest of ["{pdf_name}_{page}_{offset}"]: it is a function of the
    document name, the page and the chunk offset, and the text enters only
    through the offsets. Two runs over the same pages give the same chunks,
    and once the identifiers of a run are in the embedding cache, embedding
    the chunks of a later run returns the cached vectors and changes
    nothing. *)
Theorem chunk_ids_are_md5_of_name_page_offset :
  forall (W : World) (pages : list Page),
    map (fun c => id_of c) (PDFProcessor.chunk_text W pages)
    = flat_map (fun page => map (fun i => md5_id page i) (page_offsets W page))
               pages
    /\ (forall page page',
          pg_pdf_name page = pg_pdf_name page' ->
          pg_page page = pg_page page' ->
          page_offsets W page = page_offsets W page' ->
          map (fun c => id_of c) (PDFProcessor.chunk_text W [page])
          = map (fun c => id_of c) (PDFProcessor.chunk_text W [page']))
    /\ (forall W',
          sent_tokenize W' = sent_tokenize W ->
          PDFProcessor.chunk_text W' pages = PDFProcessor.chunk_text W pages)
    /\ (forall W' st,
          sent_tokenize W' = sent_tokenize W ->
          (forall c, In c (PDFProcessor.chunk_text W pages) ->
                     is_Some (embedding_cache st !! id_of c)) ->
          exists es,
            VectorStore._generate_embeddings W'
              (PDFProcessor.chunk_text W' pages) st = (Ok es, st)
            /\ Forall2 (fun c e => embedding_cache st !! id_of c = Some e)
                       (PDFProcessor.chunk_text W pages) es).
Proof.
  intros W pages. split; [apply chunk_text_ids|]. split; [|split].
  - intros page page' Hname Hpage Hoffsets.
    rewrite !chunk_text_ids. simpl. by rewrite Hname, Hpage, Hoffsets.
  - intros W'. apply chunk_text_same_tokenizer.
  - intros W' st Htok Hcached.
    rewrite (chunk_text_same_tokenizer W W') by done.
    apply Embeddings.generate_embeddings_all_cached.
    apply Forall_forall. intros c Hc. by apply Hcached, list_elem_of_In.
Qed.

Lemma chunk_ids_are_md5_of_name_page_offset_witness :
  let pages := [Fixtures.seven_sentences] in
  let first_run :=
    VectorStore._generate_embeddings Fixtures.period_world
      (PDFProcessor.chunk_text Fixtures.period_world pages)
      Fixtures.empty_state in
  map (fun c => id_of c) (PDFProcessor.chunk_text Fixtures.period_world pages)
  = [MD5.hexdigest "report.pdf_3_0"; MD5.hexdigest "report.pdf_3_5"]
  /\ exists es,
      VectorStore._generate_embeddings Fixtures.period_world
        (PDFProcessor.chunk_text Fixtures.period_world pages) (snd first_run)
      = (Ok es, snd first_run).
Proof.
  intros pages first_run.
  destruct (chunk_ids_are_md5_of_name_page_offset Fixtures.period_world pages)
    as (Hids & _ & _ & Hcache).
  split; [exact Hids|].
  destruct (Hcache Fixtures.period_world (snd first_run) eq_refl)
    as (es & Hes & _).
  - intros c [<-|[<-|[]]]; vm_compute; eauto.
  - by exists es.
Defined.

End ChunkIds.

(** ** Further properties of the retrieval path *)

Module Retrieval.
Import PyFacts Closed Views HybridSearch.

Section WithWorld.
Context (W : World).

(** [hybrid_search] in closed form: it always returns, and what it returns
    does not depend on the state. *)
Lemma hybrid_search_hits (query : string)
    (accessible_docs : option (list string)) (st : State) :
  exists st',
    VectorStore.hybrid_search W query accessible_docs st
    = (Ok (hybrid_hits W query accessible_docs), st')
    /\ embedding_cache st' = embedding_cache st.
Proof.
  unfold VectorStore.hybrid_search, VectorStore.hybrid_search_with,
    VectorStore.hybrid_search_try, try_except, hybrid_hits.
  rewrite bind_run.
  change (VectorStore.qdrant_search (VectorStore.steps W) query 10 st)
    with (QdrantManager.search W query 10 st).
  rewrite qdrant_search_run, bind_run.
  destruct (length (semantic_hits W query 10) <? 5).
  - rewrite !bind_run.
    change (VectorStore.extract_keywords (VectorStore.steps W) query
              (after st (semantic_events W query 10)))
      with (Ok (VectorStore._extract_keywords_from_query W query),
            after st (semantic_events W query 10)).
    cbv beta iota. rewrite bind_run.
    change (VectorStore.keyword_db_search (VectorStore.steps W)
              (VectorStore._extract_keywords_from_query W query) 5
              (after st (semantic_events W query 10)))
      with (KeywordDatabase.search W
              (VectorStore._extract_keywords_from_query W query) 5
              (after st (semantic_events W query 10))).
    rewrite keyword_search_run.
    destruct (keyword_rows W _ 5) as [rows|e]; [|by eexists].
    destruct accessible_docs; by eexists.
  - destruct accessible_docs; by eexists.
Qed.

Lemma semantic_hit_keeps_its_score (d : Q) (query : string) (limit : nat)
    (r : SearchResult) :
  In r (semantic_hits W query limit) ->
  VectorStore.with_default_score d r = r.
Proof.
  unfold semantic_hits.
  destruct (encode_query W query) as [emb|]; [|done].
  destruct (client_search W emb limit (Some (3 # 10))) as [ps|]; [|done].
  intros (p & <- & _)%in_map_iff. reflexivity.
Qed.

Lemma scored_semantic_hits (d : Q) (query : string) (limit : nat) :
  scored d (map PyDict (semantic_hits W query limit))
  = semantic_hits W query limit.
Proof.
  pose proof (semantic_hit_keeps_its_score d query limit) as Hkeep.
  induction (semantic_hits W query limit) as [|r l IH]; [done|].
  simpl. rewrite Hkeep by (by left). f_equal. apply IH.
  intros r' Hr'. apply Hkeep. by right.
Qed.

Lemma scored_rows (d : Q) (rows : list Row) : scored d (map PyTuple rows) = [].
Proof. induction rows as [|row rows IH]; [done | exact IH]. Qed.

Lemma access_In (accessible_docs : option (list string))
    (results : list SearchResult) (r : SearchResult) :
  In r (access accessible_docs results) -> In r results.
Proof.
  destruct accessible_docs as [docs|]; [|done]. simpl.
  destruct docs as [|d docs]; [done|].
  rewrite AccessFilter.vector_store_filter_eq by done.
  by intros [? _]%filter_In.
Qed.

Lemma firstn_In {A : Type} (n : nat) (l : list A) (x : A) :
  In x (firstn n l) -> In x l.
Proof.
  intros Hx. rewrite <- (firstn_skipn n l). apply in_or_app. by left.
Qed.

Lemma hybrid_hits_semantic (query : string)
    (accessible_docs : option (list string)) (r : SearchResult) :
  In r (hybrid_hits W query accessible_docs) ->
  In r (semantic_hits W query 10).
Proof.
  unfold hybrid_hits.
  destruct (length (semantic_hits W query 10) <? 5).
  - destruct (keyword_rows W _ 5) as [rows|e]; [|done].
    intros Hr%firstn_In%access_In. revert Hr.
    rewrite Combine.combine_results_eq, Sorting.sorted_desc_In.
    intros Hr. apply list_elem_of_In in Hr.
    eapply elem_of_sublist in Hr; [|apply Combine.dedup_from_sublist].
    apply list_elem_of_In in Hr. revert Hr. unfold combined_list.
    by rewrite scored_semantic_hits, scored_rows, app_nil_r.
  - by intros Hr%firstn_In%access_In.
Qed.

Lemma hybrid_hits_permitted (query : string) (docs : list string)
    (r : SearchResult) :
  docs <> [] ->
  In r (hybrid_hits W query (Some docs)) ->
  VectorStore.permitted docs (VectorStore.doc_name_of r) = true.
Proof.
  intros Hne. unfold hybrid_hits, access. cbv beta iota.
  destruct (length (semantic_hits W query 10) <? 5).
  - destruct (keyword_rows W _ 5) as [rows|e]; [|done].
    rewrite AccessFilter.vector_store_filter_eq by done.
    by intros [_ Hr]%firstn_In%filter_In.
  - rewrite AccessFilter.vector_store_filter_eq by done.
    by intros [_ Hr]%firstn_In%filter_In.
Qed.

(** X1. Given a non-empty permitted list, [hybrid_search] returns, and
    every result it returns names a document of the list: neither the
    combination with keyword hits nor the cut to 8 lets another through. *)
Theorem hybrid_search_only_permitted_documents :
  forall (query : string) (docs : list string) (st : State),
    docs <> [] ->
    exists results st',
      VectorStore.hybrid_search W query (Some docs) st = (Ok results, st')
      /\ forall r, In r results ->
           exists name, VectorStore.doc_name_of r = Some name
                        /\ name <> EmptyString /\ In name docs.
Proof.
  intros query docs st Hne.
  destruct (hybrid_search_hits query (Some docs) st) as (st' & Hrun & _).
  exists (hybrid_hits W query (Some docs)), st'. split; [done|].
  intros r Hr. apply AccessFilter.permitted_iff.
  by apply (hybrid_hits_permitted query).
Qed.

(** X2. Every result of [hybrid_search] is a hit of the vector index for
    the embedded query (limit 10, score threshold 0.3), with that hit's
    identifier, payload and score: rows of the keyword index never reach the
    caller, and the embedding cache is left as it was. *)
Theorem hybrid_search_results_are_vector_hits :
  forall (query : string) (accessible_docs : option (list string)) (st : State),
    exists results st',
      VectorStore.hybrid_search W query accessible_docs st = (Ok results, st')
      /\ embedding_cache st' = embedding_cache st
      /\ forall r, In r results ->
           exists query_embedding points point,
             encode_query W query = Ok query_embedding
             /\ client_search W query_embedding 10 (Some (3 # 10)) = Ok points
             /\ In point points
             /\ r = mkSearchResult (Some (sp_id point)) (Some (sp_payload point))
                                   (Some (sp_score point)) None None.
Proof.
  intros query docs st.
  destruct (hybrid_search_hits query docs st) as (st' & Hrun & Hcache).
  exists (hybrid_hits W query docs), st'. split; [done|]. split; [done|].
  intros r Hr%hybrid_hits_semantic. revert Hr. unfold semantic_hits.
  destruct (encode_query W query) as [emb|]; [|done].
  destruct (client_search W emb 10 (Some (3 # 10))) as [ps|] eqn:Hps; [|done].
  intros (p & <- & Hp)%in_map_iff. by exists emb, ps, p.
Qed.

Lemma sorted_sublist {A : Type} (R : A -> A -> Prop) (l1 l2 : list A) :
  sublist l1 l2 -> StronglySorted R l2 -> StronglySorted R l1.
Proof.
  induction 1 as [|x l1 l2 Hsub IH|x l1 l2 Hsub IH]; intros Hsorted;
    [done| |].
  - apply StronglySorted_inv in Hsorted as [Hsorted Hall].
    constructor; [by apply IH|].
    apply Forall_forall. intros y Hy. rewrite Forall_forall in Hall.
    apply Hall. by eapply elem_of_sublist.
  - apply StronglySorted_inv in Hsorted as [Hsorted _]. by apply IH.
Qed.

Lemma access_sublist (accessible_docs : option (list string))
    (results : list SearchResult) :
  sublist (access accessible_docs results) results.
Proof.
  destruct accessible_docs as [docs|]; [|done]. simpl.
  destruct docs as [|d docs]; [done|].
  rewrite AccessFilter.vector_store_filter_eq by done. apply filter_sublist.
Qed.

(** X28. When the vector index returns its hits ranked by non-increasing
    score, so are the results of [hybrid_search]: the access filter and the
    cut to 8 keep the order, and [_combine_results] sorts by score. *)
Theorem hybrid_search_results_are_ranked :
  forall (query : string) (accessible_docs : option (list string)) (st : State),
    (forall query_embedding points,
       client_search W query_embedding 10 (Some (3 # 10)) = Ok points ->
       StronglySorted (desc sp_score) points) ->
    exists results st',
      VectorStore.hybrid_search W query accessible_docs st = (Ok results, st')
      /\ StronglySorted (desc VectorStore.score_key) results.
Proof.
  intros query docs st Hranked.
  destruct (hybrid_search_hits query docs st) as (st' & Hrun & _).
  exists (hybrid_hits W query docs), st'. split; [done|].
  unfold hybrid_hits.
  destruct (length (semantic_hits W query 10) <? 5).
  - destruct (keyword_rows W _ 5) as [rows|e]; [|constructor].
    eapply sorted_sublist; [apply sublist_take|].
    eapply sorted_sublist; [apply access_sublist|].
    apply Sorting.sorted_desc_sorted.
  - eapply sorted_sublist; [apply sublist_take|].
    eapply sorted_sublist; [apply access_sublist|].
    unfold semantic_hits.
    destruct (encode_query W query) as [emb|]; [|constructor].
    destruct (client_search W emb 10 (Some (3 # 10))) as [ps|] eqn:Hps;
      [|constructor].
    specialize (Hranked emb ps Hps). clear Hps.
    induction Hranked as [|p ps _ IH Hall]; [constructor|].
    simpl. constructor; [exact IH|].
    apply Forall_forall. intros r (p' & <- & Hp')%list_elem_of_In%in_map_iff.
    rewrite Forall_forall in Hall. by apply Hall, list_elem_of_In.
Qed.

End WithWorld.

Lemma hybrid_search_results_are_ranked_witness :
  exists results st',
    VectorStore.hybrid_search Samples.two_document_world "opening hours"
      (Some ["public.pdf"]) Fixtures.empty_state = (Ok results, st')
    /\ StronglySorted (desc VectorStore.score_key) results.
Proof.
  apply (hybrid_search_results_are_ranked Samples.two_document_world
           "opening hours" (Some ["public.pdf"]) Fixtures.empty_state).
  intros query_embedding points [= <-].
  repeat constructor; by vm_compute.
Defined.

Lemma hybrid_search_only_permitted_documents_witness :
  ["public.pdf"] <> []
  /\ exists results st',
       VectorStore.hybrid_search Samples.two_document_world "opening hours"
         (Some ["public.pdf"]) Fixtures.empty_state = (Ok results, st')
       /\ forall r, In r results ->
            exists name, VectorStore.doc_name_of r = Some name
                         /\ name <> EmptyString /\ In name ["public.pdf"].
Proof.
  split; [done|].
  apply (hybrid_search_only_permitted_documents
           Samples.two_document_world "opening hours" ["public.pdf"]
           Fixtures.empty_state).
  done.
Defined.

Lemma hybrid_search_results_are_vector_hits_witness :
  exists results st',
    VectorStore.hybrid_search Fixtures.sparse_world "alpha" None
      Fixtures.empty_state = (Ok results, st')
    /\ embedding_cache st' = embedding_cache Fixtures.empty_state
    /\ forall r, In r results ->
         exists query_embedding points point,
           encode_query Fixtures.sparse_world "alpha" = Ok query_embedding
           /\ client_search Fixtures.sparse_world query_embedding 10
                (Some (3 # 10)) = Ok points
           /\ In point points
           /\ r = mkSearchResult (Some (sp_id point)) (Some (sp_payload point))
                                 (Some (sp_score point)) None None.
Proof.
  exact (hybrid_search_results_are_vector_hits Fixtures.sparse_world "alpha"
           None Fixtures.empty_state).
Defined.

End Retrieval.

(** ** Further properties of the chatbot *)

Module Dialogue.
Import PyFacts Closed Views HybridSearch.

Lemma chunk_texts_raises (chunks : list Payload) (e : exn) :
  Chatbot.chunk_texts chunks = Raise e -> e = KeyError "text".
Proof.
  induction chunks as [|c chunks IH]; simpl; [done|].
  destruct (pl_text c); [|congruence].
  destruct (Chatbot.chunk_texts chunks); [done|].
  intros [= <-]. by apply IH.
Qed.

Lemma chunk_texts_ok (chunks : list Payload) :
  Forall (fun c => is_Some (pl_text c)) chunks ->
  exists texts, Chatbot.chunk_texts chunks = Ok texts
                /\ map Some texts = map pl_text chunks.
Proof.
  induction 1 as [|c chunks [t Ht] _ (texts & IH & Hmap)]; simpl.
  - by exists [].
  - rewrite Ht, IH. exists (t :: texts). by rewrite <- Hmap.
Qed.

Section WithWorld.
Context (W : World).

Lemma get_context_for_rag_run (query : string) (st : State) :
  VectorStore.get_context_for_rag W query st
  = (Ok (rag_chunks W query), after st (rag_events W query)).
Proof.
  unfold VectorStore.get_context_for_rag, rag_chunks, rag_events.
  destruct (negb (Py.truthy query) || negb (Py.truthy (Py.strip query))).
  - unfold ret, after. destruct st. simpl. by rewrite app_nil_r.
  - unfold try_except, QdrantManager.vector_search, call, emit, lift.
    rewrite !bind_run. cbv beta iota.
    destruct (encode_query W query) as [emb|e]; [|done].
    rewrite !bind_run. cbv beta iota.
    destruct (client_search W emb Config.CONTEXT_CHUNKS_FOR_RAG None)
      as [ps|e]; unfold ret, after; simpl; by rewrite <- app_assoc.
Qed.

Lemma retrieve_run (query : string) (accessible_docs : option (list string))
    (st : State) :
  Chatbot.retrieve W query accessible_docs st
  = (Ok (retrieved W query accessible_docs), after st (rag_events W query)).
Proof.
  unfold Chatbot.retrieve, retrieved.
  rewrite bind_run, get_context_for_rag_run. cbv beta iota zeta.
  destruct (negb (Py.nonempty (rag_chunks W query))); [done|].
  destruct accessible_docs as [docs|]; [|done].
  by destruct (negb (Py.nonempty _)).
Qed.

Lemma after_nil (st : State) : after st [] = st.
Proof. destruct st. unfold after. simpl. by rewrite app_nil_r. Qed.

Lemma after_after (st : State) (l1 l2 : list event) :
  after (after st l1) l2 = after st (l1 ++ l2).
Proof. unfold after. simpl. by rewrite app_assoc. Qed.

Lemma generate_response_run (query : string)
    (accessible_docs : option (list string)) (st : State) :
  Chatbot.generate_response W query accessible_docs st
  = (response_of W query accessible_docs,
     after st (response_events W query accessible_docs)).
Proof.
  unfold Chatbot.generate_response, response_of, response_events.
  destruct (negb (Py.truthy query)); [by rewrite after_nil|].
  rewrite bind_run, retrieve_run.
  destruct (retrieved W query accessible_docs) as [message|chunks].
  { by rewrite app_nil_r. }
  rewrite bind_run. unfold lift at 1.
  destruct (Chatbot.chunk_texts chunks) as [texts|e]; [|by rewrite app_nil_r].
  cbv beta iota zeta. fold (prompt_of query texts).
  unfold try_except, Chatbot.ask_model. rewrite !bind_run.
  unfold call, emit, lift. rewrite bind_run. cbv beta iota.
  rewrite <- after_after.
  by destruct (ollama_generate W Config.OLLAMA_MODEL (prompt_of query texts)).
Qed.

Lemma retrieved_permitted (query : string) (docs : list string)
    (chunks : list Payload) (c : Payload) :
  docs <> [] ->
  retrieved W query (Some docs) = inr chunks ->
  In c chunks ->
  VectorStore.permitted docs (Chatbot.doc_name_of c) = true.
Proof.
  intros Hne. unfold retrieved. cbv zeta.
  destruct (negb (Py.nonempty (rag_chunks W query))); [done|].
  rewrite AccessFilter.chatbot_filter_eq by done.
  destruct (negb (Py.nonempty _)); [done|].
  intros [= <-]. by intros [_ Hc]%filter_In.
Qed.

Lemma rag_events_no_model_call (query prompt : string) :
  ~ In (EvOllamaGenerate prompt) (rag_events W query).
Proof.
  unfold rag_events.
  destruct (negb (Py.truthy query) || negb (Py.truthy (Py.strip query)));
    [by intros []|].
  destruct (encode_query W query); simpl; intuition congruence.
Qed.

(** X3. Given a non-empty permitted list, every source chunk
    [generate_response] returns names a document of the list, and every
    prompt it sends to the language model is built from the texts of such
    chunks only; the one exception it can raise is [KeyError('text')]. *)
Theorem generate_response_only_permitted_documents :
  forall (query : string) (docs : list string) (st : State),
    docs <> [] ->
    let run := Chatbot.generate_response W query (Some docs) st in
    match fst run with
    | Ok (answer, sources) =>
        forall c, In c sources ->
          exists name, Chatbot.doc_name_of c = Some name
                       /\ name <> EmptyString /\ In name docs
    | Raise e => e = KeyError "text"
    end
    /\ forall prompt,
         In (EvOllamaGenerate prompt) (trace (snd run)) ->
         In (EvOllamaGenerate prompt) (trace st)
         \/ exists chunks texts,
              (forall c, In c chunks ->
                 exists name, Chatbot.doc_name_of c = Some name
                              /\ name <> EmptyString /\ In name docs)
              /\ Chatbot.chunk_texts chunks = Ok texts
              /\ prompt = Config.RAG_PROMPT_TEMPLATE_format
                            (Py.join Chatbot.context_separator texts) query.
Proof.
  intros query docs st Hne run. subst run.
  rewrite generate_response_run. cbn [fst snd].
  unfold response_of, response_events.
  destruct (negb (Py.truthy query)).
  { split; [by intros c []|]. intros prompt. rewrite after_nil. by left. }
  pose proof (retrieved_permitted query docs) as Hperm.
  destruct (retrieved W query (Some docs)) as [message|chunks].
  { split; [by intros c []|]. intros prompt. rewrite app_nil_r.
    unfold after. cbn [trace]. intros [?|?%rag_events_no_model_call]%in_app_or;
      [by left | done]. }
  assert (forall c, In c chunks ->
            exists name, Chatbot.doc_name_of c = Some name
                         /\ name <> EmptyString /\ In name docs) as Hchunks.
  { intros c Hc. apply AccessFilter.permitted_iff. by apply (Hperm chunks). }
  destruct (Chatbot.chunk_texts chunks) as [texts|e] eqn:Htexts.
  - split.
    + by destruct (ollama_generate W Config.OLLAMA_MODEL (prompt_of query texts)).
    + intros prompt. unfold after. cbn [trace].
      intros [?|[?%rag_events_no_model_call|[[= <-]|[]]]%in_app_or]%in_app_or;
        [by left | done |].
      right. by exists chunks, texts.
  - split; [by apply chunk_texts_raises in Htexts|].
    intros prompt. rewrite app_nil_r. unfold after. cbn [trace].
    intros [?|?%rag_events_no_model_call]%in_app_or; [by left | done].
Qed.

(** X4. A query that is empty or all white space is answered with a fixed
    message and no sources, without a call to the embedding model, the
    vector index or the language model. *)
Theorem generate_response_blank_query :
  forall (query : string) (accessible_docs : option (list string)) (st : State),
    Py.strip query = EmptyString ->
    exists message,
      Chatbot.generate_response W query accessible_docs st
      = (Ok (message, []), st)
      /\ (message = "Please ask a question."
          \/ message = "I could not find any relevant information in your documents to answer this question.").
Proof.
  intros query docs st Hblank. rewrite generate_response_run.
  unfold response_of, response_events, retrieved, rag_events, rag_chunks.
  rewrite Hblank. change (Py.truthy EmptyString) with false.
  cbn [negb]. rewrite orb_true_r. cbv beta iota zeta.
  cbn [Py.nonempty negb app].
  destruct (negb (Py.truthy query)); eexists; rewrite after_nil;
    (split; [done|]); [by left | by right].
Qed.

(** X5. When every chunk the vector index returns carries a text,
    [generate_response] never raises, whatever the embedding model, the
    index or the language model do; and the sources it returns are among the
    chunks the index returned for the query. *)
Theorem generate_response_total_on_chunks_with_text :
  forall (query : string) (accessible_docs : option (list string)) (st : State),
    (forall query_embedding points point,
       client_search W query_embedding Config.CONTEXT_CHUNKS_FOR_RAG None
       = Ok points ->
       In point points -> is_Some (pl_text (sp_payload point))) ->
    exists answer sources st',
      Chatbot.generate_response W query accessible_docs st
      = (Ok (answer, sources), st')
      /\ forall c, In c sources ->
           exists query_embedding points point,
             encode_query W query = Ok query_embedding
             /\ client_search W query_embedding Config.CONTEXT_CHUNKS_FOR_RAG
                  None = Ok points
             /\ In point points /\ c = sp_payload point.
Proof.
  intros query docs st Htext. rewrite generate_response_run.
  unfold response_of.
  destruct (negb (Py.truthy query)); [by eexists _, [], _|].
  assert (forall c, In c (rag_chunks W query) ->
            is_Some (pl_text c)
            /\ exists query_embedding points point,
                 encode_query W query = Ok query_embedding
                 /\ client_search W query_embedding
                      Config.CONTEXT_CHUNKS_FOR_RAG None = Ok points
                 /\ In point points /\ c = sp_payload point) as Hrag.
  { unfold rag_chunks.
    destruct (negb (Py.truthy query) || negb (Py.truthy (Py.strip query)));
      [done|].
    destruct (encode_query W query) as [emb|]; [|done].
    destruct (client_search W emb Config.CONTEXT_CHUNKS_FOR_RAG None)
      as [ps|] eqn:Hps; [|done].
    intros c (p & <- & Hp)%in_map_iff. split; [by eapply Htext|].
    by exists emb, ps, p. }
  assert (forall chunks, retrieved W query docs = inr chunks ->
            forall c, In c chunks -> In c (rag_chunks W query)) as Hsub.
  { unfold retrieved. cbv zeta.
    destruct (negb (Py.nonempty (rag_chunks W query))); [done|].
    destruct docs as [docs|]; [|by intros chunks [= <-]].
    destruct (negb (Py.nonempty _)); [done|].
    intros chunks [= <-] c. destruct docs as [|d docs]; [done|].
    rewrite AccessFilter.chatbot_filter_eq by done.
    by intros [? _]%filter_In. }
  destruct (retrieved W query docs) as [message|chunks];
    [by eexists _, [], _|].
  destruct (chunk_texts_ok chunks) as (texts & -> & _).
  { apply Forall_forall. intros c Hc%list_elem_of_In.
    by apply Hrag, (Hsub chunks). }
  destruct (ollama_generate W Config.OLLAMA_MODEL (prompt_of query texts));
    eexists _, chunks, _; (split; [done|]);
    intros c Hc; by apply Hrag, (Hsub chunks).
Qed.

End WithWorld.

Lemma generate_response_only_permitted_documents_witness :
  let run := Chatbot.generate_response Samples.two_document_world
               "opening hours" (Some ["public.pdf"]) Fixtures.empty_state in
  ["public.pdf"] <> []
  /\ fst run = Ok ("fine", [Fixtures.payload_of "opening hours" "public.pdf"])
  /\ forall prompt,
       In (EvOllamaGenerate prompt) (trace (snd run)) ->
       exists chunks texts,
         (forall c, In c chunks ->
            exists name, Chatbot.doc_name_of c = Some name
                         /\ name <> EmptyString /\ In name ["public.pdf"])
         /\ Chatbot.chunk_texts chunks = Ok texts
         /\ prompt = Config.RAG_PROMPT_TEMPLATE_format
                       (Py.join Chatbot.context_separator texts)
                       "opening hours".
Proof.
  intros run. split; [done|]. split; [reflexivity|].
  intros prompt Hprompt.
  destruct (generate_response_only_permitted_documents
              Samples.two_document_world "opening hours" ["public.pdf"]
              Fixtures.empty_state) as [_ Hmodel]; [done|].
  destruct (Hmodel prompt Hprompt) as [[]|Hfrom]. exact Hfrom.
Defined.

Lemma generate_response_blank_query_witness :
  Py.strip "   " = EmptyString
  /\ exists message,
       Chatbot.generate_response Fixtures.busy_world "   " None
         Fixtures.empty_state
       = (Ok (message, []), Fixtures.empty_state)
       /\ (message = "Please ask a question."
           \/ message = "I could not find any relevant information in your documents to answer this question.").
Proof.
  split; [reflexivity|].
  apply (generate_response_blank_query Fixtures.busy_world "   " None
           Fixtures.empty_state).
  reflexivity.
Defined.

Lemma generate_response_total_on_chunks_with_text_witness :
  exists answer sources st',
    Chatbot.generate_response Fixtures.offline_world "what is alpha" None
      Fixtures.empty_state
    = (Ok (answer, sources), st')
    /\ forall c, In c sources ->
         exists query_embedding points point,
           encode_query Fixtures.offline_world "what is alpha"
           = Ok query_embedding
           /\ client_search Fixtures.offline_world query_embedding
                Config.CONTEXT_CHUNKS_FOR_RAG None = Ok points
           /\ In point points /\ c = sp_payload point.
Proof.
  apply (generate_response_total_on_chunks_with_text Fixtures.offline_world
           "what is alpha" None Fixtures.empty_state).
  intros query_embedding points point [= <-].
  simpl. intros [<-|[<-|[]]]; by eexists.
Defined.

End Dialogue.

(** ** Words of a chunk *)

Module Words.
Import PyFacts Closed Views.

Lemma all_chars_app (p : ascii -> bool) (a b : string) :
  Py.all_chars p (a +:+ b) = Py.all_chars p a && Py.all_chars p b.
Proof.
  induction a as [|c a IH]; [done|].
  change (p c && Py.all_chars p (a +:+ b)
          = p c && Py.all_chars p a && Py.all_chars p b).
  by rewrite IH, andb_assoc.
Qed.













Section WithWorld.
Context (W : World).







End WithWorld.



End Words.

(** ** Further properties of the rank fusion *)

Module Ranking.
Import PyFacts Closed Views.

Lemma rank_from_bound (start : nat) (ids : list string) (c : string) (rank : nat) :
  rank_from start ids c = Some rank -> start <= rank < start + length ids.
Proof.
  revert start. induction ids as [|k ids IH]; intros start; simpl; [done|].
  destruct (String.eqb k c); [intros [= <-]; lia|].
  intros H%IH. lia.
Qed.

Lemma rrf_term_value (rank : nat) :
  QdrantManager.rrf_term rank = 1 # Pos.of_nat (rank + 60).
Proof.
  unfold QdrantManager.rrf_term, Qdiv, Qinv, Qmult, inject_Z. simpl Qnum.
  destruct (Z.of_nat rank + 60)%Z as [|p|p] eqn:Hp; [lia| |lia].
  simpl. f_equal. lia.
Qed.

Lemma rrf_term_bounds (rank n : nat) :
  1 <= rank <= n ->
  (1 # Pos.of_nat (n + 60) <= QdrantManager.rrf_term rank)%Q
  /\ (QdrantManager.rrf_term rank <= 1 # 61)%Q.
Proof.
  intros Hrank. rewrite rrf_term_value. unfold Qle. simpl. lia.
Qed.

(** In a list sorted by descending key, an element with a strictly larger
    key than one of the first [n] is among the first [n] too. *)
Lemma sorted_firstn_closed {A : Type} (key : A -> Q) (l : list A) (n : nat)
    (x y : A) :
  StronglySorted (desc key) l ->
  In y (firstn n l) -> In x l -> (key y < key x)%Q -> In x (firstn n l).
Proof.
  intros Hsorted. revert n.
  induction Hsorted as [|a l Hsorted IH Hall]; intros n Hy Hx Hlt; [done|].
  destruct n as [|n]; [done|]. simpl in *.
  destruct Hx as [->|Hx]; [by left|]. right.
  destruct Hy as [->|Hy].
  - rewrite Forall_forall in Hall. apply list_elem_of_In, Hall in Hx.
    unfold desc in Hx. exfalso. by apply (Qlt_not_le _ _ Hlt).
  - by apply IH.
Qed.

Lemma fuse_results_eq (vs : list ScoredPoint) (ks : list Row) :
  QdrantManager._fuse_results vs ks
  = firstn Config.SIMILARITY_TOP_K (fused_all vs ks).
Proof. reflexivity. Qed.

Lemma fused_dict_ok (vs : list ScoredPoint) (ks : list Row) :
  NoDup (Py.dict_keys (fused_dict vs ks)) /\ Forall entry_ok (fused_dict vs ks).
Proof.
  apply Fusion.fold_ok; [apply Fusion.fuse_keyword_ok|].
  apply Fusion.fold_ok; [apply Fusion.fuse_vector_ok|]. split; constructor.
Qed.

(** The score stored for a chunk after both loops. *)
Lemma fused_dict_score (vs : list ScoredPoint) (ks : list Row) (c : string) :
  NoDup (map sp_id vs) -> NoDup (map row_id ks) ->
  option_map QdrantManager.score_key (Py.dict_get (fused_dict vs ks) c)
  = match rank_of (map row_id ks) c with
    | Some rk =>
        Some (match rank_of (map sp_id vs) c with
              | Some rv => (QdrantManager.rrf_term rv
                            + QdrantManager.rrf_term rk)%Q
              | None => QdrantManager.rrf_term rk
              end)
    | None => option_map QdrantManager.rrf_term (rank_of (map sp_id vs) c)
    end.
Proof.
  intros Hvs Hks. unfold fused_dict, Py.enumerate, rank_of.
  rewrite Fusion.fuse_keyword_fold, Fusion.fuse_vector_fold by done.
  by destruct (rank_from 1 (map sp_id vs) c), (rank_from 1 (map row_id ks) c).
Qed.

(** Every entry of the fused list is the entry of the dict under its id. *)
Lemma fused_all_entry (vs : list ScoredPoint) (ks : list Row) (e : SearchResult) :
  In e (fused_all vs ks) ->
  exists c, sr_id e = Some c /\ Py.dict_get (fused_dict vs ks) c = Some e.
Proof.
  destruct (fused_dict_ok vs ks) as [Hnd Hok].
  unfold fused_all. rewrite Sorting.sorted_desc_In.
  intros ([c e'] & <- & Hin)%in_map_iff. simpl. exists c.
  rewrite Forall_forall in Hok.
  destruct (Hok (c, e')) as [Hid _]; [by apply list_elem_of_In|].
  split; [done|]. by apply Fusion.dict_get_In.
Qed.

Lemma fused_all_covers (vs : list ScoredPoint) (ks : list Row) (c : string)
    (e : SearchResult) :
  Py.dict_get (fused_dict vs ks) c = Some e -> In e (fused_all vs ks).
Proof.
  destruct (fused_dict_ok vs ks) as [Hnd Hok]. intros Hget.
  unfold fused_all. rewrite Sorting.sorted_desc_In.
  apply Fusion.dict_get_In in Hget; [|done].
  apply in_map_iff. by exists (c, e).
Qed.

(** X8. With unique identifiers per list and at most 61 entries in each, a
    chunk that both indexes returned has a strictly larger fused score than
    any chunk only one of them returned; so whenever such a chunk is among
    the results of [_fuse_results], every chunk of both indexes is too. *)
Theorem fuse_results_prefers_chunks_of_both_indexes :
  forall (vector_results : list ScoredPoint) (keyword_results : list Row)
         (c1 c2 : string) (e2 : SearchResult),
    NoDup (map sp_id vector_results) ->
    NoDup (map row_id keyword_results) ->
    length vector_results <= 61 ->
    length keyword_results <= 61 ->
    In c1 (map sp_id vector_results) ->
    In c1 (map row_id keyword_results) ->
    In e2 (QdrantManager._fuse_results vector_results keyword_results) ->
    sr_id e2 = Some c2 ->
    ~ (In c2 (map sp_id vector_results) /\ In c2 (map row_id keyword_results)) ->
    exists e1,
      In e1 (QdrantManager._fuse_results vector_results keyword_results)
      /\ sr_id e1 = Some c1
      /\ (QdrantManager.score_key e2 < QdrantManager.score_key e1)%Q.
Proof.
  intros vs ks c1 c2 e2 Hvs Hks Hlv Hlk Hv1 Hk1 He2 Hid2 Hnot.
  rewrite fuse_results_eq in *.
  pose proof (fused_dict_score vs ks c1 Hvs Hks) as Hs1.
  destruct (Fusion.rank_from_Some 1 _ _ Hv1) as (rv & Hrv & _).
  destruct (Fusion.rank_from_Some 1 _ _ Hk1) as (rk & Hrk & _).
  unfold rank_of in Hs1. rewrite Hrv, Hrk in Hs1.
  destruct (Py.dict_get (fused_dict vs ks) c1) as [e1|] eqn:Hget1; [|done].
  injection Hs1 as Hs1.
  pose proof (fused_all_covers vs ks c1 e1 Hget1) as Hin1.
  assert (sr_id e1 = Some c1) as Hid1.
  { destruct (fused_all_entry vs ks e1 Hin1) as (c & Hid & Hget).
    destruct (fused_dict_ok vs ks) as [Hnd Hok].
    apply Fusion.dict_get_In in Hget1, Hget; [|done..].
    rewrite Forall_forall in Hok.
    by destruct (Hok (c1, e1)) as [? _]; [by apply list_elem_of_In|]. }
  assert (QdrantManager.score_key e2 < QdrantManager.score_key e1)%Q as Hlt.
  { apply Retrieval.firstn_In in He2.
    destruct (fused_all_entry vs ks e2 He2) as (c & Hc & Hget2).
    assert (c = c2) as -> by congruence.
    pose proof (fused_dict_score vs ks c2 Hvs Hks) as Hs2.
    rewrite Hget2 in Hs2. simpl in Hs2. rewrite Hs1.
    apply rank_from_bound in Hrv, Hrk. rewrite length_map in Hrv, Hrk.
    destruct (rrf_term_bounds rv 61) as [Hrv1 _]; [lia|].
    destruct (rrf_term_bounds rk 61) as [Hrk1 _]; [lia|].
    assert (QdrantManager.score_key e2 <= 1 # 61)%Q as Hle.
    { unfold rank_of in Hs2.
      destruct (rank_from 1 (map row_id ks) c2) as [rk2|] eqn:Hrk2.
      - destruct (rank_from 1 (map sp_id vs) c2) as [rv2|] eqn:Hrv2.
        + exfalso. apply Hnot. split.
          * destruct (in_dec string_dec c2 (map sp_id vs)) as [|Hn]; [done|].
            by rewrite (Fusion.rank_from_None _ _ _ Hn) in Hrv2.
          * destruct (in_dec string_dec c2 (map row_id ks)) as [|Hn]; [done|].
            by rewrite (Fusion.rank_from_None _ _ _ Hn) in Hrk2.
        + injection Hs2 as ->. apply rank_from_bound in Hrk2.
          apply (rrf_term_bounds rk2 (1 + length (map row_id ks))). lia.
      - destruct (rank_from 1 (map sp_id vs) c2) as [rv2|] eqn:Hrv2; [|done].
        injection Hs2 as ->. apply rank_from_bound in Hrv2.
        apply (rrf_term_bounds rv2 (1 + length (map sp_id vs))). lia. }
    eapply Qle_lt_trans; [exact Hle|].
    eapply Qlt_le_trans; [|apply Qplus_le_compat; [exact Hrv1 | exact Hrk1]].
    reflexivity. }
  exists e1. split; [|done].
  eapply sorted_firstn_closed; [apply Sorting.sorted_desc_sorted | exact He2 | | exact Hlt].
  exact Hin1.
Qed.

(** *** Where the fused entries come from *)

Lemma dict_get_In_first {V : Type} (d : Py.dict V) (k : string) (v : V) :
  Py.dict_get d k = Some v -> In (k, v) d.
Proof.
  induction d as [|[k' v'] d IH]; simpl; [done|].
  destruct (String.eqb_spec k' k) as [->|_]; [intros [= ->]; by left|].
  intros H. right. by apply IH.
Qed.

Lemma dict_set_keys_keep {V : Type} (d : Py.dict V) (k c : string) (v : V) :
  In c (Py.dict_keys d) \/ c = k -> In c (Py.dict_keys (Py.dict_set d k v)).
Proof.
  rewrite Fusion.dict_keys_set.
  destruct (Py.contains (Py.dict_keys d) k) eqn:Hk.
  - intros [?| ->]; [done | by apply contains_In].
  - intros [?| ->]; apply in_or_app; [by left | right; by left].
Qed.

Lemma dict_set_length {V : Type} (d : Py.dict V) (k : string) (v : V) :
  length (Py.dict_set d k v) <= S (length d).
Proof.
  induction d as [|[k' v'] d IH]; simpl; [lia|].
  destruct (String.eqb k' k); simpl; lia.
Qed.

Lemma fuse_keyword_keys (d : Py.dict SearchResult) (rank : nat) (row : Row)
    (c : string) :
  In c (Py.dict_keys d) \/ c = row_id row ->
  In c (Py.dict_keys (QdrantManager.fuse_keyword d (rank, row))).
Proof.
  unfold QdrantManager.fuse_keyword.
  destruct (Py.dict_get d (row_id row)); apply dict_set_keys_keep.
Qed.

Lemma fuse_keyword_length (d : Py.dict SearchResult) (item : nat * Row) :
  length (QdrantManager.fuse_keyword d item) <= S (length d).
Proof.
  destruct item as [rank row]. unfold QdrantManager.fuse_keyword.
  destruct (Py.dict_get d (row_id row)); apply dict_set_length.
Qed.

Section Provenance.
Context (vs : list ScoredPoint) (ks : list Row).

Local Abbreviation sourced :=
  (Forall (fun kv : string * SearchResult => from_indexes vs ks (snd kv))).

Lemma vector_loop_sourced (items : list (nat * ScoredPoint))
    (d : Py.dict SearchResult) :
  (forall item, In item items -> In (snd item) vs) ->
  sourced d ->
  sourced (fold_left QdrantManager.fuse_vector items d)
  /\ forall c, In c (Py.dict_keys d)
               \/ In c (map (fun item => sp_id (snd item)) items) ->
               In c (Py.dict_keys (fold_left QdrantManager.fuse_vector items d)).
Proof.
  revert d. induction items as [|[rank r] items IH]; intros d Hitems Hd.
  - split; [done|]. by intros c [?|[]].
  - cbn [fold_left].
    destruct (IH (QdrantManager.fuse_vector d (rank, r))) as [Hs Hkeys].
    + intros item Hitem. apply Hitems. by right.
    + apply Fusion.dict_set_Forall; [done|]. left. exists r.
      split; [|done]. apply (Hitems (rank, r)). by left.
    + split; [done|]. intros c Hc. apply Hkeys.
      destruct Hc as [Hc|[<-|Hc]]; [left|left|by right];
        apply dict_set_keys_keep; [by left | by right].
Qed.

Lemma keyword_loop_sourced (items : list (nat * Row)) (d : Py.dict SearchResult) :
  (forall item, In item items -> In (snd item) ks) ->
  (forall c, In c (map sp_id vs) -> In c (Py.dict_keys d)) ->
  sourced d ->
  sourced (fold_left QdrantManager.fuse_keyword items d)
  /\ (forall c, In c (Py.dict_keys d)
                \/ In c (map (fun item => row_id (snd item)) items) ->
                In c (Py.dict_keys (fold_left QdrantManager.fuse_keyword items d)))
  /\ length (fold_left QdrantManager.fuse_keyword items d)
     <= length d + length items.
Proof.
  revert d. induction items as [|[rank row] items IH]; intros d Hitems Hvs Hd.
  - split; [done|]. split; [by intros c [?|[]] | simpl; lia].
  - cbn [fold_left].
    destruct (IH (QdrantManager.fuse_keyword d (rank, row)))
      as (Hs & Hkeys & Hlen).
    + intros item Hitem. apply Hitems. by right.
    + intros c Hc. apply fuse_keyword_keys. left. by apply Hvs.
    + unfold QdrantManager.fuse_keyword.
      destruct (Py.dict_get d (row_id row)) as [entry|] eqn:Hget.
      * apply Fusion.dict_set_Forall; [done|].
        apply dict_get_In_first in Hget. rewrite Forall_forall in Hd.
        apply list_elem_of_In, Hd in Hget. exact Hget.
      * apply Fusion.dict_set_Forall; [done|]. right. exists row.
        split; [apply (Hitems (rank, row)); by left|]. split; [|done].
        intros Hc%Hvs%Fusion.dict_get_keys. destruct Hc as [? Hc]. congruence.
    + split; [done|]. split.
      * intros c Hc. apply Hkeys.
        destruct Hc as [Hc|[<-|Hc]]; [left|left|by right];
          apply fuse_keyword_keys; [by left | by right].
      * pose proof (fuse_keyword_length d (rank, row)). cbn [length]. lia.
Qed.

Lemma enumerate_In {A : Type} (l : list A) (start : nat) (item : nat * A) :
  In item (Py.enumerate l start) -> In (snd item) l.
Proof. destruct item. apply in_combine_r. Qed.

Lemma enumerate_values {A B : Type} (f : A -> B) (l : list A) (start : nat) :
  map (fun item => f (snd item)) (Py.enumerate l start) = map f l.
Proof.
  unfold Py.enumerate. revert start.
  induction l as [|x l IH]; intros start; simpl; [done | by rewrite IH].
Qed.

Lemma enumerate_length {A : Type} (l : list A) (start : nat) :
  length (Py.enumerate l start) = length l.
Proof. unfold Py.enumerate. rewrite length_combine, length_seq. lia. Qed.

Lemma fused_dict_sourced :
  sourced (fused_dict vs ks)
  /\ (forall c, In c (map sp_id vs) \/ In c (map row_id ks) ->
                In c (Py.dict_keys (fused_dict vs ks)))
  /\ length (fused_dict vs ks) <= length vs + length ks.
Proof.
  unfold fused_dict.
  destruct (vector_loop_sourced (Py.enumerate vs 1) []) as [Hs1 Hk1];
    [apply enumerate_In | constructor |].
  rewrite enumerate_values in Hk1.
  assert (length (fold_left QdrantManager.fuse_vector (Py.enumerate vs 1) [])
          <= length vs) as Hl1.
  { assert (forall items d,
              length (fold_left QdrantManager.fuse_vector items d)
              <= length d + length items) as Hgen.
    { induction items as [|[rank r] items IH]; intros d; cbn [fold_left length];
        [lia|].
      specialize (IH (QdrantManager.fuse_vector d (rank, r))).
      assert (length (QdrantManager.fuse_vector d (rank, r)) <= S (length d))
        by apply dict_set_length.
      lia. }
    specialize (Hgen (Py.enumerate vs 1) []).
    rewrite enumerate_length in Hgen. simpl in Hgen. lia. }
  destruct (keyword_loop_sourced (Py.enumerate ks 1)
              (fold_left QdrantManager.fuse_vector (Py.enumerate vs 1) []))
    as (Hs2 & Hk2 & Hl2); [apply enumerate_In | | done |].
  { intros c Hc. apply Hk1. by right. }
  rewrite enumerate_values in Hk2.
  split; [done|]. split.
  - intros c [Hc|Hc]; apply Hk2; [left; apply Hk1; by right | by right].
  - rewrite enumerate_length in Hl2. lia.
Qed.

End Provenance.

(** X9. Every result of [_fuse_results] is a hit of the vector index
    carrying that hit's identifier and payload, or a row of the keyword index
    for a chunk the vector index did not return, carrying the payload
    [{text, pdf_name, page}] built from the row: for a chunk of both lists
    the payload of the vector index is the one kept. *)
Theorem fuse_results_payloads_come_from_the_indexes :
  forall (vector_results : list ScoredPoint) (keyword_results : list Row)
         (e : SearchResult),
    In e (QdrantManager._fuse_results vector_results keyword_results) ->
    from_indexes vector_results keyword_results e.
Proof.
  intros vs ks e. rewrite fuse_results_eq.
  intros He%Retrieval.firstn_In. revert He. unfold fused_all.
  rewrite Sorting.sorted_desc_In. intros (kv & <- & Hkv)%in_map_iff.
  destruct (fused_dict_sourced vs ks) as [Hs _].
  rewrite Forall_forall in Hs. by apply Hs, list_elem_of_In.
Qed.

Section WithWorld.
Context (W : World).

(** X10. [QdrantManager.hybrid_search] asks the vector index for 6 hits
    and the keyword index for 2. When both answer within these limits,
    nothing is cut from the fusion: every chunk of either answer is in the
    result, which is sorted by descending score. *)
Theorem qdrant_hybrid_search_keeps_every_hit :
  forall (query_embedding : embedding) (keywords : list string) (st : State)
         (vector_results : list ScoredPoint) (keyword_results : list Row),
    client_search W query_embedding 6 None = Ok vector_results ->
    fts_select W (Py.join " OR " keywords) 2 = Ok keyword_results ->
    length vector_results <= 6 ->
    length keyword_results <= 2 ->
    exists results st',
      QdrantManager.hybrid_search W query_embedding keywords
        (KeywordDatabase.search W) st = (Ok results, st')
      /\ trace st'
         = trace st ++ [EvClientSearch 6 None;
                        EvFtsSelect (Py.join " OR " keywords) 2]
      /\ StronglySorted (desc QdrantManager.score_key) results
      /\ (forall c, In c (map sp_id vector_results)
                    \/ In c (map row_id keyword_results) ->
                    exists e, In e results /\ sr_id e = Some c).
Proof.
  intros emb kws st vs ks Hvs Hks Hlv Hlk.
  rewrite HybridSearch.qdrant_hybrid_search_run, Hvs.
  unfold keyword_rows. rewrite Hks.
  eexists _, _. split; [reflexivity|]. split; [done|].
  destruct (fused_dict_sourced vs ks) as (_ & Hkeys & Hlen).
  assert (QdrantManager._fuse_results vs ks = fused_all vs ks) as ->.
  { rewrite fuse_results_eq. apply firstn_all2. unfold fused_all.
    rewrite Sorting.sorted_desc_length. unfold Py.dict_values.
    rewrite length_map. change Config.SIMILARITY_TOP_K with 8. lia. }
  split; [apply Sorting.sorted_desc_sorted|].
  intros c Hc%Hkeys%Fusion.dict_get_keys. destruct Hc as [e He].
  exists e. split; [by apply (fused_all_covers vs ks c)|].
  destruct (fused_dict_ok vs ks) as [Hnd Hok].
  apply dict_get_In_first in He. rewrite Forall_forall in Hok.
  by destruct (Hok (c, e)) as [? _]; [by apply list_elem_of_In|].
Qed.

End WithWorld.

Lemma fuse_results_prefers_chunks_of_both_indexes_witness :
  let e2 := mkSearchResult (Some "b")
              (Some (Fixtures.payload_of "beta" "report.pdf"))
              (Some (1 # 62)) None None in
  exists e1,
    In e1 (QdrantManager._fuse_results Fixtures.three_points Fixtures.three_rows)
    /\ sr_id e1 = Some "a"
    /\ (QdrantManager.score_key e2 < QdrantManager.score_key e1)%Q.
Proof.
  intros e2.
  apply (fuse_results_prefers_chunks_of_both_indexes
           Fixtures.three_points Fixtures.three_rows "a" "b" e2).
  - apply (bool_decide_unpack _). vm_compute. exact I.
  - apply (bool_decide_unpack _). vm_compute. exact I.
  - simpl. lia.
  - simpl. lia.
  - simpl. by left.
  - simpl. right. right. by left.
  - vm_compute. right. right. by left.
  - reflexivity.
  - simpl. intros [_ [?|[?|[?|[]]]]]; discriminate.
Defined.

Lemma fuse_results_payloads_come_from_the_indexes_witness :
  let e := mkSearchResult (Some "d")
             (Some (Fixtures.payload_of "delta" "report.pdf"))
             (Some (1 # 62)) None None in
  In e (QdrantManager._fuse_results Fixtures.three_points Fixtures.three_rows)
  /\ from_indexes Fixtures.three_points Fixtures.three_rows e.
Proof.
  intros e.
  assert (In e (QdrantManager._fuse_results Fixtures.three_points
                  Fixtures.three_rows)) as He.
  { vm_compute. right. right. right. by left. }
  split; [exact He|].
  exact (fuse_results_payloads_come_from_the_indexes
           Fixtures.three_points Fixtures.three_rows e He).
Defined.

Lemma qdrant_hybrid_search_keeps_every_hit_witness :
  exists results st',
    QdrantManager.hybrid_search Fixtures.busy_world [1%Q] ["kappa"]
      (KeywordDatabase.search Fixtures.busy_world) Fixtures.empty_state
    = (Ok results, st')
    /\ trace st'
       = trace Fixtures.empty_state
         ++ [EvClientSearch 6 None; EvFtsSelect (Py.join " OR " ["kappa"]) 2]
    /\ StronglySorted (desc QdrantManager.score_key) results
    /\ (forall c, In c (map sp_id Fixtures.five_points)
                  \/ In c (map row_id [mkRow "k" "kappa" "report.pdf" 2]) ->
                  exists e, In e results /\ sr_id e = Some c).
Proof.
  apply (qdrant_hybrid_search_keeps_every_hit Fixtures.busy_world [1%Q]
           ["kappa"] Fixtures.empty_state Fixtures.five_points
           [mkRow "k" "kappa" "report.pdf" 2]).
  - reflexivity.
  - reflexivity.
  - simpl. lia.
  - simpl. lia.
Defined.

End Ranking.

(** ** Further properties of the embedding cache *)

Module CacheFacts.
Import PyFacts Closed Views HybridSearch Embeddings.

Local Abbreviation id_of chunk := (cm_chunk_id (ch_metadata chunk)).

Lemma Forall2_weaken_In {A B : Type} (P Q : A -> B -> Prop) (l : list A)
    (k : list B) :
  Forall2 P l k -> (forall x y, In x l -> P x y -> Q x y) -> Forall2 Q l k.
Proof.
  induction 1 as [|x y l k Hxy _ IH]; intros Himp; constructor.
  - apply Himp; [by left | done].
  - apply IH. intros x' y' Hx'. apply Himp. by right.
Qed.

Section WithWorld.
Context (W : World).

(** The second loop never touches a cache entry whose identifier is not a
    value of [chunks_to_embed_map], however it ends. *)
Lemma loop2_keeps_cache (cache0 : gmap string embedding)
    (tmap : gmap string string) (items : list (string * embedding))
    (emap : gmap string embedding) (st : State) :
  (forall text chunk_id, tmap !! text = Some chunk_id ->
                         cache0 !! chunk_id = None) ->
  cache0 ⊆ embedding_cache st ->
  cache0 ⊆ embedding_cache
             (snd (for_each items (VectorStore.store_new W tmap) emap st)).
Proof.
  intros Hfresh. revert emap st.
  induction items as [|[t e] items IH]; intros emap st Hsub; cbn [for_each];
    [done|].
  rewrite bind_run. destruct (tmap !! t) as [chunk_id|] eqn:Hid.
  - rewrite (store_new_run _ _ _ _ chunk_id) by done. apply IH.
    unfold saved, after. destruct (write_cache_file W chunk_id e); [|done].
    cbn [embedding_cache]. apply insert_subseteq_r; [|done].
    by apply (Hfresh t).
  - unfold VectorStore.store_new. by rewrite Hid.
Qed.

(** X11. Whatever [_generate_embeddings] does and however it ends (the
    model or a file write failing, a [KeyError]), every entry that was in the
    embedding cache before is in it afterwards, with the same vector. *)
Theorem generate_embeddings_keeps_cache_entries :
  forall (chunks : list Chunk) (st : State),
    embedding_cache st
    ⊆ embedding_cache (snd (VectorStore._generate_embeddings W chunks st)).
Proof.
  intros chunks st. unfold VectorStore._generate_embeddings.
  rewrite bind_run. unfold get_cache at 1. cbv beta iota.
  destruct (loop1_closed (embedding_cache st) chunks
              (VectorStore.mkLocals ∅ [] ∅))
    as (_ & Htmap & _); [apply map_empty_subseteq|].
  cbn [VectorStore.chunks_to_embed_map] in Htmap.
  set (loc := fold_left (VectorStore.lookup_chunk (embedding_cache st)) chunks
                        (VectorStore.mkLocals ∅ [] ∅)) in *.
  rewrite bind_run, Htmap.
  destruct (Py.nonempty (VectorStore.texts_to_embed loc)).
  - rewrite bind_run. unfold call, emit, lift. rewrite bind_run. cbv beta iota.
    destruct (encode_batch W (VectorStore.texts_to_embed loc)) as [embs|e];
      [|done].
    pose proof (loop2_keeps_cache (embedding_cache st)
                  (text_index (uncached (embedding_cache st) chunks) ∅)
                  (combine (VectorStore.texts_to_embed loc) embs)
                  (VectorStore.embeddings_map loc)
                  (mkState (embedding_cache st)
                     (trace st ++ [EvEncodeBatch (VectorStore.texts_to_embed loc)])))
      as Hkeep.
    destruct (for_each _ _ _ _) as [[emap'|e] st'].
    + destruct (VectorStore.collect emap' chunks); apply Hkeep; try done;
        intros text chunk_id (c & Hc & <-)%text_index_values;
        by apply uncached_In in Hc as [_ Hc].
    + apply Hkeep; [|done].
      intros text chunk_id (c & Hc & <-)%text_index_values.
      by apply uncached_In in Hc as [_ Hc].
  - unfold ret at 1. by destruct (VectorStore.collect _ chunks).
Qed.

(** The second loop when every file write succeeds: the map of the run
    and the cache agree on every identifier written. *)
Lemma loop2_agree (tmap : gmap string string) (items : list (string * embedding))
    (emap : gmap string embedding) (st : State) :
  Forall (fun item => exists chunk_id,
            tmap !! fst item = Some chunk_id
            /\ write_cache_file W chunk_id (snd item) = Ok tt) items ->
  forall emap' st',
    for_each items (VectorStore.store_new W tmap) emap st = (Ok emap', st') ->
    forall k,
      emap !! k = embedding_cache st !! k
      \/ (exists item, In item items /\ tmap !! fst item = Some k) ->
      emap' !! k = embedding_cache st' !! k.
Proof.
  intros Hitems. revert emap st.
  induction Hitems as [|[t e] items (chunk_id & Hid & Hwrite) _ IH];
    intros emap st emap' st'; cbn [for_each].
  - intros [= <- <-] k [Hk|(item & [] & _)]. exact Hk.
  - simpl in Hid, Hwrite.
    rewrite bind_run, (store_new_run _ _ _ _ chunk_id) by done.
    intros Hrun k Hk. apply (IH _ _ _ _ Hrun).
    unfold saved. rewrite Hwrite. cbn [embedding_cache].
    destruct (decide (chunk_id = k)) as [->|Hne].
    { left. by rewrite !lookup_insert_eq. }
    rewrite !lookup_insert_ne by done.
    destruct Hk as [Hk|(item & [<-|Hitem] & Hk)].
    + by left.
    + simpl in Hk. congruence.
    + right. by exists item.
Qed.

(** The second loop over texts with pairwise different identifiers: every
    identifier ends up with the vector of its own text. *)
Lemma loop2_values (tmap : gmap string string) (items : list (string * embedding))
    (emap : gmap string embedding) (st : State) :
  Forall (fun item => is_Some (tmap !! fst item)) items ->
  NoDup (map (fun item => tmap !! fst item) items) ->
  forall emap' st',
    for_each items (VectorStore.store_new W tmap) emap st = (Ok emap', st') ->
    forall item chunk_id,
      In item items -> tmap !! fst item = Some chunk_id ->
      emap' !! chunk_id = Some (snd item).
Proof.
  intros Hitems. revert emap st.
  induction Hitems as [|[t e] items [chunk_id Hid] Hrest IH];
    intros emap st Hnd emap' st'; cbn [for_each]; [by intros _ ? ? []|].
  simpl in Hid. apply NoDup_cons in Hnd as [Hfirst Hnd].
  rewrite bind_run, (store_new_run _ _ _ _ chunk_id) by done.
  intros Hrun item k [<-|Hitem] Hk.
  - simpl in Hk. assert (k = chunk_id) as -> by congruence. simpl.
    destruct (loop2_run W tmap items (<[chunk_id := e]> emap)
                (saved W chunk_id e st) Hrest)
      as (emap2 & st2 & Hrun2 & _ & _ & Hother & _).
    rewrite Hrun in Hrun2. injection Hrun2 as <- <-.
    rewrite Hother; [by rewrite lookup_insert_eq|].
    intros item Hitem Hsame. apply Hfirst. simpl. rewrite Hid, <- Hsame.
    apply list_elem_of_In, in_map_iff. by exists item.
  - by apply (IH _ _ Hnd _ _ Hrun).
Qed.

(** A run of [_generate_embeddings] that calls the model, opened up to the
    map the second loop leaves. *)
Lemma generate_embeddings_open (chunks : list Chunk) (st : State)
    (embs : list embedding) :
  let cache := embedding_cache st in
  let new_chunks := uncached cache chunks in
  let texts := map ch_text new_chunks in
  (forall c1 c2, In c1 new_chunks -> In c2 new_chunks ->
                 ch_text c1 = ch_text c2 -> id_of c1 = id_of c2) ->
  encode_batch W texts = Ok embs ->
  length embs = length texts ->
  new_chunks <> [] ->
  exists emap0 emap' st' es,
    for_each (combine texts embs)
      (VectorStore.store_new W (text_index new_chunks ∅)) emap0
      (mkState cache (trace st ++ [EvEncodeBatch texts])) = (Ok emap', st')
    /\ VectorStore._generate_embeddings W chunks st = (Ok es, st')
    /\ Forall2 (fun c e => emap' !! id_of c = Some e) chunks es
    /\ (forall c e0, In c chunks -> cache !! id_of c = Some e0 ->
                     emap0 !! id_of c = Some e0).
Proof.
  intros cache new_chunks texts Hdet Henc Hlen Hnew.
  unfold VectorStore._generate_embeddings.
  rewrite bind_run. unfold get_cache at 1. cbv beta iota. fold cache.
  destruct (loop1_closed cache chunks (VectorStore.mkLocals ∅ [] ∅))
    as (Htexts & Htmap & Hsub & _ & Hin); [apply map_empty_subseteq|].
  cbn [VectorStore.texts_to_embed VectorStore.chunks_to_embed_map app] in *.
  fold new_chunks in Htexts, Htmap. fold texts in Htexts.
  set (loc := fold_left (VectorStore.lookup_chunk cache) chunks
                        (VectorStore.mkLocals ∅ [] ∅)) in *.
  rewrite bind_run, Htexts, Htmap.
  assert (Py.nonempty texts = true) as ->.
  { unfold texts. by destruct new_chunks. }
  rewrite bind_run. unfold call, emit, lift. rewrite bind_run. cbv beta iota.
  rewrite Henc.
  destruct (loop2_run W (text_index new_chunks ∅) (combine texts embs)
              (VectorStore.embeddings_map loc)
              (mkState (embedding_cache st)
                       (trace st ++ [EvEncodeBatch texts])))
    as (emap' & st' & Hrun & Hkeep & Hnewids & _).
  { apply Forall_forall. intros [t e] Hitem%list_elem_of_In. simpl.
    apply in_combine_l in Hitem. apply in_map_iff in Hitem as (c & <- & Hc).
    rewrite text_index_lookup by done. by eexists. }
  rewrite Hrun.
  assert (forall c e0, In c chunks -> cache !! id_of c = Some e0 ->
            VectorStore.embeddings_map loc !! id_of c = Some e0) as Hcached.
  { intros c e0 Hc He0. rewrite Forall_forall in Hin.
    destruct (Hin c) as [e He]; [by apply list_elem_of_In | by eexists |].
    rewrite He. f_equal. pose proof (lookup_weaken _ _ _ _ He Hsub).
    congruence. }
  destruct (collect_ok emap' chunks) as (es & Hes & Hes2).
  { apply Forall_forall. intros c Hc%list_elem_of_In.
    destruct (cache !! id_of c) as [e0|] eqn:Hcache.
    - apply Hkeep. rewrite (Hcached c e0) by done. by eexists.
    - assert (In c new_chunks) as Hnewc by (by apply uncached_In).
      destruct (zip_covers texts embs (ch_text c) Hlen) as [e He].
      { apply in_map_iff. by exists c. }
      rewrite Forall_forall in Hnewids.
      apply (Hnewids (ch_text c, e)); [by apply list_elem_of_In|].
      by apply text_index_lookup. }
  exists (VectorStore.embeddings_map loc), emap', st', es.
  split; [done|]. split; [by rewrite Hes|]. split; [done | exact Hcached].
Qed.

(** X12. Where the texts of the chunks to embed determine their
    identifiers, the model answers with one vector per text and every cache
    file is written, a run of [_generate_embeddings] leaves all chunks in
    the cache with the vectors it returns: the same call made again returns
    the same vectors and changes nothing, calling neither the model nor the
    file system. *)
Theorem generate_embeddings_second_run_is_cached :
  forall (chunks : list Chunk) (st : State) (embs : list embedding),
    let cache := embedding_cache st in
    let new_chunks := uncached cache chunks in
    let texts := map ch_text new_chunks in
    (forall c1 c2, In c1 new_chunks -> In c2 new_chunks ->
                   ch_text c1 = ch_text c2 -> id_of c1 = id_of c2) ->
    encode_batch W texts = Ok embs ->
    length embs = length texts ->
    (forall c e, In c new_chunks -> write_cache_file W (id_of c) e = Ok tt) ->
    exists es st',
      VectorStore._generate_embeddings W chunks st = (Ok es, st')
      /\ Forall2 (fun c e => embedding_cache st' !! id_of c = Some e) chunks es
      /\ VectorStore._generate_embeddings W chunks st' = (Ok es, st').
Proof.
  intros chunks st embs cache new_chunks texts Hdet Henc Hlen Hwrite.
  assert (exists es st',
            VectorStore._generate_embeddings W chunks st = (Ok es, st')
            /\ Forall2 (fun c e => embedding_cache st' !! id_of c = Some e)
                       chunks es) as (es & st' & Hrun & Hsaved).
  { destruct (decide (new_chunks = [])) as [Hnone|Hsome].
    - destruct (generate_embeddings_all_cached W chunks st) as (es & Hrun & Hes);
        [|by exists es, st].
      apply Forall_forall. intros c Hc%list_elem_of_In.
      destruct (embedding_cache st !! id_of c) eqn:Hcache; [by eexists|].
      assert (In c new_chunks) as Hin by (by apply uncached_In).
      rewrite Hnone in Hin. destruct Hin.
    - destruct (generate_embeddings_open chunks st embs Hdet Henc Hlen Hsome)
        as (emap0 & emap' & st' & es & Hloop & Hrun & Hes & Hcached).
      exists es, st'. split; [done|].
      assert (Forall (fun item => exists chunk_id,
                        text_index new_chunks ∅ !! fst item = Some chunk_id
                        /\ write_cache_file W chunk_id (snd item) = Ok tt)
                     (combine texts embs)) as Hall.
      { apply Forall_forall. intros [t e] Hitem%list_elem_of_In.
        pose proof Hitem as (c & <- & Hc)%in_combine_l%in_map_iff.
        exists (id_of c). split; [by apply text_index_lookup | by apply Hwrite]. }
      apply (Forall2_weaken_In _ _ _ _ Hes). intros c e Hc He.
      rewrite <- He. symmetry. apply (loop2_agree _ _ _ _ Hall _ _ Hloop).
      destruct (cache !! id_of c) as [e0|] eqn:Hcache.
      + left. cbn [embedding_cache]. fold cache.
        by rewrite Hcache, (Hcached c e0).
      + right. assert (In c new_chunks) as Hnewc by (by apply uncached_In).
        destruct (zip_covers texts embs (ch_text c) Hlen) as [e' He'].
        { apply in_map_iff. by exists c. }
        exists (ch_text c, e'). split; [done|]. by apply text_index_lookup. }
  exists es, st'. split; [done|]. split; [done|].
  destruct (generate_embeddings_all_cached W chunks st') as (es2 & Hrun2 & Hes2).
  { eapply Forall2_Forall_l; [exact Hsaved|]. apply Forall_forall.
    intros e _ c Hc. by eexists. }
  rewrite Hrun2. do 2 f_equal.
  clear -Hsaved Hes2. revert es2 Hes2.
  induction Hsaved as [|c e cs es Hc _ IH]; intros es2 Hes2;
    inversion Hes2 as [|? e2 ? es2' Hc2 Hes2']; subst; [done|].
  f_equal; [congruence | by apply IH].
Qed.

(** X13. Where the chunks to embed have pairwise different texts and
    pairwise different identifiers and the model answers with one vector per
    text, [_generate_embeddings] returns one vector per chunk in input
    order: for a chunk in the cache the cached vector, for the i-th chunk not
    in the cache the i-th vector of the model's answer. *)
Theorem generate_embeddings_returns_each_chunk_its_vector :
  forall (chunks : list Chunk) (st : State) (embs : list embedding),
    let cache := embedding_cache st in
    let new_chunks := uncached cache chunks in
    let texts := map ch_text new_chunks in
    NoDup texts ->
    NoDup (map (fun c => id_of c) new_chunks) ->
    encode_batch W texts = Ok embs ->
    length embs = length texts ->
    exists es st',
      VectorStore._generate_embeddings W chunks st = (Ok es, st')
      /\ Forall2 (fun c e =>
                    match cache !! id_of c with
                    | Some e0 => e = e0
                    | None => In (c, e) (combine new_chunks embs)
                    end) chunks es.
Proof.
  intros chunks st embs cache new_chunks texts Htexts Hids Henc Hlen.
  assert (forall c1 c2, In c1 new_chunks -> In c2 new_chunks ->
                        ch_text c1 = ch_text c2 -> id_of c1 = id_of c2) as Hdet.
  { intros c1 c2 H1 H2 Heq. f_equal. f_equal.
    apply list_elem_of_In, list_elem_of_lookup in H1 as [i Hi].
    apply list_elem_of_In, list_elem_of_lookup in H2 as [j Hj].
    assert (i = j) as ->; [|congruence].
    eapply NoDup_lookup; [exact Htexts| |]; unfold texts;
      rewrite list_lookup_fmap; [by rewrite Hi | by rewrite Hj, Heq]. }
  destruct (decide (new_chunks = [])) as [Hnone|Hsome].
  - destruct (generate_embeddings_all_cached W chunks st) as (es & Hrun & Hes).
    { apply Forall_forall. intros c Hc%list_elem_of_In.
      destruct (embedding_cache st !! id_of c) eqn:Hcache; [by eexists|].
      assert (In c new_chunks) as Hin by (by apply uncached_In).
      rewrite Hnone in Hin. destruct Hin. }
    exists es, st. split; [done|].
    eapply Forall2_impl; [exact Hes|]. intros c e Hc. cbv beta in *.
    fold cache in Hc. by rewrite Hc.
  - destruct (generate_embeddings_open chunks st embs Hdet Henc Hlen Hsome)
      as (emap0 & emap' & st' & es & Hloop & Hrun & Hes & Hcached).
    exists es, st'. split; [done|].
    assert (Forall (fun item => is_Some (text_index new_chunks ∅ !! fst item))
                   (combine texts embs)) as Hall.
    { apply Forall_forall. intros [t e] Hitem%list_elem_of_In.
      pose proof Hitem as (c & <- & Hc)%in_combine_l%in_map_iff. simpl.
      rewrite text_index_lookup by done. by eexists. }
    destruct (loop2_run W _ _ emap0
                (mkState cache (trace st ++ [EvEncodeBatch texts])) Hall)
      as (emap2 & st2 & Hrun2 & _ & _ & Hother & _).
    pose proof (eq_trans (eq_sym Hrun2) Hloop) as Hsame.
    injection Hsame as -> ->. clear Hrun2.
    assert (map (fun item => text_index new_chunks ∅ !! fst item)
                (combine texts embs)
            = map (fun c => Some (id_of c)) new_chunks) as Hwritten.
    { rewrite <- (map_map fst (fun t => text_index new_chunks ∅ !! t)).
      rewrite zip_firsts by done. unfold texts. rewrite map_map.
      apply map_ext_in. intros c Hc. by apply text_index_lookup. }
    assert (NoDup (map (fun item => text_index new_chunks ∅ !! fst item)
                       (combine texts embs))) as Hnd.
    { rewrite Hwritten. rewrite <- (map_map (fun c => id_of c) Some).
      by apply Fusion.NoDup_map_Some. }
    apply (Forall2_weaken_In _ _ _ _ Hes). intros c e Hc He. cbv beta.
    destruct (cache !! id_of c) as [e0|] eqn:Hcache.
    + rewrite Hother in He; [rewrite (Hcached c e0) in He by done; congruence|].
      intros [t e'] Hitem Hk.
      pose proof Hitem as (c' & <- & Hc')%in_combine_l%in_map_iff.
      simpl in Hk. rewrite text_index_lookup in Hk by done.
      apply uncached_In in Hc' as [_ Hc']. congruence.
    + assert (In c new_chunks) as Hnewc by (by apply uncached_In).
      apply list_elem_of_In, list_elem_of_lookup in Hnewc as [i Hi].
      destruct (embs !! i) as [e'|] eqn:He'.
      2:{ apply lookup_ge_None in He'. apply lookup_lt_Some in Hi.
          unfold texts in Hlen. rewrite length_map in Hlen. lia. }
      assert (In (ch_text c, e') (combine texts embs)) as Hitem.
      { apply list_elem_of_In, list_elem_of_lookup. exists i.
        apply lookup_zip_with_Some. exists (ch_text c), e'.
        split; [done|]. split; [|done].
        unfold texts. by rewrite list_lookup_fmap, Hi. }
      rewrite (loop2_values _ _ _ _ Hall Hnd _ _ Hloop
                 (ch_text c, e') (id_of c) Hitem) in He.
      * injection He as <-. apply list_elem_of_In, list_elem_of_lookup.
        exists i. apply lookup_zip_with_Some. by exists c, e'.
      * by apply text_index_lookup; [|apply list_elem_of_In, list_elem_of_lookup; exists i].
Qed.

End WithWorld.

Lemma generate_embeddings_second_run_is_cached_witness :
  let chunks :=
    PDFProcessor.chunk_text Fixtures.period_world [Fixtures.seven_sentences] in
  exists es st',
    VectorStore._generate_embeddings Fixtures.period_world chunks
      Fixtures.empty_state = (Ok es, st')
    /\ Forall2 (fun c e => embedding_cache st' !! id_of c = Some e) chunks es
    /\ VectorStore._generate_embeddings Fixtures.period_world chunks st'
       = (Ok es, st').
Proof.
  intros chunks.
  apply (generate_embeddings_second_run_is_cached Fixtures.period_world chunks
           Fixtures.empty_state [[171%Q]; [33%Q]]).
  - intros c1 c2 [<-|[<-|[]]] [<-|[<-|[]]]; by vm_compute.
  - by vm_compute.
  - by vm_compute.
  - reflexivity.
Defined.

Lemma generate_embeddings_returns_each_chunk_its_vector_witness :
  let chunks :=
    PDFProcessor.chunk_text Fixtures.period_world [Fixtures.seven_sentences] in
  exists es st',
    VectorStore._generate_embeddings Fixtures.period_world chunks
      Fixtures.empty_state = (Ok es, st')
    /\ Forall2 (fun c e =>
                  match embedding_cache Fixtures.empty_state !! id_of c with
                  | Some e0 => e = e0
                  | None =>
                      In (c, e)
                         (combine (uncached (embedding_cache Fixtures.empty_state)
                                            chunks)
                                  [[171%Q]; [33%Q]])
                  end) chunks es.
Proof.
  intros chunks.
  apply (generate_embeddings_returns_each_chunk_its_vector
           Fixtures.period_world chunks Fixtures.empty_state
           [[171%Q]; [33%Q]]).
  - apply (bool_decide_unpack _). by vm_compute.
  - apply (bool_decide_unpack _). by vm_compute.
  - by vm_compute.
  - by vm_compute.
Defined.

End CacheFacts.

(** ** Keywords of a query *)

Module Keywords.
Import PyFacts Closed Views.

Local Abbreviation occurrences l w := (count_occ string_dec l w).







Section WithWorld.
Context (W : World).


End WithWorld.


End Keywords.

(** ** What the combination keeps *)

Module Merging.
Import PyFacts Closed Views.

Section WithWorld.
Context (W : World).

(** X15. [_combine_results] drops nothing but duplicates: for every dict
    of either input the result holds an entry whose text content has the
    same hash, and it never holds more entries than the inputs hold dicts. *)
Theorem combine_results_drops_only_duplicates :
  forall (semantic_results keyword_results : list PyVal),
    let out := VectorStore._combine_results W semantic_results keyword_results in
    (forall r, In (PyDict r) semantic_results \/ In (PyDict r) keyword_results ->
       exists e, In e out
                 /\ py_hash W (VectorStore.content_of e)
                    = py_hash W (VectorStore.content_of r))
    /\ length out
       <= length (scored (8 # 10) semantic_results)
          + length (scored (6 # 10) keyword_results).
Proof.
  intros semantic keyword out. unfold out.
  rewrite Combine.combine_results_eq. split.
  - intros r Hr.
    assert (exists d, In (VectorStore.with_default_score d r)
                         (combined_list semantic keyword)) as [d Hin].
    { unfold combined_list. destruct Hr as [Hr|Hr].
      - exists (8 # 10). apply in_or_app. left. apply Combine.scored_In.
        by exists r.
      - exists (6 # 10). apply in_or_app. right. apply Combine.scored_In.
        by exists r. }
    destruct (Combine.dedup_from_covers W _ ∅ _ Hin) as [Hseen|(e & He & Heq)].
    + by apply not_elem_of_empty in Hseen.
    + exists e. split; [by apply Sorting.sorted_desc_In | exact Heq].
  - rewrite Sorting.sorted_desc_length. unfold combined_list.
    rewrite <- length_app. apply sublist_length, Combine.dedup_from_sublist.
Qed.

End WithWorld.

Lemma combine_results_drops_only_duplicates_witness :
  let semantic := [PyDict (Fixtures.hit "a" "alpha" "report.pdf" (5 # 10))] in
  let keyword := [PyDict (mkSearchResult None None None (Some "alpha") None);
                  PyDict (mkSearchResult None None None (Some "gamma") None)] in
  let out := VectorStore._combine_results Fixtures.quiet_world semantic keyword in
  map VectorStore.content_of out = ["gamma"; "alpha"]
  /\ (forall r, In (PyDict r) semantic \/ In (PyDict r) keyword ->
        exists e, In e out
                  /\ py_hash Fixtures.quiet_world (VectorStore.content_of e)
                     = py_hash Fixtures.quiet_world (VectorStore.content_of r))
  /\ length out
     <= length (scored (8 # 10) semantic) + length (scored (6 # 10) keyword).
Proof.
  intros semantic keyword out. split; [reflexivity|].
  exact (combine_results_drops_only_duplicates Fixtures.quiet_world
           semantic keyword).
Defined.

End Merging.

(** ** Chunks that share a text *)

Module SharedText.
Import PyFacts Closed Views HybridSearch Embeddings.

Local Abbreviation id_of chunk := (cm_chunk_id (ch_metadata chunk)).

(** Every text of the index points at the identifier of a chunk that
    carries it. *)
Lemma text_index_origin (new_chunks : list Chunk) (text chunk_id : string) :
  text_index new_chunks ∅ !! text = Some chunk_id ->
  exists c, In c new_chunks /\ ch_text c = text /\ id_of c = chunk_id.
Proof.
  unfold text_index.
  induction new_chunks as [|a l IH] using rev_ind; [done|].
  rewrite fold_left_app. cbn [fold_left].
  destruct (string_dec (ch_text a) text) as [<-|Hne].
  - rewrite lookup_insert_eq. intros [= <-]. exists a.
    split; [apply in_or_app; right; by left | done].
  - rewrite lookup_insert_ne by done. intros (c & Hc & Ht & Hid)%IH.
    exists c. split; [apply in_or_app; by left | done].
Qed.

Lemma text_index_some (new_chunks : list Chunk) (c : Chunk) :
  In c new_chunks -> is_Some (text_index new_chunks ∅ !! ch_text c).
Proof.
  unfold text_index.
  induction new_chunks as [|a l IH] using rev_ind; [done|].
  rewrite fold_left_app. cbn [fold_left]. intros [Hc|[->|[]]]%in_app_or.
  - destruct (string_dec (ch_text a) (ch_text c)) as [->|Hne].
    + rewrite lookup_insert_eq. by eexists.
    + rewrite lookup_insert_ne by done. by apply IH.
  - rewrite lookup_insert_eq. by eexists.
Qed.

Lemma collect_missing (emap : gmap string embedding) (chunks : list Chunk)
    (c : Chunk) :
  In c chunks -> emap !! id_of c = None ->
  exists c', In c' chunks
             /\ VectorStore.collect emap chunks = Raise (KeyError (id_of c')).
Proof.
  induction chunks as [|a chunks IH]; [done|]. simpl.
  intros [->|Hc] Hmiss.
  - rewrite Hmiss. exists c. split; [by left | done].
  - destruct (emap !! id_of a); [|exists a; split; [by left | done]].
    destruct (IH Hc Hmiss) as (c' & Hc' & ->). exists c'.
    split; [by right | done].
Qed.

Section WithWorld.
Context (W : World).

(** Among two chunks that share a text but not the identifier, one has an
    identifier that [chunks_to_embed_map] does not hold: the second loop
    never writes it, and the final comprehension raises on it. *)
Lemma shared_text_run :
  forall (chunks : list Chunk) (st : State) (c1 c2 : Chunk),
    In c1 chunks -> In c2 chunks ->
    embedding_cache st !! id_of c1 = None ->
    embedding_cache st !! id_of c2 = None ->
    ch_text c1 = ch_text c2 ->
    id_of c1 <> id_of c2 ->
    (forall c c', In c chunks -> In c' chunks ->
                  id_of c = id_of c' -> ch_text c = ch_text c') ->
    exists e st',
      VectorStore._generate_embeddings W chunks st = (Raise e, st')
      /\ ((exists texts, encode_batch W texts = Raise e)
          \/ exists c, In c chunks /\ e = KeyError (id_of c)).
Proof.
  intros chunks st c1 c2 Hc1 Hc2 Hn1 Hn2 Htext Hids Htied.
  set (cache := embedding_cache st).
  set (new_chunks := uncached cache chunks).
  set (tmap := text_index new_chunks ∅).
  assert (exists c, In c chunks /\ cache !! id_of c = None
                    /\ forall t, tmap !! t <> Some (id_of c))
    as (c & Hc & Hnc & Hnever).
  { assert (In c1 new_chunks /\ In c2 new_chunks) as [Hu1 Hu2].
    { split; by apply uncached_In. }
    assert (forall c, In c new_chunks -> tmap !! ch_text c <> Some (id_of c) ->
                      forall t, tmap !! t <> Some (id_of c)) as Hbad.
    { intros c Hcn Hown t Ht. pose proof Ht as (c' & Hc' & <- & Hid)%text_index_origin.
      apply uncached_In in Hcn as [Hcn _]. apply uncached_In in Hc' as [Hc' _].
      rewrite (Htied c' c Hc' Hcn Hid) in Ht. done. }
    destruct (decide (tmap !! ch_text c1 = Some (id_of c1))) as [Hown|Hown].
    - exists c2. split; [done|]. split; [done|]. apply Hbad; [done|].
      rewrite <- Htext, Hown. congruence.
    - exists c1. split; [done|]. split; [done|]. by apply Hbad. }
  unfold VectorStore._generate_embeddings.
  rewrite bind_run. unfold get_cache at 1. cbv beta iota. fold cache.
  destruct (loop1_closed cache chunks (VectorStore.mkLocals ∅ [] ∅))
    as (Htexts & Htmap & Hsub & _ & _); [apply map_empty_subseteq|].
  cbn [VectorStore.texts_to_embed VectorStore.chunks_to_embed_map app] in *.
  fold new_chunks in Htexts, Htmap. fold tmap in Htmap.
  set (loc := fold_left (VectorStore.lookup_chunk cache) chunks
                        (VectorStore.mkLocals ∅ [] ∅)) in *.
  assert (VectorStore.embeddings_map loc !! id_of c = None) as Hloc.
  { destruct (VectorStore.embeddings_map loc !! id_of c) eqn:Hl; [|done].
    pose proof (lookup_weaken _ _ _ _ Hl Hsub). congruence. }
  rewrite bind_run, Htexts, Htmap.
  destruct (Py.nonempty (map ch_text new_chunks)).
  - rewrite bind_run. unfold call, emit, lift. rewrite bind_run. cbv beta iota.
    destruct (encode_batch W (map ch_text new_chunks)) as [embs|e] eqn:Henc.
    2:{ eexists _, _. split; [done|]. left. by eexists. }
    destruct (loop2_run W tmap (combine (map ch_text new_chunks) embs)
                (VectorStore.embeddings_map loc)
                (mkState (embedding_cache st)
                         (trace st ++ [EvEncodeBatch (map ch_text new_chunks)])))
      as (emap' & st' & -> & _ & _ & Hother & _).
    { apply Forall_forall. intros [t e] Hitem%list_elem_of_In. simpl.
      apply in_combine_l in Hitem. apply in_map_iff in Hitem as (c' & <- & Hc').
      by apply text_index_some. }
    destruct (collect_missing emap' chunks c Hc) as (c' & Hc' & ->).
    { rewrite Hother; [done|]. intros item _. apply Hnever. }
    eexists _, _. split; [done|]. right. by exists c'.
  - unfold ret at 1.
    destruct (collect_missing (VectorStore.embeddings_map loc) chunks c Hc Hloc)
      as (c' & Hc' & ->).
    eexists _, _. split; [done|]. right. by exists c'.
Qed.

(** X16. When two chunks that are not in the cache carry the same text
    under different identifiers (identifiers being tied to one text each),
    [_generate_embeddings] raises, whatever the model and the file system
    do: one of the two identifiers is never given a vector. What it raises
    is the exception of the model, or a [KeyError] on the identifier of a
    chunk of the batch. *)
Theorem generate_embeddings_raises_on_shared_text :
  forall (chunks : list Chunk) (st : State) (c1 c2 : Chunk),
    In c1 chunks -> In c2 chunks ->
    embedding_cache st !! id_of c1 = None ->
    embedding_cache st !! id_of c2 = None ->
    ch_text c1 = ch_text c2 ->
    id_of c1 <> id_of c2 ->
    (forall c c', In c chunks -> In c' chunks ->
                  id_of c = id_of c' -> ch_text c = ch_text c') ->
    exists e st',
      VectorStore._generate_embeddings W chunks st = (Raise e, st')
      /\ ((exists texts, encode_batch W texts = Raise e)
          \/ exists c, In c chunks /\ e = KeyError (id_of c)).
Proof.
  intros chunks st c1 c2 Hc1 Hc2 Hn1 Hn2 Htext Hids Htied.
  by apply (shared_text_run chunks st c1 c2).
Qed.

End WithWorld.

Lemma generate_embeddings_raises_on_shared_text_witness :
  let chunks :=
    PDFProcessor.chunk_text Fixtures.period_world Fixtures.same_text_pages in
  exists e st',
    VectorStore._generate_embeddings Fixtures.period_world chunks
      Fixtures.empty_state = (Raise e, st')
    /\ ((exists texts, encode_batch Fixtures.period_world texts = Raise e)
        \/ exists c, In c chunks /\ e = KeyError (id_of c)).
Proof.
  intros chunks.
  apply (generate_embeddings_raises_on_shared_text Fixtures.period_world chunks
           Fixtures.empty_state
           (mkChunk "This page of the report is intentionally left blank by the authors."
              (mkChunkMeta "report.pdf" 1 "dd5cff75e073275f7163a677ea4deab3"))
           (mkChunk "This page of the report is intentionally left blank by the authors."
              (mkChunkMeta "report.pdf" 2 "5a274ae317e628659dc614dab58ab586"))).
  - vm_compute. by left.
  - vm_compute. right. by left.
  - reflexivity.
  - reflexivity.
  - reflexivity.
  - discriminate.
  - intros c c' Hc Hc' _. vm_compute in Hc, Hc'.
    by destruct Hc as [<-|[<-|[]]], Hc' as [<-|[<-|[]]].
Defined.

End SharedText.

(** ** Reading the PDF files *)

Module IngestFacts.
Import PyFacts Closed Views.







Section WithFiles.
Context (F : Ingest.Files).





End WithFiles.



End IngestFacts.

(** ** Indexing *)

Module IndexingFacts.
Import PyFacts Closed Views HybridSearch Embeddings.

Local Abbreviation id_of chunk := (cm_chunk_id (ch_metadata chunk)).

Lemma collect_length (emap : gmap string embedding) (chunks : list Chunk)
    (es : list embedding) :
  VectorStore.collect emap chunks = Ok es -> length es = length chunks.
Proof.
  revert es. induction chunks as [|c chunks IH]; intros es; simpl.
  - by intros [= <-].
  - destruct (emap !! id_of c); [|done].
    destruct (VectorStore.collect emap chunks) as [es'|]; [|done].
    intros [= <-]. simpl. by rewrite (IH es').
Qed.

Section WithBackend.
Context (W : World) (B : Indexing.Backend).

(** Whenever [_generate_embeddings] returns, it returns one vector per
    chunk. *)
Lemma generate_embeddings_length (chunks : list Chunk) (st st' : State)
    (es : list embedding) :
  VectorStore._generate_embeddings W chunks st = (Ok es, st') ->
  length es = length chunks.
Proof.
  unfold VectorStore._generate_embeddings.
  rewrite bind_run. unfold get_cache at 1. cbv beta iota. rewrite bind_run.
  destruct (Py.nonempty _).
  - rewrite bind_run. unfold call, emit, lift. rewrite bind_run.
    cbv beta iota.
    destruct (encode_batch W _) as [embs|e]; [|done].
    destruct (for_each _ _ _ _) as [[emap|e] st1]; [|done].
    destruct (VectorStore.collect emap chunks) as [es'|] eqn:Hes; [|done].
    intros [= <- _]. by apply collect_length in Hes.
  - unfold ret at 1, lift.
    destruct (VectorStore.collect _ chunks) as [es'|] eqn:Hes; [|done].
    intros [= <- _]. by apply collect_length in Hes.
Qed.

Lemma execute_insert_ok (table table' : list Indexing.KeywordRow)
    (row : Indexing.KeywordRow) :
  Indexing.execute_insert B table row = Ok table' ->
  table' = table ++ [row]
  /\ ~ In (Indexing.kr_id row) (map Indexing.kr_id table)
  /\ Indexing.insert_error B row = None.
Proof.
  unfold Indexing.execute_insert.
  destruct (Indexing.insert_error B row); [done|].
  destruct (Py.contains _ _) eqn:Hin; [done|].
  intros [= <-]. split; [done|]. split; [|done].
  intros Hin'%contains_In. congruence.
Qed.

Lemma execute_insert_raises (table : list Indexing.KeywordRow)
    (row : Indexing.KeywordRow) (e : exn) :
  Indexing.execute_insert B table row = Raise e ->
  (exists msg, e = SqliteError msg)
  /\ (Indexing.insert_error B row = None ->
      In (Indexing.kr_id row) (map Indexing.kr_id table)).
Proof.
  unfold Indexing.execute_insert.
  destruct (Indexing.insert_error B row) as [msg|].
  - intros [= <-]. split; [by eexists | done].
  - destruct (Py.contains _ _) eqn:Hin; [|done].
    intros [= <-]. split; [by eexists|]. intros _. by apply contains_In.
Qed.

(** The rows [insert_chunks] adds. *)
Lemma insert_chunks_rows (chunks : list Chunk)
    (table : list Indexing.KeywordRow) :
  let r := fst (Indexing.insert_chunks W B chunks table) in
  let table' := snd (Indexing.insert_chunks W B chunks table) in
  (exists added,
     table' = table ++ added
     /\ Forall (fun row =>
                  exists chunk,
                    In chunk chunks
                    /\ Indexing._extract_keywords W (ch_text chunk)
                       = Ok (Indexing.kr_keywords row)
                    /\ row = Indexing.row_of chunk (Indexing.kr_keywords row))
               added)
  /\ (NoDup (map Indexing.kr_id table) -> NoDup (map Indexing.kr_id table'))
  /\ (r = Ok tt ->
      forall chunk keywords,
        In chunk chunks ->
        Indexing._extract_keywords W (ch_text chunk) = Ok keywords ->
        Indexing.insert_error B (Indexing.row_of chunk keywords) = None ->
        In (id_of chunk) (map Indexing.kr_id table'))
  /\ (forall e, r = Raise e ->
        exists chunk, In chunk chunks
                      /\ word_tokenize W (ch_text chunk) = Raise e).
Proof.
  revert table. induction chunks as [|chunk chunks IH]; intros table;
    cbn [Indexing.insert_chunks].
  - cbn [fst snd]. split; [exists []; by rewrite app_nil_r|].
    split; [done|]. split; [by intros _ ? ? []|]. by intros e [=].
  - destruct (Indexing._extract_keywords W (ch_text chunk)) as [kws|e] eqn:Hkw.
    2:{ cbn [fst snd]. split; [exists []; by rewrite app_nil_r|].
        split; [done|]. split; [done|]. intros e' [= <-]. exists chunk.
        split; [by left|]. unfold Indexing._extract_keywords in Hkw.
        destruct (word_tokenize W (ch_text chunk)); congruence. }
    assert (forall table1,
              (table1 = table \/ table1 = table ++ [Indexing.row_of chunk kws]) ->
              (NoDup (map Indexing.kr_id table) ->
               NoDup (map Indexing.kr_id table1)) ->
              (Indexing.insert_error B (Indexing.row_of chunk kws) = None ->
               In (id_of chunk) (map Indexing.kr_id table1)) ->
              let r := fst (Indexing.insert_chunks W B chunks table1) in
              let table' := snd (Indexing.insert_chunks W B chunks table1) in
              (exists added,
                 table' = table ++ added
                 /\ Forall (fun row =>
                      exists chunk0,
                        In chunk0 (chunk :: chunks)
                        /\ Indexing._extract_keywords W (ch_text chunk0)
                           = Ok (Indexing.kr_keywords row)
                        /\ row = Indexing.row_of chunk0 (Indexing.kr_keywords row))
                      added)
              /\ (NoDup (map Indexing.kr_id table) ->
                  NoDup (map Indexing.kr_id table'))
              /\ (r = Ok tt ->
                  forall chunk0 keywords,
                    In chunk0 (chunk :: chunks) ->
                    Indexing._extract_keywords W (ch_text chunk0) = Ok keywords ->
                    Indexing.insert_error B (Indexing.row_of chunk0 keywords)
                    = None ->
                    In (id_of chunk0) (map Indexing.kr_id table'))
              /\ (forall e, r = Raise e ->
                    exists chunk0, In chunk0 (chunk :: chunks)
                                   /\ word_tokenize W (ch_text chunk0) = Raise e))
      as Hrest.
    { intros table1 Htable1 Hnd1 Hin1 r table'.
      destruct (IH table1) as ((added & Hadded & Hrows) & Hnd & Hall & Hraise).
      fold r in Hall, Hraise. fold table' in Hadded, Hnd, Hall.
      split; [|split; [|split]].
      - assert (Forall (fun row =>
                  exists chunk0,
                    In chunk0 (chunk :: chunks)
                    /\ Indexing._extract_keywords W (ch_text chunk0)
                       = Ok (Indexing.kr_keywords row)
                    /\ row = Indexing.row_of chunk0 (Indexing.kr_keywords row))
                  added) as Hrows'.
        { eapply Forall_impl; [exact Hrows|].
          intros row (c & Hc & Hk & Hr). exists c. split; [by right | done]. }
        destruct Htable1 as [->| ->].
        + by exists added.
        + exists (Indexing.row_of chunk kws :: added).
          rewrite Hadded, <- app_assoc. split; [done|].
          constructor; [|done]. exists chunk. split; [by left | done].
      - intros Hnd0. by apply Hnd, Hnd1.
      - intros Hr chunk0 keywords [<-|Hc] Hk Herr.
        + assert (keywords = kws) as -> by congruence.
          rewrite Hadded, map_app. apply in_or_app. left. by apply Hin1.
        + by apply (Hall Hr chunk0 keywords).
      - intros e He. destruct (Hraise e He) as (c & Hc & Htok).
        exists c. split; [by right | done]. }
    destruct (Indexing.execute_insert B table (Indexing.row_of chunk kws))
      as [table1|e] eqn:Hins.
    + apply execute_insert_ok in Hins as (-> & Hfresh & _).
      apply Hrest; [by right | |].
      * intros Hnd. rewrite map_app. apply NoDup_app. split; [done|].
        split; [|apply NoDup_singleton].
        intros x Hx [<-|[]]%list_elem_of_In. by apply Hfresh, list_elem_of_In.
      * intros _. rewrite map_app. apply in_or_app. right. by left.
    + apply execute_insert_raises in Hins as [[msg ->] Hdup].
      apply Hrest; [by left | done | exact Hdup].
Qed.

Lemma points_of_chunks (chunks : list Chunk) (embeddings : list embedding) :
  length embeddings = length chunks ->
  let points := map Indexing.point_of (combine chunks embeddings) in
  Forall2 (fun c p =>
             Indexing.ps_id p = id_of c
             /\ Indexing.ps_payload p
                = mkPayload (Some (ch_text c))
                            (Some (cm_pdf_name (ch_metadata c)))
                            (Some (cm_page (ch_metadata c))) None)
          chunks points
  /\ map Indexing.ps_vector points = embeddings.
Proof.
  revert embeddings.
  induction chunks as [|c chunks IH]; intros [|e es] Hlen; simpl in *;
    try done.
  destruct (IH es) as [Hall Hvec]; [lia|].
  split; [by constructor | by rewrite Hvec].
Qed.

(** X19. When [create_index] returns on a non-empty batch, the embeddings
    were generated, and the vector index accepted exactly one batch of
    points: one point per chunk, in order, with the chunk's identifier, the
    vector generated for it and the payload [{text, pdf_name, page}] of the
    chunk; the keyword table kept its rows and holds a row under the
    identifier of every chunk whose [INSERT] the engine did not refuse. *)
Theorem create_index_indexes_every_chunk :
  forall (chunks : list Chunk) (ix ix' : Indexing.Index),
    chunks <> [] ->
    Indexing.create_index W B chunks ix = (Ok tt, ix') ->
    exists embeddings points,
      VectorStore._generate_embeddings W chunks (Indexing.ix_state ix)
      = (Ok embeddings, Indexing.ix_state ix')
      /\ Indexing.ix_upserted ix' = Indexing.ix_upserted ix ++ [points]
      /\ Forall2 (fun c p =>
                    Indexing.ps_id p = id_of c
                    /\ Indexing.ps_payload p
                       = mkPayload (Some (ch_text c))
                                   (Some (cm_pdf_name (ch_metadata c)))
                                   (Some (cm_page (ch_metadata c))) None)
                 chunks points
      /\ map Indexing.ps_vector points = embeddings
      /\ (exists added,
            Indexing.ix_table ix' = Indexing.ix_table ix ++ added)
      /\ forall chunk keywords,
           In chunk chunks ->
           Indexing._extract_keywords W (ch_text chunk) = Ok keywords ->
           Indexing.insert_error B (Indexing.row_of chunk keywords) = None ->
           In (id_of chunk) (map Indexing.kr_id (Indexing.ix_table ix')).
Proof.
  intros chunks ix ix' Hne. unfold Indexing.create_index.
  apply nonempty_true in Hne. rewrite Hne. cbn [negb].
  destruct (VectorStore._generate_embeddings W chunks (Indexing.ix_state ix))
    as [[embs|e] st'] eqn:Hgen; [|done].
  unfold Indexing.upsert_vectors.
  destruct (Indexing.client_upsert B _); [|done].
  destruct (insert_chunks_rows chunks (Indexing.ix_table ix))
    as ((added & Hadded & _) & _ & Hall & _).
  destruct (Indexing.insert_chunks W B chunks (Indexing.ix_table ix))
    as [r table'] eqn:Hins.
  cbn [fst snd] in *. intros [= -> <-]. cbn [Indexing.ix_state
    Indexing.ix_upserted Indexing.ix_table].
  destruct (points_of_chunks chunks embs) as [Hpoints Hvec].
  { by eapply generate_embeddings_length. }
  eexists embs, _. split; [done|]. split; [done|]. split; [exact Hpoints|].
  split; [exact Hvec|]. split; [by exists added|]. by apply Hall.
Qed.

(** X20. [create_index] writes the keyword table only after the vector
    index accepted the batch: however it ends, the rows that were in the
    table stay as they were, the vector index gets at most one batch, and
    where it got none (the batch was empty, the embeddings or the upsert
    failed) no row was added. *)
Theorem create_index_writes_keywords_after_vectors :
  forall (chunks : list Chunk) (ix : Indexing.Index),
    let ix' := snd (Indexing.create_index W B chunks ix) in
    (exists added, Indexing.ix_table ix' = Indexing.ix_table ix ++ added)
    /\ (Indexing.ix_upserted ix' = Indexing.ix_upserted ix
        \/ exists points,
             Indexing.ix_upserted ix' = Indexing.ix_upserted ix ++ [points])
    /\ (Indexing.ix_upserted ix' = Indexing.ix_upserted ix ->
        Indexing.ix_table ix' = Indexing.ix_table ix).
Proof.
  intros chunks ix ix'. unfold ix', Indexing.create_index.
  assert (exists added : list Indexing.KeywordRow,
            Indexing.ix_table ix = Indexing.ix_table ix ++ added) as Hsame.
  { exists []. by rewrite app_nil_r. }
  destruct (negb (Py.nonempty chunks)); [by cbn [snd]; auto|].
  destruct (VectorStore._generate_embeddings W chunks (Indexing.ix_state ix))
    as [[embs|e] st']; [|by cbn [snd Indexing.ix_table Indexing.ix_upserted]; auto].
  unfold Indexing.upsert_vectors.
  destruct (Indexing.client_upsert B _);
    [|by cbn [snd Indexing.ix_table Indexing.ix_upserted]; auto].
  destruct (insert_chunks_rows chunks (Indexing.ix_table ix))
    as ((added & Hadded & _) & _).
  destruct (Indexing.insert_chunks W B chunks (Indexing.ix_table ix))
    as [r table'].
  cbn [fst snd Indexing.ix_table Indexing.ix_upserted] in *.
  split; [by exists added|]. split; [right; by eexists|].
  intros Heq. apply (f_equal length) in Heq.
  rewrite length_app in Heq. simpl in Heq. lia.
Qed.





(** One pass of the loading loop, on a file whose stem is not in the cache
    yet. *)
Lemma load_file_lookup (cache : gmap string embedding) (stem : string)
    (data : result Indexing.CacheFile) (k : string) (e : embedding) :
  cache !! stem = None ->
  (Indexing.load_file cache (stem, data) !! k = Some e
   <-> cache !! k = Some e
       \/ (k = stem /\ data = Ok (Indexing.saved_file e))).
Proof.
  intros Hfresh. unfold Indexing.load_file, Indexing.saved_file.
  assert (cache !! k = Some e -> k <> stem) as Hother by congruence.
  destruct data as [[emb model]|err]; simpl.
  2:{ split; [by left | by intros [?|[_ ?]]]. }
  destruct model as [model|].
  2:{ split; [by left | by intros [?|[_ ?]]]. }
  destruct (String.eqb_spec model Config.EMBEDDING_MODEL) as [->|Hmodel].
  2:{ split; [by left | intros [?|[_ ?]]; [done | congruence]]. }
  destruct emb as [e0|].
  2:{ split; [by left | by intros [?|[_ ?]]]. }
  destruct (decide (k = stem)) as [->|Hne].
  - rewrite lookup_insert_eq. split.
    + intros [= ->]. by right.
    + intros [?|[_ [= ->]]]; [congruence | done].
  - rewrite lookup_insert_ne by done. split; [by left|].
    by intros [?|[? _]].
Qed.

Lemma load_files_lookup (files : list (string * result Indexing.CacheFile))
    (cache : gmap string embedding) (k : string) (e : embedding) :
  NoDup (map fst files) ->
  (forall file, In file files -> cache !! fst file = None) ->
  (fold_left Indexing.load_file files cache !! k = Some e
   <-> cache !! k = Some e
       \/ In (k, Ok (Indexing.saved_file e)) files).
Proof.
  revert cache. induction files as [|[stem data] files IH]; intros cache Hnd Hfresh.
  - simpl. split; [by left | by intros [?|[]]].
  - cbn [fold_left]. simpl in Hnd. apply NoDup_cons in Hnd as [Hstem Hnd].
    rewrite IH; [|done|].
    + rewrite load_file_lookup by (apply (Hfresh (stem, data)); by left).
      simpl. split.
      * intros [[?|[-> ->]]|?]; [by left | right; by left | right; by right].
      * intros [?|[[= -> ->]|?]]; [left; by left | left; by right | by right].
    + intros [stem' data'] Hfile. simpl.
      assert (stem' <> stem) as Hne.
      { intros ->. apply Hstem, list_elem_of_In, in_map_iff.
        by exists (stem, data'). }
      assert (cache !! stem' = None) as Hc.
      { apply (Hfresh (stem', data')). by right. }
      destruct (Indexing.load_file cache (stem, data) !! stem') as [e'|] eqn:Hl;
        [|done].
      apply load_file_lookup in Hl as [?|[? _]]; [congruence | done |].
      apply (Hfresh (stem, data)). by left.
Qed.

(** X23. [_load_embedding_cache] leaves a cache that holds anything as it
    is. Into an empty cache it loads exactly the files of the cache
    directory that parse and carry the configured model and an embedding,
    each under the stem of its file name: a file as [_save_embedding]
    writes it comes back under its chunk identifier with the same vector,
    so a directory holding the files saved for a cache gives that cache
    back. *)
Theorem load_embedding_cache_reads_what_was_saved :
  NoDup (map fst (Indexing.cache_files B)) ->
  (forall cache, cache <> ∅ -> Indexing._load_embedding_cache B cache = cache)
  /\ (forall chunk_id e,
        Indexing._load_embedding_cache B ∅ !! chunk_id = Some e
        <-> In (chunk_id, Ok (Indexing.saved_file e)) (Indexing.cache_files B))
  /\ (forall saved : gmap string embedding,
        Permutation (Indexing.cache_files B)
                    (map (fun kv => (fst kv, Ok (Indexing.saved_file (snd kv))))
                         (map_to_list saved)) ->
        Indexing._load_embedding_cache B ∅ = saved).
Proof.
  intros Hnd.
  assert (forall chunk_id e,
            Indexing._load_embedding_cache B ∅ !! chunk_id = Some e
            <-> In (chunk_id, Ok (Indexing.saved_file e))
                   (Indexing.cache_files B)) as Hload.
  { intros k e. unfold Indexing._load_embedding_cache.
    destruct (decide _) as [_|Hne]; [|done].
    rewrite load_files_lookup by done.
    rewrite lookup_empty. split; [by intros [?|?] | by right]. }
  split; [|split; [exact Hload|]].
  - intros cache Hne. unfold Indexing._load_embedding_cache.
    by destruct (decide _).
  - intros saved Hfiles. apply map_eq. intros k.
    destruct (saved !! k) as [e|] eqn:Hk.
    + apply Hload. rewrite Hfiles. apply in_map_iff. exists (k, e).
      split; [done|]. by apply list_elem_of_In, elem_of_map_to_list.
    + destruct (Indexing._load_embedding_cache B ∅ !! k) as [e|] eqn:Hl;
        [|done].
      apply Hload in Hl. rewrite Hfiles in Hl.
      apply in_map_iff in Hl as ([k' e'] & [= -> Hsaved] & Hin).
      apply list_elem_of_In, elem_of_map_to_list in Hin. congruence.
Qed.

End WithBackend.

Lemma create_index_indexes_every_chunk_witness :
  let chunks :=
    PDFProcessor.chunk_text Fixtures.period_world [Fixtures.seven_sentences] in
  let run := Indexing.create_index Fixtures.period_world Samples.plain_backend
               chunks Samples.empty_index in
  chunks <> []
  /\ fst run = Ok tt
  /\ exists embeddings points,
       VectorStore._generate_embeddings Fixtures.period_world chunks
         Fixtures.empty_state
       = (Ok embeddings, Indexing.ix_state (snd run))
       /\ Indexing.ix_upserted (snd run) = [] ++ [points]
       /\ map Indexing.ps_vector points = embeddings
       /\ map Indexing.ps_id points = map (fun c => id_of c) chunks.
Proof.
  intros chunks run. split; [done|]. split; [reflexivity|].
  destruct (create_index_indexes_every_chunk Fixtures.period_world
              Samples.plain_backend chunks Samples.empty_index (snd run))
    as (embeddings & points & Hgen & Hups & Hall & Hvec & _).
  - done.
  - reflexivity.
  - exists embeddings, points. split; [exact Hgen|]. split; [exact Hups|].
    split; [exact Hvec|]. clear -Hall.
    induction Hall as [|c p cs ps [Hid _] _ IH]; [done|].
    simpl. by rewrite Hid, IH.
Defined.

Lemma create_index_writes_keywords_after_vectors_witness :
  let ix' := snd (Indexing.create_index Fixtures.period_world
                    Samples.plain_backend
                    (PDFProcessor.chunk_text Fixtures.period_world
                       Fixtures.same_text_pages)
                    Samples.empty_index) in
  Indexing.ix_upserted ix' = [] /\ Indexing.ix_table ix' = [].
Proof.
  intros ix'.
  destruct (create_index_writes_keywords_after_vectors Fixtures.period_world
              Samples.plain_backend
              (PDFProcessor.chunk_text Fixtures.period_world
                 Fixtures.same_text_pages)
              Samples.empty_index) as (_ & _ & Hnone).
  split; [reflexivity|]. apply Hnone. reflexivity.
Defined.



Lemma load_embedding_cache_reads_what_was_saved_witness :
  NoDup (map fst (Indexing.cache_files Samples.plain_backend))
  /\ Indexing._load_embedding_cache Samples.plain_backend ∅
     = {["62ae8d4dc68a37a9276f674c9f5631f7" := [171%Q]]}
  /\ forall chunk_id e,
       Indexing._load_embedding_cache Samples.plain_backend ∅ !! chunk_id
       = Some e
       <-> In (chunk_id, Ok (Indexing.saved_file e))
              (Indexing.cache_files Samples.plain_backend).
Proof.
  assert (NoDup (map fst (Indexing.cache_files Samples.plain_backend))) as Hnd.
  { apply (bool_decide_unpack _). by vm_compute. }
  split; [exact Hnd|]. split; [reflexivity|].
  exact (proj1 (proj2 (load_embedding_cache_reads_what_was_saved
                         Samples.plain_backend Hnd))).
Defined.

End IndexingFacts.

(** ** The request handlers *)

Module ApiFacts.
Import PyFacts Closed Views HybridSearch.

Local Abbreviation id_of chunk := (cm_chunk_id (ch_metadata chunk)).

Section WithServices.
Context (S : ApiServer.Services) (W : World).

Lemma restricted_documents (data : ApiServer.Request) (names : list string) :
  restricted_to S data names ->
  ApiServer.get_accessible_documents S (ApiServer.rq_userId data)
    (ApiServer.rq_accessLevel data) = Some names.
Proof.
  intros (level & -> & Hne & Hall & Hnames).
  unfold ApiServer.get_accessible_documents.
  apply truthy_nonempty in Hne. rewrite Hne. apply String.eqb_neq in Hall.
  rewrite Hall. cbn [negb orb]. by rewrite Hnames.
Qed.

Lemma hybrid_hits_length (query : string)
    (accessible_docs : option (list string)) :
  length (hybrid_hits W query accessible_docs) <= 8.
Proof.
  unfold hybrid_hits. destruct (_ <? 5).
  - destruct (keyword_rows W _ 5); [rewrite length_firstn | simpl]; lia.
  - rewrite length_firstn. lia.
Qed.

(** X24. A search request with a query, to a running service, with an
    access level other than none, the empty one and ['all'], and a data
    directory that lists at least one file, is answered with at most 8
    results, each of a document the directory lists. *)
Theorem search_request_returns_listed_documents_only :
  forall (data : ApiServer.Request) (st : State) (query : string)
         (names : list string),
    ApiServer.rq_query data = Some query ->
    query <> EmptyString ->
    ApiServer.vector_store_up S = true ->
    restricted_to S data names ->
    names <> [] ->
    exists results st',
      ApiServer.handle_search_request S W data st
      = (ApiServer.SearchResponse results, st')
      /\ length results <= 8
      /\ forall r, In r results ->
           exists name, VectorStore.doc_name_of r = Some name
                        /\ name <> EmptyString /\ In name names.
Proof.
  intros data st query names Hquery Hne Hup Hlevel Hnames.
  unfold ApiServer.handle_search_request.
  rewrite Hquery, Hup, (restricted_documents data names Hlevel).
  cbn [default from_option id negb]. apply truthy_nonempty in Hne. rewrite Hne. cbn [negb].
  destruct (Retrieval.hybrid_search_hits W query (Some names) st)
    as (st' & -> & _).
  eexists _, _. split; [reflexivity|]. split; [apply hybrid_hits_length|].
  intros r Hr. apply AccessFilter.permitted_iff.
  by apply (Retrieval.hybrid_hits_permitted W query).
Qed.

(** X25. Without an access level, with the empty one or ['all'], and
    equally when the data directory lists no file or cannot be listed, a
    search request is answered with the unrestricted results of
    [hybrid_search]. *)
Theorem search_request_is_unrestricted_without_a_listing :
  forall (data : ApiServer.Request) (st : State) (query : string),
    ApiServer.rq_query data = Some query ->
    query <> EmptyString ->
    ApiServer.vector_store_up S = true ->
    ApiServer.rq_accessLevel data = None
    \/ ApiServer.rq_accessLevel data = Some EmptyString
    \/ ApiServer.rq_accessLevel data = Some "all"
    \/ ApiServer.data_dir_pdfs S = Ok []
    \/ (exists e, ApiServer.data_dir_pdfs S = Raise e) ->
    exists results,
      fst (VectorStore.hybrid_search W query None st) = Ok results
      /\ fst (ApiServer.handle_search_request S W data st)
         = ApiServer.SearchResponse results.
Proof.
  intros data st query Hquery Hne Hup Hcase.
  unfold ApiServer.handle_search_request.
  rewrite Hquery, Hup. cbn [default from_option id negb].
  apply truthy_nonempty in Hne. rewrite Hne. cbn [negb].
  destruct (Retrieval.hybrid_search_hits W query None st) as (st0 & -> & _).
  exists (hybrid_hits W query None). split; [done|].
  assert (ApiServer.get_accessible_documents S (ApiServer.rq_userId data)
            (ApiServer.rq_accessLevel data) = None
          \/ ApiServer.get_accessible_documents S (ApiServer.rq_userId data)
               (ApiServer.rq_accessLevel data) = Some []) as [-> | ->].
  { unfold ApiServer.get_accessible_documents.
    destruct Hcase as [->|[->|[->|[Hdir|[e Hdir]]]]]; try by left.
    - rewrite Hdir. destruct (ApiServer.rq_accessLevel data) as [level|];
        [|by left].
      destruct (_ || _); [by left | by right].
    - rewrite Hdir. destruct (ApiServer.rq_accessLevel data) as [level|];
        [|by left].
      destruct (_ || _); by left. }
  - by destruct (Retrieval.hybrid_search_hits W query None st)
      as (st' & -> & _).
  - by destruct (Retrieval.hybrid_search_hits W query (Some []) st)
      as (st' & -> & _).
Qed.

(** X26. A chat request under the same restriction is answered with
    sources of listed documents only, or with the error ['text'] when a
    retrieved chunk has no text; no other exception reaches the caller. *)
Theorem chatbot_request_cites_listed_documents_only :
  forall (data : ApiServer.Request) (st : State) (query : string)
         (names : list string),
    ApiServer.rq_query data = Some query ->
    query <> EmptyString ->
    ApiServer.chatbot_up S = true ->
    restricted_to S data names ->
    names <> [] ->
    match fst (ApiServer.handle_chatbot_request S W data st) with
    | ApiServer.ChatResponse response sources =>
        forall c, In c sources ->
          exists name, Chatbot.doc_name_of c = Some name
                       /\ name <> EmptyString /\ In name names
    | ApiServer.ErrorResponse error => error = "'text'"
    | _ => False
    end.
Proof.
  intros data st query names Hquery Hne Hup Hlevel Hnames.
  unfold ApiServer.handle_chatbot_request.
  rewrite Hquery, Hup, (restricted_documents data names Hlevel).
  cbn [default from_option id negb]. apply truthy_nonempty in Hne. rewrite Hne. cbn [negb].
  rewrite Dialogue.generate_response_run. unfold response_of. rewrite Hne.
  cbn [negb].
  pose proof (Dialogue.retrieved_permitted W query names) as Hperm.
  destruct (retrieved W query (Some names)) as [message|chunks];
    [by intros c []|].
  destruct (Chatbot.chunk_texts chunks) as [texts|e] eqn:Htexts.
  - assert (forall c, In c chunks ->
              exists name, Chatbot.doc_name_of c = Some name
                           /\ name <> EmptyString /\ In name names) as Hsources.
    { intros c Hc. apply AccessFilter.permitted_iff. by apply (Hperm chunks). }
    by destruct (ollama_generate W Config.OLLAMA_MODEL (prompt_of query texts)).
  - apply Dialogue.chunk_texts_raises in Htexts. by subst e.
Qed.

(** X27. A process request for some files, with the vector store up, fails
    with an error and indexes nothing when the directory yields two chunks
    that are not in the cache and carry the same text under different
    identifiers (identifiers being tied to one text each): neither the
    vector index nor the keyword table is written. *)
Theorem process_request_indexes_nothing_on_shared_text :
  forall (F : Ingest.Files) (B : Indexing.Backend) (data : ApiServer.Request)
         (ix : Indexing.Index) (files : list string) (c1 c2 : Chunk),
    ApiServer.rq_files data = Some files ->
    files <> [] ->
    ApiServer.vector_store_up S = true ->
    let chunks := Ingest.process_pdfs F W in
    let cache := embedding_cache (Indexing.ix_state ix) in
    In c1 chunks -> In c2 chunks ->
    cache !! id_of c1 = None -> cache !! id_of c2 = None ->
    ch_text c1 = ch_text c2 ->
    id_of c1 <> id_of c2 ->
    (forall c c', In c chunks -> In c' chunks ->
                  id_of c = id_of c' -> ch_text c = ch_text c') ->
    exists error ix',
      ApiServer.handle_process_request S W F B data ix
      = (ApiServer.ErrorResponse error, ix')
      /\ Indexing.ix_upserted ix' = Indexing.ix_upserted ix
      /\ Indexing.ix_table ix' = Indexing.ix_table ix.
Proof.
  intros F B data ix files c1 c2 Hfiles Hne Hup chunks cache
         Hc1 Hc2 Hn1 Hn2 Htext Hids Htied.
  unfold ApiServer.handle_process_request.
  rewrite Hfiles, Hup. cbn [default from_option id]. apply nonempty_true in Hne.
  rewrite Hne. cbn [negb]. cbv zeta. fold chunks.
  assert (Py.nonempty chunks = true) as Hsome by (by destruct chunks).
  rewrite Hsome. cbn [andb]. unfold Indexing.create_index. rewrite Hsome.
  cbn [negb].
  destruct (SharedText.shared_text_run W chunks (Indexing.ix_state ix) c1 c2)
    as (e & st' & -> & _); try done.
  by eexists _, _.
Qed.

End WithServices.

Lemma search_request_returns_listed_documents_only_witness :
  let data := ApiServer.mkRequest (Some "opening hours") (Some "u17")
                (Some "staff") None in
  exists results st',
    ApiServer.handle_search_request Samples.public_services
      Samples.two_document_world data Fixtures.empty_state
    = (ApiServer.SearchResponse results, st')
    /\ length results <= 8
    /\ forall r, In r results ->
         exists name, VectorStore.doc_name_of r = Some name
                      /\ name <> EmptyString /\ In name ["public.pdf"].
Proof.
  intros data.
  apply (search_request_returns_listed_documents_only Samples.public_services
           Samples.two_document_world data Fixtures.empty_state
           "opening hours" ["public.pdf"]).
  - reflexivity.
  - discriminate.
  - reflexivity.
  - exists "staff". repeat split; discriminate.
  - discriminate.
Defined.

Lemma search_request_is_unrestricted_without_a_listing_witness :
  let data := ApiServer.mkRequest (Some "opening hours") (Some "u17")
                (Some "all") None in
  exists results,
    fst (VectorStore.hybrid_search Samples.two_document_world "opening hours"
           None Fixtures.empty_state) = Ok results
    /\ fst (ApiServer.handle_search_request Samples.public_services
              Samples.two_document_world data Fixtures.empty_state)
       = ApiServer.SearchResponse results.
Proof.
  intros data.
  apply (search_request_is_unrestricted_without_a_listing
           Samples.public_services Samples.two_document_world data
           Fixtures.empty_state "opening hours").
  - reflexivity.
  - discriminate.
  - reflexivity.
  - right. right. by left.
Defined.

Lemma chatbot_request_cites_listed_documents_only_witness :
  let data := ApiServer.mkRequest (Some "opening hours") (Some "u17")
                (Some "staff") None in
  fst (ApiServer.handle_chatbot_request Samples.public_services
         Samples.two_document_world data Fixtures.empty_state)
  = ApiServer.ChatResponse "fine"
      [Fixtures.payload_of "opening hours" "public.pdf"]
  /\
  match fst (ApiServer.handle_chatbot_request Samples.public_services
               Samples.two_document_world data Fixtures.empty_state) with
  | ApiServer.ChatResponse response sources =>
      forall c, In c sources ->
        exists name, Chatbot.doc_name_of c = Some name
                     /\ name <> EmptyString /\ In name ["public.pdf"]
  | ApiServer.ErrorResponse error => error = "'text'"
  | _ => False
  end.
Proof.
  intros data. split; [reflexivity|].
  apply (chatbot_request_cites_listed_documents_only Samples.public_services
           Samples.two_document_world data Fixtures.empty_state
           "opening hours" ["public.pdf"]).
  - reflexivity.
  - discriminate.
  - reflexivity.
  - exists "staff". repeat split; discriminate.
  - discriminate.
Defined.

Lemma process_request_indexes_nothing_on_shared_text_witness :
  let data := ApiServer.mkRequest None None None (Some ["a.pdf"]) in
  exists error ix',
    ApiServer.handle_process_request Samples.public_services
      Fixtures.period_world Samples.twin_files Samples.plain_backend data
      Samples.empty_index
    = (ApiServer.ErrorResponse error, ix')
    /\ Indexing.ix_upserted ix' = Indexing.ix_upserted Samples.empty_index
    /\ Indexing.ix_table ix' = Indexing.ix_table Samples.empty_index.
Proof.
  intros data.
  apply (process_request_indexes_nothing_on_shared_text
           Samples.public_services Fixtures.period_world Samples.twin_files
           Samples.plain_backend data Samples.empty_index ["a.pdf"]
           (mkChunk "This page of the report is intentionally left blank by the authors."
              (mkChunkMeta "a.pdf" 1 (PDFProcessor.chunk_id_of "a.pdf" 1 0)))
           (mkChunk "This page of the report is intentionally left blank by the authors."
              (mkChunkMeta "b.pdf" 1 (PDFProcessor.chunk_id_of "b.pdf" 1 0)))).
  - reflexivity.
  - discriminate.
  - reflexivity.
  - vm_compute. by left.
  - vm_compute. right. by left.
  - reflexivity.
  - reflexivity.
  - reflexivity.
  - by vm_compute.
  - intros c c' Hc Hc' _. vm_compute in Hc, Hc'.
    by destruct Hc as [<-|[<-|[]]], Hc' as [<-|[<-|[]]].
Defined.

End ApiFacts.
